(** * doi2pdf: a shallow embedding of [main.py] and its specification

    The program resolves a DOI, a title or a URL against the OpenAlex
    service, tries the open-access URL of the record, falls back to a
    browser-driven Sci-Hub lookup, and stores the downloaded bytes.

    Conventions of the embedding.
    - A Python [str] and a Python [bytes] value are both a [string].  A
      character of a [str] stands for a code point below 256, a character
      of a [bytes] value for a byte.  [Optional[str]] is [option string];
      the truth value of such a value is [truthy].
    - What [response.json()] returns, and every variable and key of
      [summary_data] that receives a part of it, is a [json_value]: the
      program reads these values without checking their types, and an
      operation a value does not have raises [AttributeError],
      [TypeError], [KeyError] or [IndexError] as in Python.
    - Exceptions are explicit: a computation returns [Ok v] or [Raise r].
      [sys.exit] raises [SystemExit], which no [except Exception] clause
      catches.
    - The outside world (HTTP, the browser, the file system) is a record of
      oracles [Env]; library calls either answer or fail with an instance
      of [Exception].  What the program does to the world is recorded in
      the channels of [world].
    - Output that only goes to the terminal ([print]) is not recorded;
      calls of [_log] are. *)

From Stdlib Require Import Strings.String Strings.Ascii Lists.List Bool.Bool.
From Stdlib Require Import Arith.Arith ZArith.ZArith Lia Numbers.DecimalString.
Import ListNotations.
Open Scope string_scope.
Open Scope bool_scope.

Set Implicit Arguments.

(** ** Python strings *)

Module Py.

(** [s.startswith(p)] *)
Fixpoint startswith (s p : string) {struct p} : bool :=
  match p with
  | EmptyString => true
  | String a p' =>
      match s with
      | EmptyString => false
      | String b s' => Ascii.eqb a b && startswith s' p'
      end
  end.

(** [s[n:]] *)
Fixpoint drop (n : nat) (s : string) : string :=
  match n with
  | O => s
  | S n' => match s with
            | EmptyString => EmptyString
            | String _ s' => drop n' s'
            end
  end.

(** [s[:n]] *)
Fixpoint take (n : nat) (s : string) : string :=
  match n with
  | O => EmptyString
  | S n' => match s with
            | EmptyString => EmptyString
            | String c s' => String c (take n' s')
            end
  end.

(** [p in s] *)
Fixpoint contains (s p : string) : bool :=
  startswith s p ||
  match s with
  | EmptyString => false
  | String _ s' => contains s' p
  end.

(** [c in chars], for a single character *)
Fixpoint mem (c : ascii) (chars : string) : bool :=
  match chars with
  | EmptyString => false
  | String d chars' => Ascii.eqb c d || mem c chars'
  end.

(** The capital letters below 256 are [A] to [Z] and the letters 192 to
    222 but for the sign 215; each has its small letter 32 places on. *)
Definition lower_ascii (c : ascii) : ascii :=
  let n := nat_of_ascii c in
  if ((65 <=? n)%nat && (n <=? 90)%nat)
     || ((192 <=? n)%nat && (n <=? 222)%nat && negb (n =? 215)%nat)
  then ascii_of_nat (n + 32) else c.

(** [s.lower()] *)
Fixpoint lower (s : string) : string :=
  match s with
  | EmptyString => EmptyString
  | String c s' => String (lower_ascii c) (lower s')
  end.

(** [s.replace(old, new)] for a non-empty [old]: occurrences are taken from
    left to right and do not overlap; [skip] counts the characters of a
    matched occurrence that are still to be passed over. *)
Fixpoint replace_go (old new : string) (skip : nat) (s : string) : string :=
  match s with
  | EmptyString => EmptyString
  | String c s' =>
      match skip with
      | S k => replace_go old new k s'
      | O => if startswith s old
             then new ++ replace_go old new (String.length old - 1) s'
             else String c (replace_go old new 0 s')
      end
  end.

Definition replace (s old new : string) : string := replace_go old new 0 s.

(** [s.split(sep)] for a non-empty [sep]; [cur] is the piece being read. *)
Fixpoint split_go (sep : string) (skip : nat) (cur s : string) : list string :=
  match s with
  | EmptyString => [cur]
  | String c s' =>
      match skip with
      | S k => split_go sep k cur s'
      | O => if startswith s sep
             then cur :: split_go sep (String.length sep - 1) EmptyString s'
             else split_go sep 0 (cur ++ String c EmptyString) s'
      end
  end.

Definition split (s sep : string) : list string := split_go sep 0 EmptyString s.

(** [s.split(sep)[0]] and [s.split(sep)[-1]]; [split] never returns [[]]. *)
Definition split_first (s sep : string) : string := hd EmptyString (split s sep).
Definition split_last (s sep : string) : string := last (split s sep) EmptyString.

(** [s.rstrip(chars)] *)
Fixpoint rstrip (s chars : string) : string :=
  match s with
  | EmptyString => EmptyString
  | String c s' =>
      match rstrip s' chars with
      | EmptyString => if mem c chars then EmptyString else String c EmptyString
      | r => String c r
      end
  end.

(** [s.lstrip(chars)] *)
Fixpoint lstrip (s chars : string) : string :=
  match s with
  | EmptyString => EmptyString
  | String c s' => if mem c chars then lstrip s' chars else s
  end.

(** The characters [str.isspace] accepts below 256: tab, line feed, vertical
    tab, form feed, carriage return, the four separators 28-31, space, the
    next-line control 133 and the no-break space 160. *)
Definition whitespace : string :=
  String (ascii_of_nat 9) (String (ascii_of_nat 10) (String (ascii_of_nat 11)
  (String (ascii_of_nat 12) (String (ascii_of_nat 13) (String (ascii_of_nat 28)
  (String (ascii_of_nat 29) (String (ascii_of_nat 30) (String (ascii_of_nat 31)
  (String (ascii_of_nat 32) (String (ascii_of_nat 133)
  (String (ascii_of_nat 160) EmptyString))))))))))).

(** [s.strip()] *)
Definition strip (s : string) : string := rstrip (lstrip s whitespace) whitespace.

(** [str(n)] for a natural number *)
Definition str_nat (n : nat) : string := NilEmpty.string_of_uint (Nat.to_uint n).

(** Truth value of a [str] and of an [Optional[str]] *)
Definition nonempty (s : string) : bool :=
  match s with EmptyString => false | String _ _ => true end.

Definition truthy (o : option string) : bool :=
  match o with Some s => nonempty s | None => false end.

(** [a or b] where [b] is a [str] *)
Definition or_else (a : option string) (b : string) : string :=
  match a with
  | Some s => if nonempty s then s else b
  | None => b
  end.

End Py.

(** ** Exceptions *)

(** The exception classes the program names, the four classes Python
    raises when a value is used as what it is not, and [OtherException]
    for any other subclass of [Exception] a library may raise. *)
Inductive exn_class :=
| NotFoundError
| ValueError
| JSONDecodeError
| RequestException
| OSError
| TimeoutException
| WebDriverException
| AttributeError
| TypeError
| KeyError
| IndexError
| OtherException.

Record exn := mkExn { exn_cls : exn_class; exn_str : string }.

Definition exn_class_eqb (a b : exn_class) : bool :=
  match a, b with
  | NotFoundError, NotFoundError | ValueError, ValueError
  | JSONDecodeError, JSONDecodeError | RequestException, RequestException
  | OSError, OSError | TimeoutException, TimeoutException
  | WebDriverException, WebDriverException | AttributeError, AttributeError
  | TypeError, TypeError | KeyError, KeyError | IndexError, IndexError
  | OtherException, OtherException => true
  | _, _ => false
  end.

(** [isinstance(e, c)]: requests' [JSONDecodeError] derives from
    [ValueError] and from [RequestException], [RequestException] from
    [IOError] (which is [OSError]), selenium's [TimeoutException] from
    [WebDriverException]. *)
Definition isinstance (e : exn) (c : exn_class) : bool :=
  exn_class_eqb (exn_cls e) c ||
  match exn_cls e, c with
  | JSONDecodeError, (ValueError | RequestException | OSError) => true
  | RequestException, OSError => true
  | TimeoutException, WebDriverException => true
  | _, _ => false
  end.

(** What a [raise] carries: an instance of [Exception], or [SystemExit]. *)
Inductive raised :=
| Exc (e : exn)
| SystemExit (code : Z).

Inductive result (A : Type) :=
| Ok (a : A)
| Raise (r : raised).
Arguments Ok {A} a.
Arguments Raise {A} r.

(** The answer of a library call: a value, or an [Exception] instance. *)
Inductive outcome (A : Type) :=
| Done (a : A)
| Fault (e : exn).
Arguments Done {A} a.
Arguments Fault {A} e.

(** The answer of [requests.get]: a response, or a
    [requests.exceptions.RequestException] with the given text. *)
Inductive http_result (A : Type) :=
| HttpResponse (r : A)
| HttpError (msg : string).
Arguments HttpResponse {A} r.
Arguments HttpError {A} msg.

(** ** Data *)

Definition bytes := string.

(** A cookie as selenium's [get_cookies] reports it. *)
Record cookie := mkCookie {
  cookie_name : string;
  cookie_value : string;
  cookie_domain : string;
  cookie_path : string }.

(** The body of an answer as the host sends it: in one piece, or in the
    chunks of a chunked transfer, none of which is empty. *)
Inductive entity :=
| Whole (data : bytes)
| Chunked (chunks : list bytes).

(** The part of a [requests.Response] the program reads. *)
Record response := mkResponse {
  status_code : nat;
  reason : string;
  response_url : string;             (* [response.url] *)
  content_type : option string;      (* [headers.get("content-type")] *)
  sent : entity }.

(** [response.content], read before anything else is read of the body. *)
Definition body (resp : response) : bytes :=
  match sent resp with
  | Whole data => data
  | Chunked chunks => String.concat "" chunks
  end.

(** [next(response.iter_content(chunk_size=n), b"")]: the first piece of
    the stream, which ends with the body, after [n] bytes or with the
    chunk it is read from. *)
Definition first_piece (n : nat) (resp : response) : bytes :=
  match sent resp with
  | Whole data => Py.take n data
  | Chunked chunks => Py.take n (hd EmptyString chunks)
  end.

(** [response.content], read after the first piece.  The iterator that
    gave the piece is dropped before: the stream of a body sent whole
    goes on from where it was, the connection of a chunked answer is
    closed and nothing more is read. *)
Definition content_after_first_piece (n : nat) (resp : response) : bytes :=
  match sent resp with
  | Whole data => Py.drop n data
  | Chunked _ => EmptyString
  end.

(** What [json.loads] makes of a document: [None], a [bool], an [int], a
    [float] (given by a mantissa and an exponent of ten), a [str], a [list]
    or a [dict].  The members of a [dict] stand in the order of the
    document; of a key that stands twice the last value counts. *)
#[warnings="-register-all"]
Inductive json_value :=
| JNull
| JBool (b : bool)
| JInt (n : Z)
| JFloat (mantissa exponent : Z)
| JStr (s : string)
| JList (items : list json_value)
| JDict (members : list (string * json_value)).

(** What [response.json()] does: it returns the decoded document or raises
    [JSONDecodeError] with a text. *)
Inductive decoded :=
| Json (v : json_value)
| NotJson (msg : string).

Record api_response := mkApiResponse {
  api_status_code : nat;
  api_reason : string;
  api_response_url : string;         (* [api_res.url], parameters included *)
  json : decoded }.

(** An element of the rendered page; [get_attribute("src")] may fail. *)
Record element := mkElement { get_attribute_src : outcome (option string) }.

(** The dictionary [summary_data] of [doi_to_pdf_downloader]. *)
Record summary := mkSummary {
  identifier_input : string;
  resolved_doi : json_value;
  paper_title : json_value;
  status : string;
  message : string;
  openalex_api_url_queried : option string;
  direct_oa_pdf_url_tried : json_value;
  scihub_page_url_tried : option string;
  final_pdf_source_url : json_value;
  local_filepath : option string }.

Definition set_resolved_doi v (s : summary) : summary :=
  mkSummary (identifier_input s) v (paper_title s) (status s) (message s)
    (openalex_api_url_queried s) (direct_oa_pdf_url_tried s)
    (scihub_page_url_tried s) (final_pdf_source_url s) (local_filepath s).
Definition set_paper_title v (s : summary) : summary :=
  mkSummary (identifier_input s) (resolved_doi s) v (status s) (message s)
    (openalex_api_url_queried s) (direct_oa_pdf_url_tried s)
    (scihub_page_url_tried s) (final_pdf_source_url s) (local_filepath s).
Definition set_status v (s : summary) : summary :=
  mkSummary (identifier_input s) (resolved_doi s) (paper_title s) v (message s)
    (openalex_api_url_queried s) (direct_oa_pdf_url_tried s)
    (scihub_page_url_tried s) (final_pdf_source_url s) (local_filepath s).
Definition set_message v (s : summary) : summary :=
  mkSummary (identifier_input s) (resolved_doi s) (paper_title s) (status s) v
    (openalex_api_url_queried s) (direct_oa_pdf_url_tried s)
    (scihub_page_url_tried s) (final_pdf_source_url s) (local_filepath s).
Definition set_openalex_api_url_queried v (s : summary) : summary :=
  mkSummary (identifier_input s) (resolved_doi s) (paper_title s) (status s)
    (message s) v (direct_oa_pdf_url_tried s)
    (scihub_page_url_tried s) (final_pdf_source_url s) (local_filepath s).
Definition set_direct_oa_pdf_url_tried v (s : summary) : summary :=
  mkSummary (identifier_input s) (resolved_doi s) (paper_title s) (status s)
    (message s) (openalex_api_url_queried s) v
    (scihub_page_url_tried s) (final_pdf_source_url s) (local_filepath s).
Definition set_scihub_page_url_tried v (s : summary) : summary :=
  mkSummary (identifier_input s) (resolved_doi s) (paper_title s) (status s)
    (message s) (openalex_api_url_queried s) (direct_oa_pdf_url_tried s)
    v (final_pdf_source_url s) (local_filepath s).
Definition set_final_pdf_source_url v (s : summary) : summary :=
  mkSummary (identifier_input s) (resolved_doi s) (paper_title s) (status s)
    (message s) (openalex_api_url_queried s) (direct_oa_pdf_url_tried s)
    (scihub_page_url_tried s) v (local_filepath s).
Definition set_local_filepath v (s : summary) : summary :=
  mkSummary (identifier_input s) (resolved_doi s) (paper_title s) (status s)
    (message s) (openalex_api_url_queried s) (direct_oa_pdf_url_tried s)
    (scihub_page_url_tried s) (final_pdf_source_url s) v.

(** ** The world *)

(** Attempts to touch the file system, to open a viewer, and to sleep. *)
Inductive fs_event :=
| LogAppend (path identifier status_ msg : string)
| SummaryCreate (path timestamp : string)
| SummaryAppend (path identifier status_ : string) (reason_ : option string)
| MakeDirs (path : string)
| FileWrite (path : string) (data : bytes)
| OpenExternally (path : string)
| Sleep (seconds : Z).

(** The browser: how many sessions [uc.Chrome] started, how many times
    [WebDriver.quit] tore one down, and whether the [quit] attribute of the
    current driver object was replaced by [lambda: None]. *)
Record driver_state := mkDriver {
  sessions : nat;
  teardowns : nat;
  quit_patched : bool }.

(** The keyword arguments of [doi_to_pdf_downloader]. *)
Record downloader_args := mkArgs {
  identifier_doi : option string;
  identifier_name : option string;
  identifier_url : option string;
  output_dir : string;
  auto_open_pdf : bool;
  is_batch_mode : bool;
  log_file_path : option string;
  scihub_retrieval_method : string;
  summary_file_path : option string }.

Record world := mkWorld {
  logged : list (string * string);           (* calls [_log(status, msg)] *)
  summary_data : summary;                    (* the dict of the running call *)
  api_requests : list (string * list (string * string));
  pdf_requests : list (string * option (list cookie));
  browser : driver_state;
  fs : list fs_event;
  calls : list downloader_args }.            (* entries into the downloader *)

Definition set_logged v (w : world) : world :=
  mkWorld v (summary_data w) (api_requests w) (pdf_requests w) (browser w) (fs w) (calls w).
Definition set_summary_data v (w : world) : world :=
  mkWorld (logged w) v (api_requests w) (pdf_requests w) (browser w) (fs w) (calls w).
Definition set_api_requests v (w : world) : world :=
  mkWorld (logged w) (summary_data w) v (pdf_requests w) (browser w) (fs w) (calls w).
Definition set_pdf_requests v (w : world) : world :=
  mkWorld (logged w) (summary_data w) (api_requests w) v (browser w) (fs w) (calls w).
Definition set_browser v (w : world) : world :=
  mkWorld (logged w) (summary_data w) (api_requests w) (pdf_requests w) v (fs w) (calls w).
Definition set_fs v (w : world) : world :=
  mkWorld (logged w) (summary_data w) (api_requests w) (pdf_requests w) (browser w) v (calls w).
Definition set_calls v (w : world) : world :=
  mkWorld (logged w) (summary_data w) (api_requests w) (pdf_requests w) (browser w) (fs w) v.

Definition empty_summary : summary :=
  mkSummary "" JNull (JStr "") "" "" None JNull None JNull None.

Definition world0 : world :=
  mkWorld [] empty_summary [] [] (mkDriver 0 0 false) [] [].

(** The oracles of the environment.  The browser oracles take the URL of
    the page the driver was sent to. *)
Record Env := mkEnv {
  SCI_HUB_URL : string;
  requests_get_api : string -> list (string * string) -> http_result api_response;
  requests_get_pdf : string -> option (list cookie) -> http_result response;
  uc_Chrome : outcome unit;
  driver_get : string -> outcome unit;
  wait_unavailable_text : string -> outcome unit;
  wait_pdf_element : string -> outcome element;
  find_iframes : string -> outcome (list element);
  driver_get_cookies : string -> outcome (list cookie);
  webdriver_quit : outcome unit;
  urljoin : string -> string -> string;
  os_path_exists : string -> bool;
  os_path_join : string -> string -> string;
  os_makedirs : string -> option string;         (* [Some msg]: OSError *)
  write_file : string -> bytes -> option string; (* [Some msg]: IOError *)
  read_lines : string -> outcome (list string);  (* the lines of a text file *)
  strftime_now : string;                         (* [%Y%m%d_%H%M%S] of now *)
  repr_ : json_value -> string }.                (* [str(v)] of a [v] that is no [str] *)

(** ** Computations: state and exceptions *)

Definition M (A : Type) : Type := world -> result A * world.

Definition ret {A} (a : A) : M A := fun w => (Ok a, w).

Definition bind {A B} (m : M A) (k : A -> M B) : M B :=
  fun w => match m w with
           | (Ok a, w') => k a w'
           | (Raise r, w') => (Raise r, w')
           end.

Declare Scope py_scope.
Delimit Scope py_scope with py.
Notation "x <- m ;; k" := (bind m (fun x => k))
  (at level 61, m at next level, right associativity) : py_scope.
Notation "m ;; k" := (bind m (fun _ => k))
  (at level 61, right associativity) : py_scope.
Open Scope py_scope.

(** [raise cls(msg)] *)
Definition raise {A} (c : exn_class) (msg : string) : M A :=
  fun w => (Raise (Exc (mkExn c msg)), w).

(** [raise e] *)
Definition reraise {A} (e : exn) : M A := fun w => (Raise (Exc e), w).

(** [sys.exit(code)] *)
Definition sys_exit {A} (code : Z) : M A := fun w => (Raise (SystemExit code), w).

(** [try: m  except ...:] where [handler e] is the body of the first clause
    that accepts [e], if there is one.  [SystemExit] is not an [Exception]
    and passes through. *)
Definition try_except {A} (m : M A) (handler : exn -> option (M A)) : M A :=
  fun w => match m w with
           | (Raise (Exc e), w') =>
               match handler e with
               | Some h => h w'
               | None => (Raise (Exc e), w')
               end
           | r => r
           end.

(** [try: m  finally: f] *)
Definition try_finally {A} (m : M A) (f : M unit) : M A :=
  fun w => match m w with
           | (r, w') => match f w' with
                        | (Ok _, w'') => (r, w'')
                        | (Raise x, w'') => (Raise x, w'')
                        end
           end.

Definition modify (f : world -> world) : M unit := fun w => (Ok tt, f w).
Definition gets {A} (f : world -> A) : M A := fun w => (Ok (f w), w).

(** The result of a library call, as a computation. *)
Definition call {A} (o : outcome A) : M A :=
  fun w => match o with
           | Done a => (Ok a, w)
           | Fault e => (Raise (Exc e), w)
           end.

(** [if c: m] *)
Definition when (c : bool) (m : M unit) : M unit := if c then m else ret tt.

(** Assignment to a key of [summary_data]. *)
Definition set_sd (f : summary -> summary) : M unit :=
  modify (fun w => set_summary_data (f (summary_data w)) w).

(** ** Python operations on a decoded value *)

(** [type(v).__name__] *)
Definition type_name (v : json_value) : string :=
  match v with
  | JNull => "NoneType"
  | JBool _ => "bool"
  | JInt _ => "int"
  | JFloat _ _ => "float"
  | JStr _ => "str"
  | JList _ => "list"
  | JDict _ => "dict"
  end.

(** [bool(v)] *)
Definition truth (v : json_value) : bool :=
  match v with
  | JNull => false
  | JBool b => b
  | JInt n => negb (n =? 0)%Z
  | JFloat mantissa _ => negb (mantissa =? 0)%Z
  | JStr s => Py.nonempty s
  | JList items => match items with [] => false | _ :: _ => true end
  | JDict members => match members with [] => false | _ :: _ => true end
  end.

(** [v == 0] *)
Definition equals_zero (v : json_value) : bool :=
  match v with
  | JBool b => negb b
  | JInt n => (n =? 0)%Z
  | JFloat mantissa _ => (mantissa =? 0)%Z
  | _ => false
  end.

(** The value a [dict] holds under a key. *)
Fixpoint lookup (key : string) (members : list (string * json_value))
  : option json_value :=
  match members with
  | [] => None
  | (k, v) :: rest =>
      match lookup key rest with
      | Some later => Some later
      | None => if k =? key then Some v else None
      end
  end.

(** [v.attr], for an attribute that [v] does not have *)
Definition no_attribute {A} (v : json_value) (attr : string) : M A :=
  raise AttributeError
    ("'" ++ type_name v ++ "' object has no attribute '" ++ attr ++ "'").

(** [d.get(key, default)] *)
Definition dict_get (d : json_value) (key : string) (default : json_value)
  : M json_value :=
  match d with
  | JDict members =>
      ret (match lookup key members with Some v => v | None => default end)
  | _ => no_attribute d "get"
  end.

(** [v[0]] *)
Definition getitem0 (v : json_value) : M json_value :=
  match v with
  | JList (first :: _) => ret first
  | JList [] => raise IndexError "list index out of range"
  | JStr (String c _) => ret (JStr (String c EmptyString))
  | JStr EmptyString => raise IndexError "string index out of range"
  | JDict _ => raise KeyError "0"
  | _ => raise TypeError ("'" ++ type_name v ++ "' object is not subscriptable")
  end.

(** [text in v], for a [str] text *)
Definition contains_text (v : json_value) (text : string) : M bool :=
  match v with
  | JStr s => ret (Py.contains s text)
  | JList items =>
      ret (existsb (fun item => match item with
                                | JStr s => s =? text
                                | _ => false
                                end) items)
  | JDict members => ret (existsb (fun member => fst member =? text) members)
  | _ => raise TypeError ("argument of type '" ++ type_name v ++ "' is not iterable")
  end.

(** ** The program *)

Definition value (o : option string) : string :=
  match o with Some s => s | None => EmptyString end.

(** *** [sanitize_filename] (lines 27-56) *)

Definition invalid_chars : string :=
  "<>:" ++ String (ascii_of_nat 34) "/\|?*"
  ++ string_of_list_ascii (map ascii_of_nat (seq 0 32)).

Definition sanitize_filename (title : string) : string :=
  let title := if Py.nonempty title then title else "Unknown_Paper_Title" in
  let title := Py.replace title " " "_" in
  let title :=
    fold_left (fun t char => Py.replace t (String char EmptyString) EmptyString)
              (list_ascii_of_string invalid_chars) title in
  let max_len := 200 in
  let title := if (max_len <? String.length title)%nat
               then Py.take max_len title else title in
  let title := Py.rstrip title ". " in
  let title := if Py.nonempty title then title else "Sanitized_Paper_Title" in
  title ++ ".pdf".

(** *** The pure steps of [get_paper_metadata] *)

Definition base_api_url : string := "https://api.openalex.org/works".

(** Lines 72-75: the DOI without its resolver prefix. *)
Definition strip_doi_prefix (doi_in : string) : string :=
  if Py.startswith doi_in "https://doi.org/"
  then Py.drop (String.length "https://doi.org/") doi_in
  else if Py.startswith doi_in "http://doi.org/"
  then Py.drop (String.length "http://doi.org/") doi_in
  else doi_in.

(** [requests.Response.raise_for_status]: the text of the [HTTPError] for
    a status from 400 to 599. *)
Definition http_error_msg (code : nat) (reason_ url : string) : option string :=
  if ((400 <=? code) && (code <? 500))%nat
  then Some (Py.str_nat code ++ " Client Error: " ++ reason_ ++ " for url: " ++ url)
  else if ((500 <=? code) && (code <? 600))%nat
  then Some (Py.str_nat code ++ " Server Error: " ++ reason_ ++ " for url: " ++ url)
  else None.

(** [re.search(r"arxiv.org/abs/([^/]+)", s)]: the pattern is tried at each
    position from the left; the dot accepts any character but a line feed;
    the group is the longest run of characters other than a slash, and it
    has to be non-empty. *)
Fixpoint until_slash (s : string) : string :=
  match s with
  | EmptyString => EmptyString
  | String c s' => if Ascii.eqb c "/" then EmptyString else String c (until_slash s')
  end.

Definition re_match_arxiv_abs (s : string) : option string :=
  if Py.startswith s "arxiv" then
    match Py.drop 5 s with
    | String c rest =>
        if negb (Ascii.eqb c (ascii_of_nat 10)) && Py.startswith rest "org/abs/"
        then let group1 := until_slash (Py.drop 8 rest) in
             if Py.nonempty group1 then Some group1 else None
        else None
    | EmptyString => None
    end
  else None.

Fixpoint re_search_arxiv_abs (s : string) : option string :=
  match re_match_arxiv_abs s with
  | Some group1 => Some group1
  | None => match s with
            | EmptyString => None
            | String _ s' => re_search_arxiv_abs s'
            end
  end.

(** [re.search(r"arxiv.org/abs/([^/]+)", v)] for any value: group 1 of the
    match, if there is one. *)
Definition re_search_arxiv_abs_in (v : json_value) : M (option string) :=
  match v with
  | JStr s => ret (re_search_arxiv_abs s)
  | _ => raise TypeError
           ("expected string or bytes-like object, got '" ++ type_name v ++ "'")
  end.

(** Lines 125-130: the record in the decoded answer. *)
Definition pick_record (name_in : option string) (identifier_used : string)
  (metadata : json_value) : M json_value :=
  no_result <-
    (if Py.truthy name_in then
       meta <- dict_get metadata "meta" (JDict []) ;;
       count <- dict_get meta "count" (JInt 0) ;;
       ret (equals_zero count)
     else ret false) ;;
  if no_result then
    raise NotFoundError ("No paper found on OpenAlex for name: " ++ value name_in)
  else
    results <-
      (if Py.truthy name_in then dict_get metadata "results" JNull else ret JNull) ;;
    if truth results then getitem0 results
    else if negb (truth metadata) then
      raise NotFoundError ("No metadata returned from OpenAlex for " ++ identifier_used)
    else ret metadata.

(** Lines 132-134: the DOI of the record, without the resolver prefix. *)
Definition read_doi (metadata : json_value) : M json_value :=
  final_doi <- dict_get metadata "doi" JNull ;;
  match final_doi with
  | JStr s =>
      if Py.nonempty s && Py.startswith s "https://doi.org/"
      then ret (JStr (Py.drop (String.length "https://doi.org/") s))
      else ret final_doi
  | _ => if truth final_doi then no_attribute final_doi "startswith"
         else ret final_doi
  end.

(** Lines 139-182: the candidate URL.  [host_venue] is read and left aside;
    the landing pages are looked at ([elif] of lines 172 and 176) and never
    assigned. *)
Definition select_pdf_url (metadata : json_value) : M json_value :=
  open_access_info <- dict_get metadata "open_access" JNull ;;
  pdf_url <-
    (if truth open_access_info then dict_get open_access_info "oa_url" JNull
     else ret JNull) ;;
  if truth pdf_url then ret pdf_url
  else
    host_venue <- dict_get metadata "host_venue" JNull ;;
    primary_location <- dict_get metadata "primary_location" JNull ;;
    is_oa <-
      (if truth primary_location then
         is_oa <- dict_get primary_location "is_oa" JNull ;; ret (truth is_oa)
       else ret false) ;;
    if is_oa then
      best_oa_loc <- dict_get metadata "best_oa_location" JNull ;;
      best_pdf_url <-
        (if truth best_oa_loc then dict_get best_oa_loc "pdf_url" JNull
         else ret JNull) ;;
      if truth best_pdf_url then ret best_pdf_url
      else ret pdf_url
    else ret pdf_url.

(** Lines 184-194: an arXiv abstract page becomes the PDF of the paper. *)
Definition correct_arxiv_url (pdf_url : json_value) : M json_value :=
  is_abstract_page <-
    (if truth pdf_url then contains_text pdf_url "arxiv.org/abs/" else ret false) ;;
  if is_abstract_page then
    arxiv_id_match <- re_search_arxiv_abs_in pdf_url ;;
    match arxiv_id_match with
    | Some arxiv_id => ret (JStr ("https://arxiv.org/pdf/" ++ arxiv_id ++ ".pdf"))
    | None => ret pdf_url
    end
  else ret pdf_url.

(** Lines 125-196: what is made of the decoded answer. *)
Definition read_answer (name_in : option string) (identifier_used : string)
  (final_api_url_queried : option string) (metadata : json_value)
  : M (json_value * json_value * json_value * option string) :=
  metadata <- pick_record name_in identifier_used metadata ;;
  final_doi <- read_doi metadata ;;
  title <- dict_get metadata "display_name" (JStr "Unknown Title") ;;
  pdf_url <- select_pdf_url metadata ;;
  pdf_url <- correct_arxiv_url pdf_url ;;
  ret (final_doi, title, pdf_url, final_api_url_queried).

(** Lines 70-107: the URL to query, the parameters of the query and the
    description of the identifier. *)
Definition build_query (doi_in name_in url_in : option string)
  : M (string * list (string * string) * string) :=
  if Py.truthy doi_in then
    let doi_in := strip_doi_prefix (value doi_in) in
    ret (base_api_url ++ "/https://doi.org/" ++ doi_in, [], "DOI: " ++ doi_in)
  else if Py.truthy name_in then
    ret (base_api_url,
         [("filter", "title.search:" ++ value name_in);
          ("sort", "relevance_score:desc"); ("per-page", "1")],
         "Name: " ++ value name_in)
  else if Py.truthy url_in then
    let url_in := value url_in in
    if Py.contains url_in "doi.org" then
      let extracted_doi := Py.split_last url_in "doi.org/" in
      ret (base_api_url ++ "/https://doi.org/" ++ extracted_doi, [],
           "URL (interpreted as DOI): " ++ url_in)
    else if Py.contains url_in "arxiv.org/abs/" || Py.contains url_in "arxiv.org/pdf/" then
      let arxiv_id :=
        Py.replace (Py.replace (Py.split_last url_in "arxiv.org/") "abs/" "") ".pdf" "" in
      ret (base_api_url ++ "/arxiv:" ++ arxiv_id, [],
           "URL (interpreted as arXiv): " ++ url_in)
    else
      ret (base_api_url ++ "/" ++ url_in, [], "URL: " ++ url_in)
  else
    raise ValueError "No identifier (DOI, name, or URL) provided to get_paper_metadata.".

Section Program.

Variable env : Env.

(** [requests.get(api_url, params=params, timeout=15)] followed by
    [raise_for_status()] *)
Definition requests_get_json (api_url : string) (params : list (string * string))
  : M api_response :=
  modify (fun w => set_api_requests (api_requests w ++ [(api_url, params)]) w) ;;
  match requests_get_api env api_url params with
  | HttpError msg => raise RequestException msg
  | HttpResponse api_res =>
      match http_error_msg (api_status_code api_res) (api_reason api_res)
              (api_response_url api_res) with
      | Some msg => raise RequestException msg
      | None => ret api_res
      end
  end.

(** *** [get_paper_metadata] (lines 58-196) *)
Definition get_paper_metadata (doi_in name_in url_in : option string)
  : M (json_value * json_value * json_value * option string) :=
  q <- build_query doi_in name_in url_in ;;
  let '(api_url, params, identifier_used) := q in
  let final_api_url_queried := Some api_url in
  api_res <-
    try_except (requests_get_json api_url params)
      (fun e =>
         if isinstance e RequestException
         then Some (raise NotFoundError
                      ("OpenAlex API request failed for " ++ identifier_used
                       ++ ": " ++ exn_str e))
         else None) ;;
  metadata <-
    match json api_res with
    | Json v => ret v
    | NotJson msg => raise JSONDecodeError msg
    end ;;
  read_answer name_in identifier_used final_api_url_queried metadata.

(** *** [download_pdf_content] (lines 351-401) *)
Definition requests_get_stream (url : string) (cookie_jar : option (list cookie))
  : M response :=
  modify (fun w => set_pdf_requests (pdf_requests w ++ [(url, cookie_jar)]) w) ;;
  match requests_get_pdf env url cookie_jar with
  | HttpError msg => raise RequestException msg
  | HttpResponse resp =>
      match http_error_msg (status_code resp) (reason resp) (response_url resp) with
      | Some msg => raise RequestException msg
      | None => ret resp
      end
  end.

Definition download_pdf_content (pdf_url_ : string)
  (selenium_cookies : option (list cookie)) : M bytes :=
  let pdf_url_to_download := Py.split_first pdf_url_ "#" in
  try_except
    (let cookie_jar :=
       match selenium_cookies with
       | Some (c :: cs) => Some (c :: cs)
       | _ => None
       end in
     resp <- requests_get_stream pdf_url_to_download cookie_jar ;;
     let content_type_ := Py.lower (value (content_type resp)) in
     pdf_bytes <-
       (if negb (Py.contains content_type_ "application/pdf")
           && negb (Py.contains content_type_ "octet-stream")
        then
          let first_chunk := first_piece 1024 resp in
          if negb (Py.startswith first_chunk "%PDF-") then
            raise NotFoundError
              ("URL " ++ pdf_url_to_download
               ++ " did not return a PDF. Content-type: " ++ content_type_
               ++ ". Try opening the URL in a browser.")
          else ret (first_chunk ++ content_after_first_piece 1024 resp)
        else ret (body resp)) ;;
     if negb (Py.nonempty pdf_bytes) then
       raise NotFoundError
         ("Downloaded PDF from " ++ pdf_url_to_download ++ " is empty.")
     else ret pdf_bytes)
    (fun e =>
       if isinstance e RequestException
       then Some (raise NotFoundError
                    ("Failed to download PDF from " ++ pdf_url_to_download
                     ++ ": " ++ exn_str e))
       else None).

(** *** The browser *)

(** [uc.Chrome(options=options)]: a new driver object, whose [quit] is the
    method of its class. *)
Definition new_Chrome : M unit :=
  call (uc_Chrome env) ;;
  modify (fun w =>
    set_browser (mkDriver (S (sessions (browser w))) (teardowns (browser w)) false) w).

(** [driver.quit()]: the attribute of the object is looked up first; the
    method of the class tears the session down, and may fail doing so. *)
Definition driver_quit : M unit :=
  patched <- gets (fun w => quit_patched (browser w)) ;;
  if patched then ret tt
  else
    modify (fun w =>
      set_browser (mkDriver (sessions (browser w)) (S (teardowns (browser w)))
                            (quit_patched (browser w))) w) ;;
    call (webdriver_quit env).

(** [driver.quit = lambda: None] *)
Definition patch_quit : M unit :=
  modify (fun w =>
    set_browser (mkDriver (sessions (browser w)) (teardowns (browser w)) true) w).

Definition time_sleep (seconds : Z) : M unit :=
  modify (fun w => set_fs (fs w ++ [Sleep seconds]) w).

(** *** [retrieve_scihub_pdf_link_selenium] (lines 216-348) *)

(** Lines 286-293: the first frame whose [src] names a PDF. *)
Fixpoint scan_iframes (log_func : string -> string -> M unit)
  (iframes : list element) (pdf_src : option string) : M (option string) :=
  match iframes with
  | [] => ret pdf_src
  | iframe :: rest =>
      src_attr <- call (get_attribute_src iframe) ;;
      if Py.truthy src_attr && Py.contains (Py.lower (value src_attr)) ".pdf" then
        log_func "INFO" ("[Selenium] Found iframe with .pdf in src: " ++ value src_attr) ;;
        ret src_attr
      else
        when (Py.truthy src_attr)
          (log_func "DEBUG"
             ("[Selenium] Found iframe with src: " ++ value src_attr
              ++ " (does not contain .pdf)")) ;;
        scan_iframes log_func rest pdf_src
  end.

(** Lines 333-347, the body of [finally] when [driver] is set. *)
Definition quit_driver (log_func : string -> string -> M unit) : M unit :=
  log_func "INFO" "[Selenium] Quitting WebDriver." ;;
  try_except
    (driver_quit ;;
     time_sleep 1 ;;
     patch_quit)
    (fun e =>
       if isinstance e OSError then
         Some (log_func "WARNING"
                 ("[Selenium] OSError during explicit driver.quit(): " ++ exn_str e
                  ++ ". This might be a cleanup issue with the driver."))
       else if isinstance e WebDriverException then
         Some (log_func "WARNING"
                 ("[Selenium] WebDriverException during explicit driver.quit(): "
                  ++ exn_str e ++ "."))
       else
         Some (log_func "WARNING"
                 ("[Selenium] Unexpected error during explicit driver.quit(): "
                  ++ exn_str e ++ "."))).

(** Lines 236-322, the outer [try] after the driver has been created. *)
Definition scihub_page_steps (doi_ current_sci_hub_url scihub_page_url : string)
  (log_func : string -> string -> M unit)
  : M (option string * option (list cookie)) :=
  call (driver_get env scihub_page_url) ;;
  let wait_for_text_timeout := 6 in
  try_except
    (call (wait_unavailable_text env scihub_page_url) ;;
     log_func "WARNING"
       ("[Selenium] Sci-Hub page indicates document not found for DOI: " ++ doi_
        ++ " (via specific text check)") ;;
     raise NotFoundError ("Sci-Hub does not have the document for DOI: " ++ doi_))
    (fun e =>
       if isinstance e TimeoutException then
         Some (log_func "DEBUG"
                 ("[Selenium] 'Not found' message not detected via specific text check within "
                  ++ Py.str_nat wait_for_text_timeout ++ "s. Proceeding to PDF check."))
       else if isinstance e WebDriverException then
         Some (log_func "DEBUG"
                 ("[Selenium] WebDriverException during 'not found' message check: "
                  ++ exn_str e ++ ". Proceeding to PDF check."))
       else None) ;;
  pdf_src <-
    try_except
      (log_func "INFO"
         "[Selenium] Looking for iframe with id='pdf' or embed with id='pdf'..." ;;
       element_ <- call (wait_pdf_element env scihub_page_url) ;;
       pdf_src <- call (get_attribute_src element_) ;;
       (if Py.truthy pdf_src then
          log_func "INFO"
            ("[Selenium] Found PDF element (iframe/embed#pdf) with src: " ++ value pdf_src)
        else
          log_func "WARNING"
            "[Selenium] Found PDF element (iframe/embed#pdf) but it has no src.") ;;
       ret pdf_src)
      (fun e =>
         if isinstance e TimeoutException then
           Some (log_func "WARNING"
                   "[Selenium] Timed out waiting for iframe/embed with id='pdf'. Trying other methods." ;;
                 iframes <- call (find_iframes env scihub_page_url) ;;
                 when (Nat.eqb (List.length iframes) 0)
                   (log_func "INFO" "[Selenium] No iframes found on page.") ;;
                 scan_iframes log_func iframes None)
         else None) ;;
  if negb (Py.truthy pdf_src) then
    log_func "ERROR"
      "[Selenium] Could not find PDF source via iframe/embed after all attempts." ;;
    raise NotFoundError "[Selenium] PDF iframe/embed not found on Sci-Hub page."
  else
    let pdf_src := value pdf_src in
    let pdf_src :=
      if Py.startswith pdf_src "//" then "https:" ++ pdf_src
      else if negb (Py.startswith pdf_src "http")
      then urljoin env current_sci_hub_url pdf_src
      else pdf_src in
    log_func "SUCCESS" ("[Selenium] Successfully retrieved PDF link: " ++ pdf_src) ;;
    selenium_cookies <-
      try_except
        (selenium_cookies <- call (driver_get_cookies env scihub_page_url) ;;
         (if negb (Nat.eqb (List.length selenium_cookies) 0) then
            log_func "INFO"
              ("[Selenium] Extracted " ++ Py.str_nat (List.length selenium_cookies)
               ++ " cookie(s) from the session.")
          else
            log_func "INFO" "[Selenium] No cookies found in the current session.") ;;
         ret (Some selenium_cookies))
        (fun e =>
           if isinstance e WebDriverException then
             Some (log_func "WARNING"
                     ("[Selenium] Could not extract cookies: " ++ exn_str e) ;;
                   ret None)
           else None) ;;
    ret (Some pdf_src, selenium_cookies).

(** Lines 235-322, the body of the outer [try]. *)
Definition scihub_session (doi_ current_sci_hub_url scihub_page_url : string)
  (log_func : string -> string -> M unit)
  : M (option string * option (list cookie)) :=
  new_Chrome ;;
  scihub_page_steps doi_ current_sci_hub_url scihub_page_url log_func.

(** Lines 324-331, the [except] clauses of the outer [try]. *)
Definition scihub_handlers (log_func : string -> string -> M unit) (e : exn)
  : option (M (option string * option (list cookie))) :=
  if isinstance e WebDriverException then
    Some (log_func "CRITICAL_ERROR"
            ("[Selenium] WebDriverException occurred: " ++ exn_str e) ;;
          raise NotFoundError ("[Selenium] WebDriver error: " ++ exn_str e))
  else if isinstance e NotFoundError then
    Some (reraise e)
  else
    Some (log_func "CRITICAL_ERROR"
            ("[Selenium] An unexpected error occurred: " ++ exn_str e) ;;
          raise NotFoundError ("[Selenium] Unexpected error: " ++ exn_str e)).

(** In the [finally] block the variable [driver] is set exactly when
    [uc.Chrome] has returned. *)
Definition driver_is_set : bool :=
  match uc_Chrome env with Done _ => true | Fault _ => false end.

Definition retrieve_scihub_pdf_link_selenium (doi_ current_sci_hub_url : string)
  (log_func : string -> string -> M unit)
  : M (option string * option (list cookie)) :=
  if negb (Py.nonempty doi_) then
    log_func "ERROR" "Selenium: DOI must be provided to retrieve from Sci-Hub." ;;
    raise ValueError "DOI must be provided for Sci-Hub retrieval."
  else
    let scihub_page_url := Py.rstrip current_sci_hub_url "/" ++ "/" ++ doi_ in
    log_func "INFO"
      ("[Selenium] Attempting to retrieve PDF link from Sci-Hub page: " ++ scihub_page_url) ;;
    try_finally
      (try_except
         (scihub_session doi_ current_sci_hub_url scihub_page_url log_func)
         (scihub_handlers log_func))
      (when driver_is_set (quit_driver log_func)).

(** *** Logs and the summary file *)

(** [log_message] (lines 422-430): one line appended to the log file; a
    failure to write is printed and goes no further. *)
Definition log_message (log_file_path_ identifier status_ msg : string) : M unit :=
  modify (fun w => set_fs (fs w ++ [LogAppend log_file_path_ identifier status_ msg]) w).

(** [update_simplified_summary] (lines 432-444) *)
Definition update_simplified_summary (summary_file_path_ identifier status_ : string)
  (message_ : option string) : M unit :=
  let reason_ :=
    if (status_ =? "FAILURE") && Py.truthy message_
    then Some (Py.strip (Py.split_first (value message_) "|"))
    else None in
  modify (fun w =>
    set_fs (fs w ++ [SummaryAppend summary_file_path_ identifier status_ reason_]) w).

(** [open_file_externally] (lines 404-420): every failure is caught inside. *)
Definition open_file_externally (filepath : string) : M unit :=
  when (os_path_exists env filepath)
    (modify (fun w => set_fs (fs w ++ [OpenExternally filepath]) w)).

(** [os.makedirs(path, exist_ok=True)] and [open(path, "wb").write(data)] *)
Definition makedirs (path : string) : M unit :=
  modify (fun w => set_fs (fs w ++ [MakeDirs path]) w) ;;
  match os_makedirs env path with
  | Some msg => raise OSError msg
  | None => ret tt
  end.

Definition write_bytes (path : string) (data : bytes) : M unit :=
  modify (fun w => set_fs (fs w ++ [FileWrite path data]) w) ;;
  match write_file env path data with
  | Some msg => raise OSError msg
  | None => ret tt
  end.

(** *** [doi_to_pdf_downloader] (lines 446-616) *)

(** An [Optional[str]] as a value, and a value as an f-string prints it. *)
Definition of_optional (o : option string) : json_value :=
  match o with Some s => JStr s | None => JNull end.

Definition format_value (v : json_value) : string :=
  match v with JStr s => s | _ => repr_ env v end.

(** [download_pdf_content(pdf_url)] for any value: line 356 calls its
    [split]. *)
Definition download_pdf_content_of (pdf_url : json_value) : M bytes :=
  match pdf_url with
  | JStr s => download_pdf_content s None
  | _ => no_attribute pdf_url "split"
  end.

(** [sanitize_filename(title)] for any value: line 32 tests its truth, line
    35 calls its [replace]. *)
Definition sanitize_filename_of (title : json_value) : M string :=
  match title with
  | JStr s => ret (sanitize_filename s)
  | _ => if truth title then no_attribute title "replace"
         else ret (sanitize_filename EmptyString)
  end.

(** The closure [_log] (lines 473-482) over [log_file_path],
    [input_identifier_str] and [summary_data]. *)
Definition _log (log_file_path_ : option string) (input_identifier_str : string)
  (status_ msg : string) : M unit :=
  modify (fun w => set_logged (logged w ++ [(status_, msg)]) w) ;;
  when (Py.truthy log_file_path_)
    (log_message (value log_file_path_) input_identifier_str status_ msg) ;;
  when (existsb (String.eqb status_)
          ["SUCCESS"; "FAILURE"; "ERROR"; "CRITICAL_ERROR"; "WARNING"])
    (current <- gets (fun w => status (summary_data w)) ;;
     when (negb (current =? "SUCCESS")) (set_sd (set_status status_)) ;;
     set_sd (fun sd =>
       set_message (if Py.nonempty (message sd)
                    then message sd ++ " | " ++ msg else msg) sd)).

(** The local variables that live across the stages. *)
Record locals := mkLocals {
  final_doi : json_value;
  title : json_value;
  pdf_content : option bytes;
  actual_download_source_url : json_value }.

(** A stage either goes on to the next one or executes [return summary_data]. *)
Inductive flow :=
| Continue (l : locals)
| Return (sd : summary).

(** [if not is_batch_mode: sys.exit(1)] *)
Definition exit_unless_batch (a : downloader_args) : M unit :=
  if negb (is_batch_mode a) then sys_exit 1 else ret tt.

(** Stage 1 (lines 492-532): metadata and the direct download. *)
Definition stage1 (a : downloader_args) (input_identifier_str : string) : M flow :=
  let _log := _log (log_file_path a) input_identifier_str in
  try_except
    (_log "INFO" ("Starting process for: " ++ input_identifier_str) ;;
     md <- get_paper_metadata (identifier_doi a) (identifier_name a) (identifier_url a) ;;
     let '(final_doi, paper_title, direct_pdf_url_from_oa, final_api_url_queried) := md in
     set_sd (set_resolved_doi final_doi) ;;
     set_sd (set_paper_title paper_title) ;;
     set_sd (set_openalex_api_url_queried final_api_url_queried) ;;
     set_sd (set_direct_oa_pdf_url_tried direct_pdf_url_from_oa) ;;
     if truth direct_pdf_url_from_oa then
       _log "INFO" ("Attempting direct download from OpenAlex URL: "
                    ++ format_value direct_pdf_url_from_oa) ;;
       try_except
         (pdf_content <- download_pdf_content_of direct_pdf_url_from_oa ;;
          _log "SUCCESS" "Successfully downloaded PDF from OpenAlex source." ;;
          set_sd (set_status "SUCCESS") ;;
          ret (Continue (mkLocals final_doi paper_title (Some pdf_content)
                                  direct_pdf_url_from_oa)))
         (fun e =>
            if isinstance e NotFoundError then
              Some (_log "WARNING"
                      ("Direct download from OpenAlex URL failed: " ++ exn_str e
                       ++ ". Will try Sci-Hub if DOI is available.") ;;
                    set_sd (set_status "FAILURE_DIRECT_DOWNLOAD") ;;
                    ret (Continue (mkLocals final_doi paper_title None JNull)))
            else None)
     else
       _log "INFO" "No direct PDF URL found via OpenAlex." ;;
       set_sd (set_status "INFO_NO_DIRECT_OA_URL") ;;
       ret (Continue (mkLocals final_doi paper_title None JNull)))
    (fun e =>
       if isinstance e NotFoundError then
         Some (_log "ERROR" ("Error fetching metadata from OpenAlex: " ++ exn_str e ++ ".") ;;
               set_sd (set_status "FAILURE_OPENALEX_METADATA") ;;
               if Py.truthy (identifier_doi a) then
                 let final_doi := of_optional (identifier_doi a) in
                 set_sd (set_resolved_doi final_doi) ;;
                 let paper_title :=
                   JStr (Py.replace (Py.replace (value (identifier_doi a)) "/" "_")
                           "." "_") in
                 set_sd (set_paper_title paper_title) ;;
                 _log "INFO" "Will attempt Sci-Hub using the provided DOI." ;;
                 ret (Continue (mkLocals final_doi paper_title None JNull))
               else
                 _log "ERROR" "Could not obtain DOI from OpenAlex to attempt Sci-Hub download." ;;
                 exit_unless_batch a ;;
                 sd <- gets summary_data ;;
                 ret (Return sd))
       else if isinstance e ValueError then
         Some (_log "ERROR" ("Input error for metadata retrieval: " ++ exn_str e) ;;
               set_sd (set_status "FAILURE_INPUT_ERROR") ;;
               exit_unless_batch a ;;
               sd <- gets summary_data ;;
               ret (Return sd))
       else None).

(** Lines 540-544: the link of the document, by the chosen method. *)
Definition locate_scihub_pdf (a : downloader_args) (input_identifier_str : string)
  (final_doi_ : string) : M (option string * option (list cookie)) :=
  let _log := _log (log_file_path a) input_identifier_str in
  if scihub_retrieval_method a =? "selenium" then
    retrieve_scihub_pdf_link_selenium final_doi_ (SCI_HUB_URL env) _log
  else
    _log "WARNING"
      "Requests-based Sci-Hub retrieval selected but not fully implemented for PDF download." ;;
    raise NotFoundError
      "Requests-based Sci-Hub method not fully implemented for PDF download.".

(** Lines 546-555: the download from the link. *)
Definition use_scihub_link (a : downloader_args) (input_identifier_str : string)
  (l : locals) (r : option string * option (list cookie)) : M locals :=
  let _log := _log (log_file_path a) input_identifier_str in
  let '(scihub_pdf_url_retrieved, selenium_cookies) := r in
  if Py.truthy scihub_pdf_url_retrieved then
    _log "INFO" ("Found Sci-Hub PDF URL: " ++ value scihub_pdf_url_retrieved) ;;
    pdf_content <-
      download_pdf_content (value scihub_pdf_url_retrieved)
        (if scihub_retrieval_method a =? "selenium" then selenium_cookies else None) ;;
    _log "SUCCESS" "Successfully downloaded PDF from Sci-Hub." ;;
    set_sd (set_status "SUCCESS") ;;
    ret (mkLocals (final_doi l) (title l) (Some pdf_content)
                  (of_optional scihub_pdf_url_retrieved))
  else
    _log "ERROR" "Sci-Hub retrieval function did not return a PDF URL." ;;
    current <- gets (fun w => status (summary_data w)) ;;
    when (negb (current =? "FAILURE_SCIHUB_NOT_FOUND"))
      (set_sd (set_status "FAILURE_SCIHUB_NO_URL")) ;;
    ret l.

(** Lines 556-567: the [except] clauses of stage 2. *)
Definition scihub_failure (a : downloader_args) (input_identifier_str : string)
  (l : locals) (e : exn) : option (M locals) :=
  let _log := _log (log_file_path a) input_identifier_str in
  if isinstance e NotFoundError then
    Some ((if Py.contains (exn_str e) "Sci-Hub does not have the document"
           then set_sd (set_status "FAILURE_SCIHUB_NOT_FOUND")
           else set_sd (set_status "FAILURE_SCIHUB_DOWNLOAD_ERROR")) ;;
          _log "ERROR" ("Sci-Hub download failed: " ++ exn_str e) ;;
          ret l)
  else if isinstance e ValueError then
    Some (_log "ERROR"
            ("Error with Sci-Hub retrieval input (e.g. invalid DOI): " ++ exn_str e) ;;
          set_sd (set_status "FAILURE_SCIHUB_INPUT_ERROR") ;;
          ret l)
  else
    Some (_log "CRITICAL_ERROR"
            ("An unexpected error occurred during Sci-Hub Selenium retrieval: "
             ++ exn_str e) ;;
          set_sd (set_status "FAILURE_SCIHUB_UNEXPECTED_ERROR") ;;
          ret l).

(** Lines 539-567: the [try] statement of stage 2. *)
Definition scihub_attempt (a : downloader_args) (input_identifier_str : string)
  (l : locals) (final_doi_ : string) : M locals :=
  try_except
    (r <- locate_scihub_pdf a input_identifier_str final_doi_ ;;
     use_scihub_link a input_identifier_str l r)
    (scihub_failure a input_identifier_str l).

(** Lines 536-567: the branch of stage 2 that falls back to Sci-Hub.  A
    [final_doi] that is true is a [str]: the resolver has called its
    [startswith], and the input DOI is one. *)
Definition scihub_fallback (a : downloader_args) (input_identifier_str : string)
  (l : locals) : M locals :=
  let _log := _log (log_file_path a) input_identifier_str in
  let final_doi_ := format_value (final_doi l) in
  let scihub_page_to_try := Py.rstrip (SCI_HUB_URL env) "/" ++ "/" ++ final_doi_ in
  set_sd (set_scihub_page_url_tried (Some scihub_page_to_try)) ;;
  _log "INFO" ("Attempting Sci-Hub fallback for DOI: " ++ final_doi_ ++ " using "
               ++ scihub_retrieval_method a ++ " method.") ;;
  scihub_attempt a input_identifier_str l final_doi_.

(** Stage 2 (lines 534-571): the Sci-Hub fallback. *)
Definition stage2 (a : downloader_args) (input_identifier_str : string) (l : locals)
  : M locals :=
  let _log := _log (log_file_path a) input_identifier_str in
  if negb (Py.truthy (pdf_content l)) && truth (final_doi l) then
    scihub_fallback a input_identifier_str l
  else if negb (Py.truthy (pdf_content l)) && negb (truth (final_doi l)) then
    _log "WARNING" "No PDF downloaded from OpenAlex and no DOI available for Sci-Hub attempt." ;;
    current <- gets (fun w => status (summary_data w)) ;;
    when (negb (existsb (String.eqb current)
                  ["FAILURE_OPENALEX_METADATA"; "FAILURE_INPUT_ERROR"]))
      (set_sd (set_status "FAILURE_NO_DOI_FOR_SCIHUB")) ;;
    ret l
  else ret l.

(** Stage 3 (lines 575-607): the file. *)
Definition stage3 (a : downloader_args) (input_identifier_str : string) (l : locals)
  : M unit :=
  let _log := _log (log_file_path a) input_identifier_str in
  if Py.truthy (pdf_content l) then
    filename <- sanitize_filename_of (title l) ;;
    output_dir_ <-
      (if negb (os_path_exists env (output_dir a)) then
         try_except
           (makedirs (output_dir a) ;;
            _log "INFO" ("Created output directory: " ++ output_dir a) ;;
            ret (output_dir a))
           (fun e =>
              if isinstance e OSError then
                Some (_log "ERROR"
                        ("Error creating output directory " ++ output_dir a ++ ": "
                         ++ exn_str e ++ ". Saving to current directory instead.") ;;
                      ret ".")
              else None)
       else ret (output_dir a)) ;;
    let output_filepath := os_path_join env output_dir_ filename in
    set_sd (set_local_filepath (Some output_filepath)) ;;
    try_except
      (write_bytes output_filepath (value (pdf_content l)) ;;
       _log "SUCCESS" ("PDF successfully saved to: " ++ output_filepath) ;;
       set_sd (set_status "SUCCESS") ;;
       set_sd (set_message ("PDF successfully saved to: " ++ output_filepath)) ;;
       when (auto_open_pdf a) (open_file_externally output_filepath))
      (fun e =>
         if isinstance e OSError then
           Some (_log "ERROR" ("Error saving PDF to " ++ output_filepath ++ ": " ++ exn_str e) ;;
                 set_sd (set_status "FAILURE_SAVE_PDF") ;;
                 set_sd (set_local_filepath None) ;;
                 exit_unless_batch a)
         else None)
  else
    current <- gets (fun w => status (summary_data w)) ;;
    when (negb (existsb (String.eqb current)
                  ["SUCCESS"; "FAILURE_OPENALEX_METADATA"; "FAILURE_INPUT_ERROR";
                   "FAILURE_SCIHUB_NOT_FOUND"; "FAILURE_NO_DOI_FOR_SCIHUB"]))
      (set_sd (set_status "FAILURE_NO_PDF_CONTENT")) ;;
    _log "FAILURE" ("Ultimately failed to download PDF for identifier: "
                    ++ input_identifier_str ++ ".") ;;
    exit_unless_batch a.

(** Lines 609-614: the entry of the summary file. *)
Definition report (a : downloader_args) (input_identifier_str : string) : M unit :=
  when (Py.truthy (summary_file_path a))
    (sd <- gets summary_data ;;
     let final_status_str := if status sd =? "SUCCESS" then "SUCCESS" else "FAILURE" in
     let reason_message := if final_status_str =? "FAILURE" then Some (message sd) else None in
     update_simplified_summary (value (summary_file_path a)) input_identifier_str
       final_status_str reason_message).

(** Line 459: [identifier_doi or identifier_name or identifier_url or
    "Unknown Identifier"] *)
Definition input_identifier (a : downloader_args) : string :=
  Py.or_else (identifier_doi a)
    (Py.or_else (identifier_name a)
       (Py.or_else (identifier_url a) "Unknown Identifier")).

(** Lines 460-471: the dictionary a call starts with. *)
Definition initial_summary (input_identifier_str : string) : summary :=
  mkSummary input_identifier_str JNull (JStr "Unknown_Paper") "INITIATED" ""
            None JNull None JNull None.

(** Lines 534-616: what follows stage 1 when it has not returned. *)
Definition finish (a : downloader_args) (input_identifier_str : string) (l : locals)
  : M summary :=
  l <- stage2 a input_identifier_str l ;;
  set_sd (set_final_pdf_source_url (actual_download_source_url l)) ;;
  stage3 a input_identifier_str l ;;
  report a input_identifier_str ;;
  gets summary_data.

(** The first step has no counterpart in the source: it records the call
    and its arguments in the channel [calls] of the world. *)
Definition doi_to_pdf_downloader (a : downloader_args) : M summary :=
  modify (fun w => set_calls (calls w ++ [a]) w) ;;
  let input_identifier_str := input_identifier a in
  modify (set_summary_data (initial_summary input_identifier_str)) ;;
  f <- stage1 a input_identifier_str ;;
  match f with
  | Return sd => ret sd
  | Continue l => finish a input_identifier_str l
  end.

(** *** [main] (lines 618-772) *)

(** The namespace [args] that [parser.parse_args()] returns. *)
Record cli_args := mkCli {
  arg_doi : option string;
  arg_name : option string;
  arg_url : option string;
  arg_input_file : option string;
  arg_output : string;
  arg_open : bool;
  arg_delay : Z;
  arg_scihub_method : string }.

(** [args.doi or args.name or args.url] *)
Definition individual_identifier (args : cli_args) : option string :=
  if Py.truthy (arg_doi args) then arg_doi args
  else if Py.truthy (arg_name args) then arg_name args
  else arg_url args.

(** Line 712: [[line.strip() for line in f if line.strip()]] *)
Definition identifiers_to_process (lines : list string) : list string :=
  map Py.strip (filter (fun line => Py.nonempty (Py.strip line)) lines).

(** Lines 722-732: the call made for one line of the input file. *)
Definition batch_call_args (args : cli_args) (output master_log_file_path : string)
  (summary_file_path_ : option string) (identifier_str : string) : downloader_args :=
  mkArgs (Some identifier_str) None None output (arg_open args) true
         (Some master_log_file_path) (arg_scihub_method args) summary_file_path_.

(** Lines 718-742: the loop over the identifiers; [i] is the index that
    [enumerate] gives. *)
Fixpoint batch_loop (args : cli_args) (output master_log_file_path : string)
  (summary_file_path_ : option string) (total_items i : nat)
  (identifiers : list string) (processing_summaries : list summary)
  : M (list summary) :=
  match identifiers with
  | [] => ret processing_summaries
  | identifier_str :: rest =>
      log_message master_log_file_path identifier_str "INFO"
        ("Starting processing for item " ++ Py.str_nat (i + 1) ++ "/"
         ++ Py.str_nat total_items) ;;
      processing_summaries <-
        try_except
          (summary_ <-
             doi_to_pdf_downloader
               (batch_call_args args output master_log_file_path summary_file_path_
                                identifier_str) ;;
           ret (processing_summaries ++ [summary_])%list)
          (fun e =>
             Some (log_message master_log_file_path identifier_str "CRITICAL_ERROR"
                     ("Critical unexpected error processing identifier "
                      ++ identifier_str ++ ": " ++ exn_str e) ;;
                   ret processing_summaries)) ;;
      when ((i <? total_items - 1)%nat && (0 <? arg_delay args)%Z)
        (time_sleep (arg_delay args)) ;;
      batch_loop args output master_log_file_path summary_file_path_ total_items
                 (S i) rest processing_summaries
  end.

(** [main] returns nothing; the model returns the list
    [processing_summaries] it has built, for inspection. *)
Definition main (args : cli_args) : M (list summary) :=
  if Py.truthy (arg_input_file args) && Py.truthy (individual_identifier args) then
    sys_exit 2
  else if negb (Py.truthy (arg_input_file args))
          && negb (Py.truthy (individual_identifier args)) then
    sys_exit 2
  else
    let timestamp_str := strftime_now env in
    let log_filename := "download_log_" ++ timestamp_str ++ ".txt" in
    output <-
      (if negb (os_path_exists env (arg_output args)) then
         try_except (makedirs (arg_output args) ;; ret (arg_output args))
           (fun e => if isinstance e OSError then Some (ret ".") else None)
       else ret (arg_output args)) ;;
    let master_log_file_path := os_path_join env output log_filename in
    let summary_filename := "download_summary_" ++ timestamp_str ++ ".txt" in
    let summary_file_path_ := os_path_join env output summary_filename in
    modify (fun w => set_fs (fs w ++ [SummaryCreate summary_file_path_ timestamp_str]) w) ;;
    let summary_file_path_ :=
      match write_file env summary_file_path_
              ("--- Download Summary (" ++ timestamp_str ++ ") ---"
               ++ String (ascii_of_nat 10) (String (ascii_of_nat 10) EmptyString)) with
      | Some _ => None
      | None => Some summary_file_path_
      end in
    if Py.truthy (arg_input_file args) then
      let input_file := value (arg_input_file args) in
      if negb (os_path_exists env input_file) then
        log_message master_log_file_path "BATCH_SETUP" "ERROR"
          ("Input file not found: " ++ input_file) ;;
        sys_exit 1
      else
        log_message master_log_file_path "BATCH_MODE" "INFO"
          ("Starting batch processing from file: " ++ input_file) ;;
        lines <- call (read_lines env input_file) ;;
        let identifiers := identifiers_to_process lines in
        let total_items := List.length identifiers in
        log_message master_log_file_path "BATCH_MODE" "INFO"
          ("Found " ++ Py.str_nat total_items ++ " identifiers to process.") ;;
        processing_summaries <-
          batch_loop args output master_log_file_path summary_file_path_
                     total_items 0 identifiers [] ;;
        log_message master_log_file_path "BATCH_MODE" "INFO" "Batch processing complete." ;;
        ret processing_summaries
    else
      log_message master_log_file_path (value (individual_identifier args)) "INFO"
        "Starting single item processing." ;;
      summary_ <-
        doi_to_pdf_downloader
          (mkArgs (arg_doi args) (arg_name args) (arg_url args) output (arg_open args)
                  false (Some master_log_file_path) (arg_scihub_method args)
                  summary_file_path_) ;;
      log_message master_log_file_path (value (individual_identifier args)) "INFO"
        "Single item processing complete." ;;
      ret [summary_].

End Program.

(** * Vocabulary of the properties *)

(** The cookie jar [requests.get] is given. *)
Definition cookie_jar_of (selenium_cookies : option (list cookie)) : option (list cookie) :=
  match selenium_cookies with
  | Some (c :: cs) => Some (c :: cs)
  | _ => None
  end.

(** The server answers the request for [pdf_url] with [resp], a response
    whose status is not an error. *)
Definition serves (env : Env) (pdf_url_ : string)
  (selenium_cookies : option (list cookie)) (resp : response) : Prop :=
  requests_get_pdf env (Py.split_first pdf_url_ "#") (cookie_jar_of selenium_cookies)
    = HttpResponse resp
  /\ http_error_msg (status_code resp) (reason resp) (response_url resp) = None.

(** The declared content type names a PDF or a stream of octets. *)
Definition recognized_type (resp : response) : bool :=
  Py.contains (Py.lower (value (content_type resp))) "application/pdf"
  || Py.contains (Py.lower (value (content_type resp))) "octet-stream".

Definition is_not_found {A} (r : result A) : Prop :=
  exists msg, r = Raise (Exc (mkExn NotFoundError msg)).

(** What the fetcher holds after its look at the first piece of the
    stream: the piece and what [response.content] still gives. *)
Definition peeked (resp : response) : bytes :=
  first_piece 1024 resp ++ content_after_first_piece 1024 resp.

(** The fetcher accepts the response (lines 384-396), and what it then
    returns of it. *)
Definition accepted (resp : response) : bool :=
  if recognized_type resp then Py.nonempty (body resp)
  else Py.startswith (first_piece 1024 resp) "%PDF-".

Definition delivered (resp : response) : bytes :=
  if recognized_type resp then body resp else peeked resp.


(** ** Environments for the examples *)

(** Nothing answers: the service and the document hosts are unreachable and
    no browser can be started; the file system works. *)
Definition env_offline : Env :=
  mkEnv "https://sci-hub.mksa.top/"
    (fun _ _ => HttpError "connection refused")
    (fun _ _ => HttpError "connection refused")
    (Fault (mkExn WebDriverException "cannot start chrome"))
    (fun _ => Done tt)
    (fun _ => Fault (mkExn TimeoutException "timeout"))
    (fun _ => Fault (mkExn TimeoutException "timeout"))
    (fun _ => Done [])
    (fun _ => Done [])
    (Done tt)
    (fun base rel => base ++ rel)
    (fun _ => true)
    (fun dir name => dir ++ "/" ++ name)
    (fun _ => None)
    (fun _ _ => None)
    (fun _ => Done [])
    "20240101_120000"
    type_name.

(** The same, with other answers to the requests for documents, to the
    queries of the service, from the browser and from the file system. *)
Definition with_pdf_server (f : string -> option (list cookie) -> http_result response)
  (e : Env) : Env :=
  mkEnv (SCI_HUB_URL e) (requests_get_api e) f (uc_Chrome e) (driver_get e)
    (wait_unavailable_text e) (wait_pdf_element e) (find_iframes e)
    (driver_get_cookies e) (webdriver_quit e) (urljoin e) (os_path_exists e)
    (os_path_join e) (os_makedirs e) (write_file e) (read_lines e) (strftime_now e)
    (repr_ e).

Definition with_api (f : string -> list (string * string) -> http_result api_response)
  (e : Env) : Env :=
  mkEnv (SCI_HUB_URL e) f (requests_get_pdf e) (uc_Chrome e) (driver_get e)
    (wait_unavailable_text e) (wait_pdf_element e) (find_iframes e)
    (driver_get_cookies e) (webdriver_quit e) (urljoin e) (os_path_exists e)
    (os_path_join e) (os_makedirs e) (write_file e) (read_lines e) (strftime_now e)
    (repr_ e).

Definition with_browser (chrome : outcome unit)
  (unavailable : string -> outcome unit) (pdf_element : string -> outcome element)
  (quit : outcome unit) (e : Env) : Env :=
  mkEnv (SCI_HUB_URL e) (requests_get_api e) (requests_get_pdf e) chrome (driver_get e)
    unavailable pdf_element (find_iframes e)
    (driver_get_cookies e) quit (urljoin e) (os_path_exists e)
    (os_path_join e) (os_makedirs e) (write_file e) (read_lines e) (strftime_now e)
    (repr_ e).

Definition with_write_file (f : string -> bytes -> option string) (e : Env) : Env :=
  mkEnv (SCI_HUB_URL e) (requests_get_api e) (requests_get_pdf e) (uc_Chrome e)
    (driver_get e) (wait_unavailable_text e) (wait_pdf_element e) (find_iframes e)
    (driver_get_cookies e) (webdriver_quit e) (urljoin e) (os_path_exists e)
    (os_path_join e) (os_makedirs e) f (read_lines e) (strftime_now e)
    (repr_ e).

Definition with_read_lines (f : string -> outcome (list string)) (e : Env) : Env :=
  mkEnv (SCI_HUB_URL e) (requests_get_api e) (requests_get_pdf e) (uc_Chrome e)
    (driver_get e) (wait_unavailable_text e) (wait_pdf_element e) (find_iframes e)
    (driver_get_cookies e) (webdriver_quit e) (urljoin e) (os_path_exists e)
    (os_path_join e) (os_makedirs e) (write_file e) f (strftime_now e) (repr_ e).

(** Every request for a document is answered with [resp]. *)
Definition env_serving (resp : response) : Env :=
  with_pdf_server (fun _ _ => HttpResponse resp) env_offline.

Definition html_as_pdf : response :=
  mkResponse 200 "OK" "https://host.example/paper.pdf" (Some "application/pdf")
    (Whole "<html>Access denied</html>").



(** ** The Metadata Resolver *)

(** [v.get(key)] for a [dict], and [None] for a value that has no
    members. *)
Definition field (key : string) (v : json_value) : json_value :=
  match v with
  | JDict members => match lookup key members with Some x => x | None => JNull end
  | _ => JNull
  end.

Definition is_dict (v : json_value) : bool :=
  match v with JDict _ => true | _ => false end.

(** A [str], or a value that is false; a [dict], or a value that is
    false. *)
Definition str_or_false (v : json_value) : bool :=
  match v with JStr _ => true | _ => negb (truth v) end.

Definition dict_or_false (v : json_value) : bool :=
  match v with JDict _ => true | _ => negb (truth v) end.

(** The fields of a record the candidate may come from. *)
Definition oa_url (metadata : json_value) : json_value :=
  field "oa_url" (field "open_access" metadata).

Definition best_pdf_url (metadata : json_value) : json_value :=
  field "pdf_url" (field "best_oa_location" metadata).

Definition primary_is_oa (metadata : json_value) : bool :=
  truth (field "is_oa" (field "primary_location" metadata)).

(** The three places a candidate is looked for hold what the service
    documents: an object, or nothing. *)
Definition locations_well_typed (metadata : json_value) : bool :=
  is_dict metadata
  && dict_or_false (field "open_access" metadata)
  && dict_or_false (field "primary_location" metadata)
  && dict_or_false (field "best_oa_location" metadata).

(** A record of the documented shape: an object whose DOI and document
    URLs are strings (or missing, or [null]) and whose locations are
    objects (or missing, or [null]). *)
Definition well_typed_record (metadata : json_value) : bool :=
  locations_well_typed metadata
  && str_or_false (field "doi" metadata)
  && str_or_false (oa_url metadata)
  && str_or_false (best_pdf_url metadata).

(** A title the file can be named after: a [str], or a value that is
    false. *)
Definition well_typed_title (metadata : json_value) : bool :=
  match metadata with
  | JDict members =>
      match lookup "display_name" members with
      | Some v => str_or_false v
      | None => true
      end
  | _ => true
  end.

(** A record the whole run can work with. *)
Definition usable_record (metadata : json_value) : bool :=
  well_typed_record metadata && well_typed_title metadata.

(** An answer of the documented shape.  To a search by title: an object
    whose [meta], if it has one, is an object, and whose [results] are a
    list that begins with a usable record, or are empty or missing, in
    which case the object itself is read as the record.  To a direct
    lookup: a usable record, or a value that is false. *)
Definition well_typed_answer (name_given : bool) (answer : json_value) : bool :=
  if name_given then
    match answer with
    | JDict members =>
        match lookup "meta" members with
        | Some meta => is_dict meta
        | None => true
        end
        && match field "results" answer with
           | JList (first :: _) => usable_record first
           | results => negb (truth results) && usable_record answer
           end
    | _ => false
    end
  else negb (truth answer) || usable_record answer.

(** The priority in the words of the specification: the open-access URL
    when it is present, else the document URL of the best open-access
    location. *)
Definition candidate_by_priority (metadata : json_value) : json_value :=
  if truth (oa_url metadata) then oa_url metadata
  else if truth (best_pdf_url metadata) then best_pdf_url metadata
  else JNull.

(** What lines 139-182 select in a record whose locations are well
    typed. *)
Definition selected_url (metadata : json_value) : json_value :=
  if truth (oa_url metadata) then oa_url metadata
  else if primary_is_oa metadata && truth (best_pdf_url metadata)
  then best_pdf_url metadata
  else oa_url metadata.

(** A [dict] with one more member, which replaces an earlier one of the
    same key. *)
Definition with_member (key : string) (v : json_value) (d : json_value) : json_value :=
  match d with
  | JDict members => JDict (members ++ [(key, v)])
  | _ => d
  end.

(** The record with other landing pages and another venue. *)
Definition with_landing_pages (venue lp_primary lp_best : json_value)
  (metadata : json_value) : json_value :=
  with_member "host_venue" venue
    (with_member "primary_location"
       (with_member "landing_page_url" lp_primary (field "primary_location" metadata))
       (with_member "best_oa_location"
          (with_member "landing_page_url" lp_best (field "best_oa_location" metadata))
          metadata)).

(** The DOI and the title the resolver reports for a record. *)
Definition record_doi (metadata : json_value) : json_value :=
  match field "doi" metadata with
  | JStr s => if Py.startswith s "https://doi.org/"
              then JStr (Py.drop (String.length "https://doi.org/") s)
              else JStr s
  | v => v
  end.

Definition record_title (metadata : json_value) : json_value :=
  match metadata with
  | JDict members =>
      match lookup "display_name" members with
      | Some v => v
      | None => JStr "Unknown Title"
      end
  | _ => JStr "Unknown Title"
  end.

(** What lines 184-194 make of a candidate that is a [str]. *)
Definition rewritten (u : string) : string :=
  if Py.contains u "arxiv.org/abs/" then
    match re_search_arxiv_abs u with
    | Some arxiv_id => "https://arxiv.org/pdf/" ++ arxiv_id ++ ".pdf"
    | None => u
    end
  else u.

Definition corrected_url (v : json_value) : json_value :=
  match v with JStr u => JStr (rewritten u) | _ => v end.

(** The service answers the query for the identifier with the record
    [metadata]: as the document itself for a direct lookup, as the first
    result of a search by title that counts at least one. *)
Definition resolves (env : Env) (doi_in name_in url_in : option string)
  (api_url : string) (metadata : json_value) : Prop :=
  exists params used r answer,
    (forall w, build_query doi_in name_in url_in w = (Ok (api_url, params, used), w))
    /\ requests_get_api env api_url params = HttpResponse r
    /\ http_error_msg (api_status_code r) (api_reason r) (api_response_url r) = None
    /\ json r = Json answer
    /\ ((Py.truthy name_in = false /\ answer = metadata /\ truth metadata = true)
        \/ (Py.truthy name_in = true
            /\ (exists count, field "count" (field "meta" answer) = JInt (Z.pos count))
            /\ exists rest, field "results" answer = JList (metadata :: rest))).

(** Whatever the service answers to the query for the identifier is of the
    documented shape. *)
Definition answers_well_typed (env : Env) (doi_in name_in url_in : option string)
  : Prop :=
  forall api_url params used r answer,
    (forall w, build_query doi_in name_in url_in w = (Ok (api_url, params, used), w)) ->
    requests_get_api env api_url params = HttpResponse r ->
    json r = Json answer ->
    well_typed_answer (Py.truthy name_in) answer = true.

(** Every query of the service is answered with the document [answer]. *)
Definition env_answering (answer : json_value) : Env :=
  with_api (fun api_url _ => HttpResponse (mkApiResponse 200 "OK" api_url (Json answer)))
    env_offline.

(** A paper whose publisher copy is closed and whose repository copy is
    open, reported without [open_access.oa_url]. *)
Definition repository_copy : json_value :=
  JDict [("doi", JStr "https://doi.org/10.1000/xyz");
         ("display_name", JStr "A paper");
         ("open_access", JDict [("is_oa", JBool true); ("oa_url", JNull)]);
         ("primary_location",
          JDict [("is_oa", JBool false);
                 ("landing_page_url", JStr "https://publisher.example/article")]);
         ("best_oa_location",
          JDict [("is_oa", JBool true);
                 ("pdf_url", JStr "https://repo.example/paper.pdf");
                 ("landing_page_url", JStr "https://repo.example/record")])].



(** The errors Python raises when a value is used as what it is not. *)
Definition misuse_class (c : exn_class) : bool :=
  match c with
  | AttributeError | TypeError | KeyError | IndexError => true
  | _ => false
  end.

Definition misuse (r : raised) : Prop :=
  exists c msg, r = Exc (mkExn c msg) /\ misuse_class c = true.

(** A computation has ended in such an error. *)
Definition misuse_raised {A} (r : result A) : Prop :=
  match r with
  | Raise x => misuse x
  | Ok _ => False
  end.


(** ** Guarantees of a computation *)

(** [keeps I R m]: from a world in which [I] holds, [m] ends in a world in
    which [I] holds, and whatever it raises is allowed by [R]. *)
Definition keeps {A} (I : world -> Prop) (R : raised -> Prop) (m : M A) : Prop :=
  forall w, I w ->
    I (snd (m w)) /\ (forall r, fst (m w) = Raise r -> R r).

(** [yields I R Q m]: as [keeps I R m], and what [m] returns satisfies
    [Q]. *)
Definition yields {A} (I : world -> Prop) (R : raised -> Prop) (Q : A -> Prop)
  (m : M A) : Prop :=
  forall w, I w ->
    I (snd (m w))
    /\ match fst (m w) with
       | Ok a => Q a
       | Raise r => R r
       end.

Definition anything : raised -> Prop := fun _ => True.
Definition nothing : raised -> Prop := fun _ => False.
Definition always : world -> Prop := fun _ => True.

(** An instance of [Exception], that is, not [SystemExit]. *)
Definition is_exception (r : raised) : Prop := exists e, r = Exc e.

(** An instance of the class [c] itself. *)
Definition raised_class (c : exn_class) (r : raised) : Prop :=
  exists msg, r = Exc (mkExn c msg).

(** The statuses [_log] copies into the summary. *)
Definition reported (status_ : string) : bool :=
  existsb (String.eqb status_)
    ["SUCCESS"; "FAILURE"; "ERROR"; "CRITICAL_ERROR"; "WARNING"].


(** What a call of [_log] does to the summary and to the world. *)
Definition logged_summary (status_ msg : string) (sd : summary) : summary :=
  if reported status_ then
    set_message
      (if Py.nonempty (message (if negb (status sd =? "SUCCESS")
                                then set_status status_ sd else sd))
       then message (if negb (status sd =? "SUCCESS")
                     then set_status status_ sd else sd) ++ " | " ++ msg
       else msg)
      (if negb (status sd =? "SUCCESS") then set_status status_ sd else sd)
  else sd.

Definition logged_world (log_file_path_ : option string)
  (input_identifier_str status_ msg : string) (w : world) : world :=
  mkWorld (logged w ++ [(status_, msg)])
    (logged_summary status_ msg (summary_data w))
    (api_requests w) (pdf_requests w) (browser w)
    (if Py.truthy log_file_path_
     then fs w ++ [LogAppend (value log_file_path_) input_identifier_str status_ msg]
     else fs w)
    (calls w).

(** What the Metadata Resolver raises by itself, and what it may raise:
    the errors of an answer that is not of the documented shape pass
    through it. *)
Definition resolver_error (r : raised) : Prop :=
  raised_class NotFoundError r \/ raised_class ValueError r
  \/ raised_class JSONDecodeError r.

Definition resolver_raises (r : raised) : Prop := resolver_error r \/ misuse r.

(** What the Rendered-Page Extractor may raise. *)
Definition extractor_error (r : raised) : Prop :=
  raised_class NotFoundError r \/ raised_class ValueError r.


(** ** The Rendered-Page Extractor *)

Definition with_webdriver_quit (q : outcome unit) (e : Env) : Env :=
  mkEnv (SCI_HUB_URL e) (requests_get_api e) (requests_get_pdf e) (uc_Chrome e)
    (driver_get e) (wait_unavailable_text e) (wait_pdf_element e) (find_iframes e)
    (driver_get_cookies e) q (urljoin e) (os_path_exists e)
    (os_path_join e) (os_makedirs e) (write_file e) (read_lines e) (strftime_now e)
    (repr_ e).

(** The page of the fallback source for a DOI. *)
Definition scihub_page (base doi_ : string) : string :=
  Py.rstrip base "/" ++ "/" ++ doi_.

(** The outer [try] of the extractor with its [except] clauses, and the
    world in which it starts: the one the first log entry leaves. *)
Definition protected_block (env : Env) (doi_ base : string)
  (log_func : string -> string -> M unit)
  : M (option string * option (list cookie)) :=
  try_except (scihub_session env doi_ base (scihub_page base doi_) log_func)
             (scihub_handlers log_func).

Definition announced (p : option string) (i doi_ base : string) (w : world) : world :=
  logged_world p i "INFO"
    ("[Selenium] Attempting to retrieve PDF link from Sci-Hub page: "
     ++ scihub_page base doi_) w.

(** The last entry of the log is a warning. *)
Definition warned (w : world) : Prop :=
  exists msg, last (logged w) ("", "") = ("WARNING", msg).

(** A browser that starts, shows the frame of the document, and fails to
    quit. *)
Definition env_stuck_browser : Env :=
  with_browser (Done tt)
    (fun _ => Fault (mkExn TimeoutException "timeout"))
    (fun _ => Done (mkElement (Done (Some "//cdn.example/paper.pdf"))))
    (Fault (mkExn OSError "[WinError 6] The handle is invalid"))
    env_offline.


(** ** The Retrieval Orchestrator *)

(** The only way a stage raises by itself: [sys.exit(1)], outside batch
    mode; and what a stage may raise: the errors of a record that is not
    of the documented shape pass through it. *)
Definition exits_unless_batch (a : downloader_args) (r : raised) : Prop :=
  r = SystemExit 1 /\ is_batch_mode a = false.

Definition stage_raises (a : downloader_args) (r : raised) : Prop :=
  exits_unless_batch a r \/ misuse r.


(** The statuses a returned summary can carry: [SUCCESS]; the two kinds
    that are assigned after the last log entry of the run; and the levels
    [FAILURE] and [ERROR] of the log entries, which [_log] writes over
    every other kind. *)
Definition final_statuses : list string :=
  ["SUCCESS"; "FAILURE"; "ERROR"; "FAILURE_INPUT_ERROR"; "FAILURE_SAVE_PDF"].



(** The world in which stage 1 starts: the call is recorded and
    [summary_data] is the initial dictionary. *)
Definition entered (a : downloader_args) (w : world) : world :=
  set_summary_data (initial_summary (input_identifier a))
    (set_calls (calls w ++ [a]) w).

(** The name of the file for a title: of a title that is no [str] only
    the truth is read (line 32). *)
Definition file_name (title_ : json_value) : string :=
  match title_ with
  | JStr s => sanitize_filename s
  | _ => sanitize_filename EmptyString
  end.


(** Two states of the local variables with the same title and DOI. *)
Definition same_paper (l l2 : locals) : Prop :=
  title l2 = title l /\ final_doi l2 = final_doi l.

(** The placeholder title made of a DOI (line 521). *)
Definition placeholder_title (doi_ : string) : string :=
  Py.replace (Py.replace doi_ "/" "_") "." "_".

(** An open paper, a host that serves it, and a disk that is full. *)
Definition open_paper : json_value :=
  JDict [("doi", JStr "https://doi.org/10.1000/xyz1");
         ("display_name", JStr "An open paper");
         ("open_access",
          JDict [("is_oa", JBool true);
                 ("oa_url", JStr "https://good.example/paper.pdf")])].

Definition served_pdf : response :=
  mkResponse 200 "OK" "https://good.example/paper.pdf" (Some "application/pdf")
    (Whole "%PDF-1.7 text").

Definition env_open_access : Env :=
  with_pdf_server (fun _ _ => HttpResponse served_pdf) (env_answering open_paper).

Definition env_disk_full : Env :=
  with_write_file (fun _ _ => Some "[Errno 28] No space left on device") env_open_access.

(** Calls in batch mode and in single-item mode. *)
Definition batch_doi (doi_ : string) : downloader_args :=
  mkArgs (Some doi_) None None "papers" false true (Some "papers/log.txt")
         "selenium" (Some "papers/summary.txt").


Definition batch_name (name : string) : downloader_args :=
  mkArgs None (Some name) None "papers" false true (Some "papers/log.txt")
         "selenium" (Some "papers/summary.txt").

Definition single_name (name : string) : downloader_args :=
  mkArgs None (Some name) None "papers" false false (Some "papers/log.txt")
         "selenium" (Some "papers/summary.txt").


(** The status of a returned summary. *)
Definition returned_status (r : result summary) : option string :=
  match r with
  | Ok sd => Some (status sd)
  | Raise _ => None
  end.

(** The status is [SUCCESS]. *)
Definition succeeded (w : world) : Prop := status (summary_data w) = "SUCCESS".


(** The lookup of the identifier of [a] ends in [NotFoundError(msg)]. *)
Definition lookup_fails (env : Env) (a : downloader_args) (msg : string) : Prop :=
  forall w,
    fst (get_paper_metadata env (identifier_doi a) (identifier_name a)
           (identifier_url a) w)
    = Raise (Exc (mkExn NotFoundError msg)).

(** The log entries that open the fallback: the one of stage 2 and the one
    of the extractor. *)
Definition fallback_entry (a : downloader_args) (doi_ : string) : string * string :=
  ("INFO", "Attempting Sci-Hub fallback for DOI: " ++ doi_ ++ " using "
           ++ scihub_retrieval_method a ++ " method.").

Definition extractor_entry (base doi_ : string) : string * string :=
  ("INFO", "[Selenium] Attempting to retrieve PDF link from Sci-Hub page: "
           ++ scihub_page base doi_).

(** [m] ends in a world in which [I] holds, from whatever world it starts. *)
Definition ensures {A} (I : world -> Prop) (m : M A) : Prop :=
  forall w, I (snd (m w)).

(** The parts of the world the resolver and the logger leave alone. *)
Definition outside_summary (w : world) :=
  (pdf_requests w, browser w, calls w).


(** A search by title that finds nothing. *)
Definition no_results : json_value :=
  JDict [("meta", JDict [("count", JInt 0)]); ("results", JList [])].

Definition env_no_results : Env := env_answering no_results.

(** The answer counts no result (line 125): [meta] is absent or a [dict]
    whose [count] is absent or equal to zero. *)
Definition counts_nothing (answer : json_value) : bool :=
  match answer with
  | JDict members =>
      match lookup "meta" members with
      | None => true
      | Some (JDict meta) =>
          match lookup "count" meta with
          | None => true
          | Some count => equals_zero count
          end
      | Some _ => false
      end
  | _ => false
  end.

(** A field of a returned summary. *)
Definition returned_field {A} (f : summary -> A) (r : result summary) : option A :=
  match r with
  | Ok sd => Some (f sd)
  | Raise _ => None
  end.


(** ** The Batch Runner *)

(** The identifier slots of a call. *)
Definition identifier_slots (a : downloader_args)
  : option string * option string * option string :=
  (identifier_doi a, identifier_name a, identifier_url a).

(** The first list is made of elements of the second, in their order. *)
Inductive subsequence {A : Type} : list A -> list A -> Prop :=
| subsequence_nil : subsequence [] []
| subsequence_keep x l l' : subsequence l l' -> subsequence (x :: l) (x :: l')
| subsequence_skip x l l' : subsequence l l' -> subsequence l (x :: l').

(** A list of DOIs in a file, with a blank line. *)
Definition env_with_input_file : Env :=
  with_read_lines
    (fun _ => Done ["10.1000/xyz1" ++ String (ascii_of_nat 10) "";
                    String (ascii_of_nat 160) (String (ascii_of_nat 10) "");
                    "  https://doi.org/10.1000/xyz2  " ++ String (ascii_of_nat 10) ""])
    env_offline.

Definition batch_cli : cli_args :=
  mkCli None None None (Some "dois.txt") "papers" false 0 "selenium".


(** ** File names *)

(** The characters of [s] that [f] accepts, and [s] with [f] applied to
    each character. *)
Fixpoint keep (f : ascii -> bool) (s : string) : string :=
  match s with
  | EmptyString => EmptyString
  | String c s' => if f c then String c (keep f s') else keep f s'
  end.

Fixpoint map_chars (f : ascii -> ascii) (s : string) : string :=
  match s with
  | EmptyString => EmptyString
  | String c s' => String (f c) (map_chars f s')
  end.

(** A character that may not occur in a file name: the space and the
    characters of [invalid_chars]. *)
Definition forbidden (c : ascii) : bool := Py.mem c (String " " invalid_chars).

(** The last character of a string. *)
Fixpoint last_char (s : string) : option ascii :=
  match s with
  | EmptyString => None
  | String c EmptyString => Some c
  | String _ s' => last_char s'
  end.

(** The stem of the file name, in closed form. *)
Definition stem_of (title : string) : string :=
  let cleaned :=
    keep (fun ch => negb (Py.mem ch invalid_chars))
      (map_chars (fun ch => if Ascii.eqb " " ch then "_"%char else ch)
         (if Py.nonempty title then title else "Unknown_Paper_Title")) in
  let cut := if (200 <? String.length cleaned)%nat then Py.take 200 cleaned else cleaned in
  if Py.nonempty (Py.rstrip cut ". ") then Py.rstrip cut ". " else "Sanitized_Paper_Title".

(** Every character of [s] may occur in a file name. *)
Definition safe (s : string) : bool :=
  forallb (fun c => negb (forbidden c)) (list_ascii_of_string s).

(** Every character of the title is removed by [sanitize_filename] or is a
    period. *)
Definition vanishing (title : string) : bool :=
  forallb (fun c => Py.mem c invalid_chars || Ascii.eqb c ".")
    (list_ascii_of_string title).

(** A browser that starts and shows the page on which the document is
    said to be unavailable. *)
Definition env_no_document : Env :=
  with_browser (Done tt)
    (fun _ => Done tt)
    (fun _ => Fault (mkExn TimeoutException "timeout"))
    (Done tt)
    env_offline.

(** A frame the scan of the page passes over: its [src] can be read and
    does not name a PDF. *)
Definition other_frame (el : element) : bool :=
  match get_attribute_src el with
  | Done o => negb (Py.truthy o && Py.contains (Py.lower (value o)) ".pdf")
  | Fault _ => false
  end.

Definition with_find_iframes (f : string -> outcome (list element)) (e : Env) : Env :=
  mkEnv (SCI_HUB_URL e) (requests_get_api e) (requests_get_pdf e) (uc_Chrome e)
    (driver_get e) (wait_unavailable_text e) (wait_pdf_element e) f
    (driver_get_cookies e) (webdriver_quit e) (urljoin e) (os_path_exists e)
    (os_path_join e) (os_makedirs e) (write_file e) (read_lines e) (strftime_now e)
    (repr_ e).

(** A page without the element [#pdf], whose third frame holds the
    document. *)
Definition env_framed_page : Env :=
  with_find_iframes
    (fun _ => Done [mkElement (Done None);
                    mkElement (Done (Some "https://ads.example/banner"));
                    mkElement (Done (Some "/downloads/Paper.PDF"));
                    mkElement (Done (Some "https://other.example/second.pdf"))])
    (with_browser (Done tt)
       (fun _ => Fault (mkExn TimeoutException "timeout"))
       (fun _ => Fault (mkExn TimeoutException "timeout"))
       (Done tt)
       env_offline).

(** ** The fields of the summary

    The fields that stage 1, stage 2, stage 3 and the logger leave as they
    are. *)
Definition apart_from_lookup (sd : summary) :=
  (identifier_input sd, scihub_page_url_tried sd, final_pdf_source_url sd,
   local_filepath sd).

Definition apart_from_fallback (sd : summary) :=
  (identifier_input sd, resolved_doi sd, paper_title sd,
   openalex_api_url_queried sd, direct_oa_pdf_url_tried sd,
   final_pdf_source_url sd, local_filepath sd).

Definition apart_from_file (sd : summary) :=
  (identifier_input sd, resolved_doi sd, paper_title sd,
   openalex_api_url_queried sd, direct_oa_pdf_url_tried sd,
   scihub_page_url_tried sd, final_pdf_source_url sd).

Definition apart_from_status (sd : summary) :=
  (identifier_input sd, resolved_doi sd, paper_title sd,
   openalex_api_url_queried sd, direct_oa_pdf_url_tried sd,
   scihub_page_url_tried sd, final_pdf_source_url sd, local_filepath sd).

(** The summary a call has returned. *)
Definition returned (r : result summary * world) : summary :=
  match fst r with Ok sd => sd | Raise _ => empty_summary end.

(** The link made of the [src] of a frame (lines 300-304). *)
Definition absolute_link (env : Env) (base src : string) : string :=
  if Py.startswith src "//" then "https:" ++ src
  else if negb (Py.startswith src "http") then urljoin env base src
  else src.

(** The service is unreachable, the fallback source shows the document
    and its host serves it. *)
Definition env_fallback : Env :=
  with_pdf_server (fun _ _ => HttpResponse served_pdf) env_stuck_browser.

(** ** The command line *)

(** The directory [main] works in (lines 678-684), the log file and the
    summary file it hands to the orchestrator (lines 686-698). *)
Definition effective_output (env : Env) (args : cli_args) : string :=
  if os_path_exists env (arg_output args) then arg_output args
  else match os_makedirs env (arg_output args) with
       | Some _ => "."
       | None => arg_output args
       end.

Definition master_log_file (env : Env) (args : cli_args) : string :=
  os_path_join env (effective_output env args)
    ("download_log_" ++ strftime_now env ++ ".txt").

Definition summary_header (env : Env) : string :=
  "--- Download Summary (" ++ strftime_now env ++ ") ---"
  ++ String (ascii_of_nat 10) (String (ascii_of_nat 10) EmptyString).

Definition summary_report (env : Env) (args : cli_args) : option string :=
  match write_file env
          (os_path_join env (effective_output env args)
             ("download_summary_" ++ strftime_now env ++ ".txt"))
          (summary_header env) with
  | Some _ => None
  | None => Some (os_path_join env (effective_output env args)
                    ("download_summary_" ++ strftime_now env ++ ".txt"))
  end.

(** A disk on which nothing can be created. *)
Definition env_read_only : Env :=
  mkEnv (SCI_HUB_URL env_with_input_file) (requests_get_api env_with_input_file)
    (requests_get_pdf env_with_input_file) (uc_Chrome env_with_input_file)
    (driver_get env_with_input_file) (wait_unavailable_text env_with_input_file)
    (wait_pdf_element env_with_input_file) (find_iframes env_with_input_file)
    (driver_get_cookies env_with_input_file) (webdriver_quit env_with_input_file)
    (urljoin env_with_input_file)
    (fun path => String.eqb path "dois.txt")
    (os_path_join env_with_input_file)
    (fun _ => Some "[Errno 30] Read-only file system")
    (fun _ _ => Some "[Errno 30] Read-only file system")
    (read_lines env_with_input_file) (strftime_now env_with_input_file)
    (repr_ env_with_input_file).

(** * Properties *)

Unset Implicit Arguments.

(** ** Strings *)

Lemma take_drop (n : nat) (s : string) : Py.take n s ++ Py.drop n s = s.
Proof.
  revert s; induction n as [|n IH]; intros [|c s]; simpl; try reflexivity.
  now rewrite IH.
Qed.

Lemma startswith_take (p : string) :
  forall (n : nat) (s : string), String.length p <= n ->
    Py.startswith (Py.take n s) p = Py.startswith s p.
Proof.
  induction p as [|a p IH]; intros n s Hn; simpl in *.
  - reflexivity.
  - destruct n as [|n]; [lia|].
    destruct s as [|b s]; simpl; [reflexivity|].
    rewrite IH by lia. reflexivity.
Qed.

Lemma startswith_app (p s : string) : Py.startswith (p ++ s) p = true.
Proof.
  induction p as [|a p IH]; simpl; [reflexivity|].
  now rewrite Ascii.eqb_refl, IH.
Qed.

Lemma drop_app (p s : string) : Py.drop (String.length p) (p ++ s) = s.
Proof.
  induction p as [|a p IH]; simpl; [reflexivity|exact IH].
Qed.

Lemma startswith_lower (p : string) :
  forall s, Py.startswith s p = true ->
    Py.startswith (Py.lower s) (Py.lower p) = true.
Proof.
  induction p as [|a p IH]; intros s H; simpl in *; [reflexivity|].
  destruct s as [|b s]; [discriminate|]. simpl.
  apply andb_true_iff in H as [Hab Hs].
  apply Ascii.eqb_eq in Hab. subst b.
  now rewrite Ascii.eqb_refl, IH.
Qed.

Lemma contains_lower (p : string) :
  forall s, Py.contains s p = true -> Py.contains (Py.lower s) (Py.lower p) = true.
Proof.
  induction s as [|c s IH]; simpl; intros H.
  - rewrite orb_false_r in H. apply startswith_lower in H. simpl in H.
    now rewrite H.
  - apply orb_true_iff in H as [H|H].
    + apply startswith_lower in H. simpl in H. now rewrite H.
    + rewrite (IH H). apply orb_true_r.
Qed.

Lemma nonempty_true (s : string) : s <> EmptyString -> Py.nonempty s = true.
Proof. destruct s; [congruence|reflexivity]. Qed.

(** ** The Content Fetcher *)

Lemma startswith_nonempty_app (s t p : string) :
  p <> "" -> Py.startswith s p = true -> Py.nonempty (s ++ t) = true.
Proof.
  intros Hp H. destruct p as [|a p]; [congruence|].
  destruct s as [|b s]; [discriminate H | reflexivity].
Qed.


(** Of a body sent whole the first piece is the first kilobyte and nothing
    is lost; of an empty body the first piece is empty. *)
Lemma peeked_whole resp data :
  sent resp = Whole data ->
  first_piece 1024 resp = Py.take 1024 (body resp) /\ peeked resp = body resp.
Proof.
  intros H. unfold peeked, first_piece, content_after_first_piece, body.
  rewrite H. split; [reflexivity | apply take_drop].
Qed.


Section ContentFetcher.

Variable env : Env.

(** What [download_pdf_content] returns for a served response. *)
Lemma download_served pdf_url_ cookies resp w :
  serves env pdf_url_ cookies resp ->
  fst (download_pdf_content env pdf_url_ cookies w) =
    if recognized_type resp then
      if Py.nonempty (body resp) then Ok (body resp)
      else Raise (Exc (mkExn NotFoundError
             ("Downloaded PDF from " ++ Py.split_first pdf_url_ "#" ++ " is empty.")))
    else if Py.startswith (first_piece 1024 resp) "%PDF-" then Ok (peeked resp)
    else Raise (Exc (mkExn NotFoundError
           ("URL " ++ Py.split_first pdf_url_ "#"
            ++ " did not return a PDF. Content-type: "
            ++ Py.lower (value (content_type resp))
            ++ ". Try opening the URL in a browser."))).
Proof.
  intros [Hget Hstatus].
  unfold recognized_type.
  cbv [download_pdf_content try_except bind ret raise modify requests_get_stream].
  fold (cookie_jar_of cookies). rewrite Hget, Hstatus. fold (peeked resp).
  destruct (Py.contains (Py.lower (value (content_type resp))) "application/pdf");
    destruct (Py.contains (Py.lower (value (content_type resp))) "octet-stream");
    cbn [negb andb orb];
    try (destruct (Py.nonempty (body resp)); reflexivity).
  destruct (Py.startswith (first_piece 1024 resp) "%PDF-") eqn:E; cbn [negb];
    [|reflexivity].
  unfold peeked at 1.
  rewrite (startswith_nonempty_app _ (content_after_first_piece 1024 resp) "%PDF-"
             ltac:(discriminate) E).
  reflexivity.
Qed.

End ContentFetcher.




(** C9. Under a declared content type that contains [application/pdf] or
    [octet-stream] the body is returned without a look at its signature:
    a non-empty body that is no PDF comes back as the document. *)
Theorem download_pdf_content_trusts_declared_type :
  (forall env pdf_url_ cookies resp w,
      serves env pdf_url_ cookies resp ->
      Py.contains (value (content_type resp)) "application/pdf" = true
      \/ Py.contains (value (content_type resp)) "octet-stream" = true ->
      body resp <> "" ->
      fst (download_pdf_content env pdf_url_ cookies w) = Ok (body resp))
  /\ Py.startswith (body html_as_pdf) "%PDF-" = false
  /\ fst (download_pdf_content (env_serving html_as_pdf)
            "https://host.example/paper.pdf" None world0)
     = Ok "<html>Access denied</html>".
Proof.
  split; [|split; reflexivity].
  intros env pdf_url_ cookies resp w Hs Hct Hb.
  rewrite (download_served _ _ _ _ w Hs).
  assert (Hr : recognized_type resp = true).
  { unfold recognized_type. apply orb_true_iff.
    destruct Hct as [H|H]; [left|right];
      exact (contains_lower _ _ H). }
  now rewrite Hr, (nonempty_true _ Hb).
Qed.

Lemma download_pdf_content_trusts_declared_type_witness :
  serves (env_serving html_as_pdf) "https://host.example/paper.pdf" None html_as_pdf
  /\ fst (download_pdf_content (env_serving html_as_pdf)
            "https://host.example/paper.pdf" None world0) = Ok (body html_as_pdf).
Proof.
  assert (Hs : serves (env_serving html_as_pdf) "https://host.example/paper.pdf"
                 None html_as_pdf) by (split; reflexivity).
  split; [exact Hs|].
  apply (proj1 download_pdf_content_trusts_declared_type _ _ _ _ world0 Hs);
    [left; reflexivity | discriminate].
Defined.

(** ** The Metadata Resolver *)

(** *** Reading a decoded document *)

Lemma lookup_app key members k v :
  lookup key (members ++ [(k, v)]) = if k =? key then Some v else lookup key members.
Proof.
  induction members as [|[k0 v0] rest IH]; cbn [app lookup].
  - reflexivity.
  - rewrite IH. destruct (k =? key); reflexivity.
Qed.

Lemma dict_get_dict members key default w :
  dict_get (JDict members) key default w
  = (Ok (match lookup key members with Some v => v | None => default end), w).
Proof. reflexivity. Qed.

Lemma dict_get_field d key w :
  is_dict d = true -> dict_get d key JNull w = (Ok (field key d), w).
Proof. destruct d; try discriminate. reflexivity. Qed.

Lemma truth_is_dict d : dict_or_false d = true -> truth d = true -> is_dict d = true.
Proof.
  destruct d; cbn; intros H Ht; try reflexivity; try discriminate Ht;
    rewrite Ht in H; discriminate H.
Qed.

Lemma field_of_false d key : truth d = false -> field key d = JNull.
Proof.
  destruct d as [| | | | | |[|m ms]]; cbn; intros H; try reflexivity; discriminate H.
Qed.

(** [d.get(key) if d else None] *)
Lemma get_if_true d key w :
  dict_or_false d = true ->
  (if truth d then dict_get d key JNull else ret JNull) w = (Ok (field key d), w).
Proof.
  intros H. destruct (truth d) eqn:Ht.
  - apply dict_get_field. now apply truth_is_dict.
  - now rewrite (field_of_false _ _ Ht).
Qed.

Lemma bind_ok {A B} (m : M A) (k : A -> M B) a w w' :
  m w = (Ok a, w') -> bind m k w = k a w'.
Proof. intros H. unfold bind. now rewrite H. Qed.

Lemma bind_raise {A B} (m : M A) (k : A -> M B) r w w' :
  m w = (Raise r, w') -> bind m k w = (Raise r, w').
Proof. intros H. unfold bind. now rewrite H. Qed.

Lemma field_with_member key k v d :
  field key (with_member k v d) = if is_dict d && (k =? key) then v else field key d.
Proof.
  destruct d; cbn; try reflexivity.
  rewrite lookup_app. destruct (k =? key); reflexivity.
Qed.

Lemma truth_field_with_member key k v d :
  (k =? key) = false ->
  truth (field key (with_member k v d)) = truth (field key d).
Proof.
  intros H. now rewrite field_with_member, H, andb_false_r.
Qed.

Lemma dict_or_false_with_member k v d :
  dict_or_false (with_member k v d) = dict_or_false d.
Proof. destruct d; reflexivity. Qed.

Lemma is_dict_with_member k v d : is_dict (with_member k v d) = is_dict d.
Proof. destruct d; reflexivity. Qed.

(** *** The candidate URL *)

Lemma select_pdf_url_cases metadata w :
  locations_well_typed metadata = true ->
  select_pdf_url metadata w = (Ok (selected_url metadata), w).
Proof.
  unfold locations_well_typed. intros H.
  apply andb_true_iff in H as [H Hbest].
  apply andb_true_iff in H as [H Hprimary].
  apply andb_true_iff in H as [Hdict Hoa].
  unfold select_pdf_url, selected_url, oa_url, best_pdf_url, primary_is_oa.
  rewrite (bind_ok _ _ _ _ _ (dict_get_field _ "open_access" w Hdict)).
  rewrite (bind_ok _ _ _ _ _ (get_if_true _ "oa_url" w Hoa)).
  destruct (truth (field "oa_url" (field "open_access" metadata))); [reflexivity|].
  rewrite (bind_ok _ _ _ _ _ (dict_get_field _ "host_venue" w Hdict)).
  rewrite (bind_ok _ _ _ _ _ (dict_get_field _ "primary_location" w Hdict)).
  assert (Hp : (if truth (field "primary_location" metadata)
                then bind (dict_get (field "primary_location" metadata) "is_oa" JNull)
                       (fun is_oa => ret (truth is_oa))
                else ret false) w
               = (Ok (truth (field "is_oa" (field "primary_location" metadata))), w)).
  { destruct (truth (field "primary_location" metadata)) eqn:Ht.
    - rewrite (bind_ok _ _ _ _ _
                 (dict_get_field _ "is_oa" w (truth_is_dict _ Hprimary Ht))).
      reflexivity.
    - now rewrite (field_of_false _ _ Ht). }
  rewrite (bind_ok _ _ _ _ _ Hp).
  destruct (truth (field "is_oa" (field "primary_location" metadata)));
    cbn [andb]; [|reflexivity].
  rewrite (bind_ok _ _ _ _ _ (dict_get_field _ "best_oa_location" w Hdict)).
  rewrite (bind_ok _ _ _ _ _ (get_if_true _ "pdf_url" w Hbest)).
  destruct (truth (field "pdf_url" (field "best_oa_location" metadata))); reflexivity.
Qed.

Lemma selected_url_typed metadata :
  str_or_false (oa_url metadata) = true ->
  str_or_false (best_pdf_url metadata) = true ->
  str_or_false (selected_url metadata) = true.
Proof.
  intros Hoa Hbest. unfold selected_url.
  destruct (truth (oa_url metadata)); [exact Hoa|].
  destruct (primary_is_oa metadata && truth (best_pdf_url metadata)); assumption.
Qed.

Lemma with_landing_pages_fields venue lp_primary lp_best metadata :
  is_dict metadata = true ->
  field "open_access" (with_landing_pages venue lp_primary lp_best metadata)
  = field "open_access" metadata
  /\ field "primary_location" (with_landing_pages venue lp_primary lp_best metadata)
     = with_member "landing_page_url" lp_primary (field "primary_location" metadata)
  /\ field "best_oa_location" (with_landing_pages venue lp_primary lp_best metadata)
     = with_member "landing_page_url" lp_best (field "best_oa_location" metadata).
Proof.
  intros Hd. unfold with_landing_pages.
  rewrite !field_with_member, !is_dict_with_member, Hd. cbn. repeat split.
Qed.

Lemma with_landing_pages_selected venue lp_primary lp_best metadata :
  is_dict metadata = true ->
  locations_well_typed (with_landing_pages venue lp_primary lp_best metadata)
  = locations_well_typed metadata
  /\ selected_url (with_landing_pages venue lp_primary lp_best metadata)
     = selected_url metadata.
Proof.
  intros Hd.
  destruct (with_landing_pages_fields venue lp_primary lp_best metadata Hd)
    as (Hoa & Hp & Hb).
  split.
  - unfold locations_well_typed. rewrite Hoa, Hp, Hb, !dict_or_false_with_member.
    unfold with_landing_pages. now rewrite !is_dict_with_member.
  - unfold selected_url, oa_url, best_pdf_url, primary_is_oa.
    rewrite Hoa, Hp, Hb.
    rewrite !field_with_member. cbn [String.eqb Ascii.eqb Bool.eqb].
    now rewrite !andb_false_r.
Qed.

(** *** The record *)

Lemma pick_record_direct name_in used metadata w :
  Py.truthy name_in = false -> truth metadata = true ->
  pick_record name_in used metadata w = (Ok metadata, w).
Proof.
  intros Hn Ht. unfold pick_record. rewrite Hn. cbv [bind ret]. cbn [truth].
  now rewrite Ht.
Qed.

Lemma pick_record_search name_in used answer count metadata rest w :
  Py.truthy name_in = true ->
  field "count" (field "meta" answer) = JInt (Z.pos count) ->
  field "results" answer = JList (metadata :: rest) ->
  pick_record name_in used answer w = (Ok metadata, w).
Proof.
  intros Hn Hc Hr. unfold pick_record. rewrite Hn.
  destruct answer as [| | | | | |members]; try discriminate Hr.
  cbn [field] in Hc, Hr.
  destruct (lookup "meta" members) as [meta|] eqn:Em; [|discriminate Hc].
  destruct meta as [| | | | | |ms]; try discriminate Hc. cbn [field] in Hc.
  destruct (lookup "count" ms) as [c|] eqn:Ec; [|discriminate Hc]. subst c.
  destruct (lookup "results" members) as [rs|] eqn:Er; [|discriminate Hr]. subst rs.
  cbv [bind ret dict_get]. rewrite Em, Ec, Er. reflexivity.
Qed.

Lemma read_doi_typed metadata w :
  is_dict metadata = true -> str_or_false (field "doi" metadata) = true ->
  read_doi metadata w = (Ok (record_doi metadata), w).
Proof.
  intros Hd Hs. unfold read_doi, record_doi.
  rewrite (bind_ok _ _ _ _ _ (dict_get_field _ "doi" w Hd)).
  destruct (field "doi" metadata) as [| | | | s | |];
    unfold str_or_false in Hs; cbv beta iota;
    try (apply negb_true_iff in Hs; rewrite Hs; reflexivity).
  destruct s as [|c s]; [reflexivity|]. cbn [Py.nonempty andb].
  destruct (Py.startswith (String c s) "https://doi.org/"); reflexivity.
Qed.

(** Whatever the type of the DOI, a DOI that is returned is the one of the
    record. *)
Lemma read_doi_returns metadata w v w' :
  read_doi metadata w = (Ok v, w') -> v = record_doi metadata /\ is_dict metadata = true.
Proof.
  unfold read_doi, record_doi. unfold bind.
  destruct metadata as [| | | | | |members]; try discriminate.
  rewrite dict_get_dict. cbn [field is_dict].
  destruct (match lookup "doi" members with Some x => x | None => JNull end)
    as [|b|n|m e|s|items|ms];
    cbv [ret no_attribute raise]; cbn [truth];
    try (intros [= <- <-]; split; reflexivity).
  - destruct b; [discriminate|]. intros [= <- <-]. split; reflexivity.
  - destruct (negb (n =? 0)%Z); [discriminate|]. intros [= <- <-]. split; reflexivity.
  - destruct (negb (m =? 0)%Z); [discriminate|]. intros [= <- <-]. split; reflexivity.
  - destruct s as [|c s]; [intros [= <- <-]; split; reflexivity|].
    cbn [Py.nonempty andb].
    destruct (Py.startswith (String c s) "https://doi.org/");
      intros [= <- <-]; split; reflexivity.
  - destruct items; [|discriminate]. intros [= <- <-]. split; reflexivity.
  - destruct ms; [|discriminate]. intros [= <- <-]. split; reflexivity.
Qed.

Lemma read_title metadata w :
  is_dict metadata = true ->
  dict_get metadata "display_name" (JStr "Unknown Title") w
  = (Ok (record_title metadata), w).
Proof. destruct metadata; try discriminate. reflexivity. Qed.

(** *** The arXiv correction *)

Lemma correct_arxiv_url_str u w :
  correct_arxiv_url (JStr u) w = (Ok (JStr (rewritten u)), w).
Proof.
  unfold correct_arxiv_url, rewritten. cbv [bind ret contains_text re_search_arxiv_abs_in].
  cbn [truth].
  destruct u as [|c u]; [reflexivity|]. cbn [Py.nonempty].
  destruct (Py.contains (String c u) "arxiv.org/abs/"); [|reflexivity].
  destruct (re_search_arxiv_abs (String c u)); reflexivity.
Qed.

Lemma correct_arxiv_url_typed v w :
  str_or_false v = true -> correct_arxiv_url v w = (Ok (corrected_url v), w).
Proof.
  destruct v as [| | | | u | |]; unfold str_or_false; intros H;
    try (apply negb_true_iff in H; unfold correct_arxiv_url; rewrite H; reflexivity).
  apply correct_arxiv_url_str.
Qed.

(** *** The result of a lookup *)

Lemma get_paper_metadata_picks env doi_in name_in url_in api_url metadata w :
  resolves env doi_in name_in url_in api_url metadata ->
  exists w0,
    get_paper_metadata env doi_in name_in url_in w
    = bind (read_doi metadata)
        (fun final_doi =>
           bind (dict_get metadata "display_name" (JStr "Unknown Title"))
             (fun title =>
                bind (select_pdf_url metadata)
                  (fun pdf_url =>
                     bind (correct_arxiv_url pdf_url)
                       (fun pdf_url => ret (final_doi, title, pdf_url, Some api_url)))))
        w0.
Proof.
  intros (params & used & r & answer & Hq & Hget & Hst & Hj & Hbody).
  exists (set_api_requests (api_requests w ++ [(api_url, params)]) w).
  unfold get_paper_metadata. rewrite (bind_ok _ _ _ _ _ (Hq w)).
  unfold bind at 1. cbv [try_except requests_get_json bind modify ret].
  rewrite Hget, Hst, Hj. unfold read_answer.
  match goal with
  | |- bind (pick_record name_in used answer) _ ?w0 = _ =>
      assert (Hp : pick_record name_in used answer w0 = (Ok metadata, w0))
  end.
  { destruct Hbody as [(Hn & -> & Ht) | (Hn & [count Hc] & [rest Hr])].
    - now apply pick_record_direct.
    - now apply (pick_record_search _ _ _ count _ rest). }
  now rewrite (bind_ok _ _ _ _ _ Hp).
Qed.

Lemma get_paper_metadata_record env doi_in name_in url_in api_url metadata w :
  resolves env doi_in name_in url_in api_url metadata ->
  well_typed_record metadata = true ->
  fst (get_paper_metadata env doi_in name_in url_in w)
  = Ok (record_doi metadata, record_title metadata,
        corrected_url (selected_url metadata), Some api_url).
Proof.
  intros Hres Ht.
  destruct (get_paper_metadata_picks _ _ _ _ _ _ w Hres) as [w0 ->].
  unfold well_typed_record in Ht.
  apply andb_true_iff in Ht as [Ht Hbest].
  apply andb_true_iff in Ht as [Ht Hoa].
  apply andb_true_iff in Ht as [Hloc Hdoi].
  assert (Hd : is_dict metadata = true).
  { unfold locations_well_typed in Hloc.
    now repeat (apply andb_true_iff in Hloc as [Hloc _]). }
  rewrite (bind_ok _ _ _ _ _ (read_doi_typed _ _ Hd Hdoi)).
  rewrite (bind_ok _ _ _ _ _ (read_title _ _ Hd)).
  rewrite (bind_ok _ _ _ _ _ (select_pdf_url_cases _ _ Hloc)).
  rewrite (bind_ok _ _ _ _ _
             (correct_arxiv_url_typed _ _ (selected_url_typed _ Hoa Hbest))).
  reflexivity.
Qed.

(** The DOI a lookup returns is the DOI of the record, whatever the type
    of the other fields. *)
Lemma get_paper_metadata_doi env doi_in name_in url_in api_url metadata w fd t u q w' :
  resolves env doi_in name_in url_in api_url metadata ->
  get_paper_metadata env doi_in name_in url_in w = (Ok (fd, t, u, q), w') ->
  fd = record_doi metadata.
Proof.
  intros Hres.
  destruct (get_paper_metadata_picks _ _ _ _ _ _ w Hres) as [w0 ->].
  unfold bind at 1.
  match goal with
  | |- context [read_doi metadata ?w0] =>
      pose proof (read_doi_returns metadata w0) as Hd;
      destruct (read_doi metadata w0) as [[v|r] w1]; [|discriminate]
  end.
  destruct (Hd v w1 eq_refl) as [-> _].
  cbv [bind ret].
  repeat match goal with
         | |- context [match ?m ?w0 with _ => _ end] =>
             destruct (m w0) as [[?|?] ?]; try discriminate
         end.
  now intros [= <- _ _ _ _].
Qed.

(** *** An answer of the documented shape *)

Lemma build_query_cases d n u :
  (exists q, forall w, build_query d n u w = (Ok q, w))
  \/ (forall w, build_query d n u w
                = (Raise (Exc (mkExn ValueError
                     "No identifier (DOI, name, or URL) provided to get_paper_metadata.")),
                   w)).
Proof.
  unfold build_query.
  destruct (Py.truthy d); [left; eexists; intros; reflexivity|].
  destruct (Py.truthy n); [left; eexists; intros; reflexivity|].
  destruct (Py.truthy u); [|right; intros; reflexivity].
  destruct (Py.contains (value u) "doi.org"); [left; eexists; intros; reflexivity|].
  destruct (Py.contains (value u) "arxiv.org/abs/" || Py.contains (value u) "arxiv.org/pdf/");
    left; eexists; intros; reflexivity.
Qed.

Lemma str_or_false_corrected v :
  str_or_false v = true -> str_or_false (corrected_url v) = true.
Proof. destruct v; auto. Qed.

Lemma str_or_false_record_doi metadata :
  str_or_false (field "doi" metadata) = true ->
  str_or_false (record_doi metadata) = true.
Proof.
  unfold record_doi. destruct (field "doi" metadata); auto.
  intros _. destruct (Py.startswith s "https://doi.org/"); reflexivity.
Qed.

Lemma str_or_false_record_title metadata :
  well_typed_title metadata = true -> str_or_false (record_title metadata) = true.
Proof.
  unfold well_typed_title, record_title.
  destruct metadata as [| | | | | |members]; try reflexivity.
  destruct (lookup "display_name" members); auto.
Qed.

Lemma usable_record_parts metadata :
  usable_record metadata = true ->
  is_dict metadata = true
  /\ locations_well_typed metadata = true
  /\ str_or_false (field "doi" metadata) = true
  /\ str_or_false (oa_url metadata) = true
  /\ str_or_false (best_pdf_url metadata) = true
  /\ well_typed_title metadata = true.
Proof.
  unfold usable_record, well_typed_record. intros H.
  apply andb_true_iff in H as [H Htitle].
  apply andb_true_iff in H as [H Hbest].
  apply andb_true_iff in H as [H Hoa].
  apply andb_true_iff in H as [Hloc Hdoi].
  repeat split; try assumption.
  unfold locations_well_typed in Hloc.
  now repeat (apply andb_true_iff in Hloc as [Hloc _]).
Qed.

(** What the resolver makes of a usable record. *)
Lemma read_usable_record metadata (q : option string) w :
  usable_record metadata = true ->
  bind (read_doi metadata)
    (fun final_doi =>
       bind (dict_get metadata "display_name" (JStr "Unknown Title"))
         (fun title =>
            bind (select_pdf_url metadata)
              (fun pdf_url =>
                 bind (correct_arxiv_url pdf_url)
                   (fun pdf_url => ret (final_doi, title, pdf_url, q))))) w
  = (Ok (record_doi metadata, record_title metadata,
         corrected_url (selected_url metadata), q), w).
Proof.
  intros H. destruct (usable_record_parts _ H) as (Hd & Hloc & Hdoi & Hoa & Hbest & _).
  rewrite (bind_ok _ _ _ _ _ (read_doi_typed _ _ Hd Hdoi)).
  rewrite (bind_ok _ _ _ _ _ (read_title _ _ Hd)).
  rewrite (bind_ok _ _ _ _ _ (select_pdf_url_cases _ _ Hloc)).
  rewrite (bind_ok _ _ _ _ _
             (correct_arxiv_url_typed _ _ (selected_url_typed _ Hoa Hbest))).
  reflexivity.
Qed.

Lemma pick_record_typed name_in used answer w :
  well_typed_answer (Py.truthy name_in) answer = true ->
  exists r,
    pick_record name_in used answer w = (r, w)
    /\ match r with
       | Ok metadata => usable_record metadata = true
       | Raise x => raised_class NotFoundError x
       end.
Proof.
  unfold well_typed_answer, pick_record.
  destruct (Py.truthy name_in).
  - destruct answer as [| | | | | |members]; try discriminate.
    intros H. apply andb_true_iff in H as [Hmeta Hres].
    cbv [bind ret]. rewrite !dict_get_dict. cbn [field] in Hres.
    assert (Hcount : exists c,
               dict_get (match lookup "meta" members with
                         | Some v => v
                         | None => JDict []
                         end) "count" (JInt 0) w = (Ok c, w)).
    { destruct (lookup "meta" members) as [meta|];
        [destruct meta; try discriminate Hmeta|]; eexists; reflexivity. }
    destruct Hcount as [c ->].
    destruct (equals_zero c);
      [eexists; split; [reflexivity | eexists; reflexivity]|].
    rewrite dict_get_dict.
    destruct (match lookup "results" members with Some x => x | None => JNull end)
      as [|b|k|m e|s|[|first items]|ms]; cbn [truth] in Hres |- *;
      try (apply andb_true_iff in Hres as [Ht Hu]; apply negb_true_iff in Ht;
           try discriminate Ht; try rewrite Ht;
           match goal with
           | |- context [if negb ?c then _ else _] => destruct c
           end; cbn [negb];
           eexists; (split; [reflexivity|]);
           first [exact Hu | eexists; reflexivity]).
    eexists; split; [reflexivity | exact Hres].
  - intros H. cbv [bind ret]. cbn [truth].
    destruct (truth answer) eqn:Ht; cbn [negb orb] in *.
    + eexists; split; [reflexivity | exact H].
    + eexists; split; [reflexivity | eexists; reflexivity].
Qed.

(** A lookup whose answer is of the documented shape raises the errors of
    the resolver only, and what it returns is a DOI, a title and a
    candidate that are strings or false. *)
Lemma get_paper_metadata_typed env d n u w :
  answers_well_typed env d n u ->
  match fst (get_paper_metadata env d n u w) with
  | Ok (final_doi, title_, pdf_url, _) =>
      str_or_false final_doi = true /\ str_or_false title_ = true
      /\ str_or_false pdf_url = true
  | Raise r => resolver_error r
  end.
Proof.
  intros Hty. unfold get_paper_metadata.
  destruct (build_query_cases d n u) as [[[[api_url params] used] Hq] | Hq].
  2:{ rewrite (bind_raise _ _ _ _ _ (Hq w)). right; left. eexists; reflexivity. }
  rewrite (bind_ok _ _ _ _ _ (Hq w)).
  unfold bind at 1. cbv [try_except requests_get_json bind modify ret raise].
  destruct (requests_get_api env api_url params) as [r|msg] eqn:Hget;
    [|left; eexists; reflexivity].
  destruct (http_error_msg (api_status_code r) (api_reason r) (api_response_url r));
    [left; eexists; reflexivity|].
  destruct (json r) as [answer|msg] eqn:Hj; [|right; right; eexists; reflexivity].
  unfold read_answer.
  match goal with
  | |- context [bind (pick_record n used answer) _ ?w0] =>
      destruct (pick_record_typed n used answer w0 (Hty _ _ _ _ _ Hq Hget Hj))
        as (res & Hpick & Hres)
  end.
  destruct res as [metadata|x];
    [|rewrite (bind_raise _ _ _ _ _ Hpick); left; exact Hres].
  rewrite (bind_ok _ _ _ _ _ Hpick).
  rewrite (read_usable_record metadata (Some api_url) _ Hres). cbn [fst].
  destruct (usable_record_parts _ Hres) as (_ & _ & Hdoi & Hoa & Hbest & Htitle).
  split; [now apply str_or_false_record_doi|].
  split; [now apply str_or_false_record_title|].
  apply str_or_false_corrected. now apply selected_url_typed.
Qed.

(** C4, as the claim states it, fails: for [repository_copy] the first
    present field is [best_oa_location.pdf_url], and the resolver selects
    no candidate at all, because the primary location is not open. *)
Lemma priority_fails_without_open_primary :
  candidate_by_priority repository_copy = JStr "https://repo.example/paper.pdf"
  /\ fst (select_pdf_url repository_copy world0) = Ok JNull
  /\ fst (get_paper_metadata (env_answering repository_copy)
            (Some "10.1000/xyz") None None world0)
     = Ok (JStr "10.1000/xyz", JStr "A paper", JNull,
           Some "https://api.openalex.org/works/https://doi.org/10.1000/xyz").
Proof. repeat split. Qed.

(** C4, amended.  For every record of the documented shape the service
    answers with, the candidate of the resolver is the selected URL (after
    the arXiv correction), and the selection is: [open_access.oa_url] when
    it is present; else [best_oa_location.pdf_url] when it is present and
    the primary location is flagged open access; else nothing.  The
    landing pages and the venue have no influence on it. *)
Theorem select_pdf_url_priority :
  forall metadata : json_value,
    (forall env doi_in name_in url_in api_url w,
        resolves env doi_in name_in url_in api_url metadata ->
        well_typed_record metadata = true ->
        fst (get_paper_metadata env doi_in name_in url_in w)
        = Ok (record_doi metadata, record_title metadata,
              corrected_url (selected_url metadata), Some api_url))
    /\ (locations_well_typed metadata = true ->
        forall w,
          (truth (oa_url metadata) = true ->
           select_pdf_url metadata w = (Ok (oa_url metadata), w))
          /\ (truth (oa_url metadata) = false -> primary_is_oa metadata = true ->
              truth (best_pdf_url metadata) = true ->
              select_pdf_url metadata w = (Ok (best_pdf_url metadata), w))
          /\ (truth (oa_url metadata) = false ->
              primary_is_oa metadata = false \/ truth (best_pdf_url metadata) = false ->
              exists pdf_url,
                select_pdf_url metadata w = (Ok pdf_url, w) /\ truth pdf_url = false)
          /\ (forall venue lp_primary lp_best,
                select_pdf_url (with_landing_pages venue lp_primary lp_best metadata) w
                = select_pdf_url metadata w)).
Proof.
  intros metadata. split.
  - intros. now apply get_paper_metadata_record.
  - intros Hloc w. rewrite (select_pdf_url_cases _ w Hloc). unfold selected_url.
    repeat split.
    + intros H. now rewrite H.
    + intros H1 H2 H3. now rewrite H1, H2, H3.
    + intros H1 [H2|H2]; rewrite H1, H2; [|rewrite andb_false_r];
        (eexists; split; [reflexivity | exact H1]).
    + intros venue lp1 lp2.
      assert (Hd : is_dict metadata = true).
      { unfold locations_well_typed in Hloc.
        now repeat (apply andb_true_iff in Hloc as [Hloc _]). }
      destruct (with_landing_pages_selected venue lp1 lp2 metadata Hd) as [H1 H2].
      rewrite select_pdf_url_cases by (now rewrite H1).
      now rewrite H2.
Qed.

Lemma select_pdf_url_priority_witness :
  exists pdf_url,
    select_pdf_url repository_copy world0 = (Ok pdf_url, world0)
    /\ truth pdf_url = false.
Proof.
  apply (proj1 (proj2 (proj2 (proj2 (select_pdf_url_priority repository_copy)
                                eq_refl world0))));
    [reflexivity | left; reflexivity].
Defined.

(** *** The identifier of an abstract page *)





Lemma contains_unfold (s p : string) :
  Py.contains s p =
    Py.startswith s p
    || match s with EmptyString => false | String _ s' => Py.contains s' p end.
Proof. destruct s; reflexivity. Qed.

Lemma contains_app (pre p t : string) : Py.contains (pre ++ p ++ t) p = true.
Proof.
  induction pre as [|c pre IH]; cbn [append].
  - now rewrite contains_unfold, startswith_app.
  - rewrite contains_unfold, IH. apply orb_true_r.
Qed.





(** ** Reasoning about computations *)

Section Guarantees.

Context {A B : Type}.
Variable I : world -> Prop.

Lemma keeps_weaken (R R' : raised -> Prop) (m : M A) :
  (forall r, R r -> R' r) -> keeps I R m -> keeps I R' m.
Proof.
  intros HR Hm w Hw. destruct (Hm w Hw) as [H1 H2]. split; auto.
Qed.

Lemma keeps_ret (R : raised -> Prop) (a : A) : keeps I R (ret a).
Proof. intros w Hw. split; [exact Hw | discriminate]. Qed.

Lemma keeps_gets (R : raised -> Prop) (f : world -> A) : keeps I R (gets f).
Proof. intros w Hw. split; [exact Hw | discriminate]. Qed.

Lemma keeps_raise (R : raised -> Prop) (c : exn_class) (msg : string) :
  R (Exc (mkExn c msg)) -> keeps I R (@raise A c msg).
Proof.
  intros HR w Hw. split; [exact Hw|]. intros r [= <-]. exact HR.
Qed.

Lemma keeps_reraise (R : raised -> Prop) (e : exn) :
  R (Exc e) -> keeps I R (@reraise A e).
Proof.
  intros HR w Hw. split; [exact Hw|]. intros r [= <-]. exact HR.
Qed.

Lemma keeps_sys_exit (R : raised -> Prop) (code : Z) :
  R (SystemExit code) -> keeps I R (@sys_exit A code).
Proof.
  intros HR w Hw. split; [exact Hw|]. intros r [= <-]. exact HR.
Qed.

Lemma keeps_call (R : raised -> Prop) (o : outcome A) :
  (forall e, R (Exc e)) -> keeps I R (call o).
Proof.
  intros HR w Hw. destruct o as [a|e]; (split; [exact Hw|]).
  - discriminate.
  - intros r [= <-]. apply HR.
Qed.

Lemma keeps_bind (R : raised -> Prop) (m : M A) (k : A -> M B) :
  keeps I R m -> (forall a, keeps I R (k a)) -> keeps I R (bind m k).
Proof.
  intros Hm Hk w Hw. unfold bind.
  destruct (Hm w Hw) as [H1 H2].
  destruct (m w) as [[a|r] w']; cbn [fst snd] in *.
  - exact (Hk a w' H1).
  - split; [exact H1|]. intros r' [= <-]. now apply H2.
Qed.

Lemma keeps_try_except (R R' : raised -> Prop) (m : M A)
  (handler : exn -> option (M A)) :
  keeps I R' m ->
  (forall e, R' (Exc e) ->
     match handler e with
     | Some h => keeps I R h
     | None => R (Exc e)
     end) ->
  (forall code, R' (SystemExit code) -> R (SystemExit code)) ->
  keeps I R (try_except m handler).
Proof.
  intros Hm Hh Hx w Hw. unfold try_except.
  destruct (Hm w Hw) as [H1 H2].
  destruct (m w) as [[a|[e|code]] w']; cbn [fst snd] in *.
  - split; [exact H1 | discriminate].
  - specialize (Hh e (H2 _ eq_refl)).
    destruct (handler e) as [h|].
    + exact (Hh w' H1).
    + split; [exact H1|]. intros r [= <-]. exact Hh.
  - split; [exact H1|]. intros r [= <-]. apply Hx, H2. reflexivity.
Qed.

Lemma keeps_try_finally (R : raised -> Prop) (m : M A) (f : M unit) :
  keeps I R m -> keeps I R f -> keeps I R (try_finally m f).
Proof.
  intros Hm Hf w Hw. unfold try_finally.
  destruct (Hm w Hw) as [H1 H2].
  destruct (m w) as [r w']; cbn [fst snd] in *.
  destruct (Hf w' H1) as [H3 H4].
  destruct (f w') as [[u|x] w'']; cbn [fst snd] in *.
  - split; [exact H3|]. exact H2.
  - split; [exact H3|]. intros r' [= <-]. now apply H4.
Qed.

End Guarantees.

Lemma keeps_modify (I : world -> Prop) (R : raised -> Prop) (f : world -> world) :
  (forall w, I w -> I (f w)) -> keeps I R (modify f).
Proof. intros Hf w Hw. split; [now apply Hf | discriminate]. Qed.

Lemma keeps_when (I : world -> Prop) (R : raised -> Prop) (c : bool) (m : M unit) :
  keeps I R m -> keeps I R (when c m).
Proof. intros Hm. destruct c; [exact Hm | apply keeps_ret]. Qed.

(** A computation that raises nothing returns. *)
Lemma keeps_nothing_returns {A} (I : world -> Prop) (m : M A) (w : world) :
  keeps I nothing m -> I w -> exists a, m w = (Ok a, snd (m w)).
Proof.
  intros Hm Hw. destruct (Hm w Hw) as [_ H].
  destruct (m w) as [[a|r] w']; cbn [fst snd] in *.
  - now exists a.
  - destruct (H r eq_refl).
Qed.

(** The steps of a proof that a computation keeps an invariant: the rule
    of the construct at the head, or a case analysis of its test. *)
Ltac keeps_step :=
  lazymatch goal with
  | |- keeps _ _ (bind _ _) => apply keeps_bind; [|intro]
  | |- keeps _ _ (ret _) => apply keeps_ret
  | |- keeps _ _ (gets _) => apply keeps_gets
  | |- keeps _ _ (when _ _) => apply keeps_when
  | |- keeps _ _ (try_finally _ _) => apply keeps_try_finally
  | |- keeps _ _ (modify _) => apply keeps_modify; intros ? ?; cbn; try assumption
  | |- keeps _ _ (set_sd _) => apply keeps_modify; intros ? ?; cbn; try assumption
  | |- keeps _ _ (if ?c then _ else _) => destruct c
  | |- keeps _ _ (match ?x with _ => _ end) => destruct x
  | |- keeps _ _ (let (_, _) := ?x in _) => destruct x
  end.

(** ** The logger *)

Lemma _log_run p i s m w : _log p i s m w = (Ok tt, logged_world p i s m w).
Proof.
  unfold logged_world, logged_summary.
  cbv [_log bind when modify gets set_sd ret]. fold (reported s).
  destruct (Py.truthy p), (reported s); cbn; try reflexivity;
    destruct (status (summary_data w) =? "SUCCESS"); reflexivity.
Qed.

Lemma logged_summary_status s m sd :
  status (logged_summary s m sd)
  = if reported s && negb (status sd =? "SUCCESS") then s else status sd.
Proof.
  unfold logged_summary.
  destruct (reported s); [|reflexivity].
  destruct (status sd =? "SUCCESS"); reflexivity.
Qed.

Lemma keeps_log (I : world -> Prop) (R : raised -> Prop) p i s m :
  (forall w, I w -> I (logged_world p i s m w)) -> keeps I R (_log p i s m).
Proof.
  intros HI w Hw. rewrite _log_run. split; [now apply HI | discriminate].
Qed.

(** ** What the stages may raise *)

Section Yields.

Context {A B : Type}.
Variable I : world -> Prop.

Lemma yields_keeps (R : raised -> Prop) (Q : A -> Prop) (m : M A) :
  yields I R Q m -> keeps I R m.
Proof.
  intros Hm w Hw. destruct (Hm w Hw) as [H1 H2]. split; [exact H1|].
  intros r E. now rewrite E in H2.
Qed.

Lemma keeps_yields (R : raised -> Prop) (Q : A -> Prop) (m : M A) :
  keeps I R m -> (forall w a, fst (m w) = Ok a -> Q a) -> yields I R Q m.
Proof.
  intros Hm HQ w Hw. destruct (Hm w Hw) as [H1 H2]. split; [exact H1|].
  specialize (HQ w). destruct (fst (m w)) as [a|r]; auto.
Qed.

Lemma yields_ret (R : raised -> Prop) (Q : A -> Prop) (a : A) :
  Q a -> yields I R Q (ret a).
Proof. intros Ha w Hw. split; [exact Hw | exact Ha]. Qed.

Lemma yields_weaken (R R' : raised -> Prop) (Q Q' : A -> Prop) (m : M A) :
  (forall r, R r -> R' r) -> (forall a, Q a -> Q' a) ->
  yields I R Q m -> yields I R' Q' m.
Proof.
  intros HR HQ Hm w Hw. destruct (Hm w Hw) as [H1 H2]. split; [exact H1|].
  destruct (fst (m w)); auto.
Qed.

Lemma yields_bind (R : raised -> Prop) (Q : A -> Prop) (Q' : B -> Prop)
  (m : M A) (k : A -> M B) :
  yields I R Q m -> (forall a, Q a -> yields I R Q' (k a)) ->
  yields I R Q' (bind m k).
Proof.
  intros Hm Hk w Hw. unfold bind.
  destruct (Hm w Hw) as [H1 H2].
  destruct (m w) as [[a|r] w']; cbn [fst snd] in *.
  - exact (Hk a H2 w' H1).
  - split; assumption.
Qed.

Lemma yields_try_except (R R' : raised -> Prop) (Q : A -> Prop) (m : M A)
  (handler : exn -> option (M A)) :
  yields I R' Q m ->
  (forall e, R' (Exc e) ->
     match handler e with
     | Some h => yields I R Q h
     | None => R (Exc e)
     end) ->
  (forall code, R' (SystemExit code) -> R (SystemExit code)) ->
  yields I R Q (try_except m handler).
Proof.
  intros Hm Hh Hx w Hw. unfold try_except.
  destruct (Hm w Hw) as [H1 H2].
  destruct (m w) as [[a|[e|code]] w']; cbn [fst snd] in *.
  - split; assumption.
  - specialize (Hh e H2).
    destruct (handler e) as [h|].
    + exact (Hh w' H1).
    + split; assumption.
  - split; [exact H1 | now apply Hx].
Qed.

End Yields.

Lemma misuse_exc c msg : misuse_class c = true -> misuse (Exc (mkExn c msg)).
Proof. intros H. now exists c, msg. Qed.

Lemma misuse_not_exit code : ~ misuse (SystemExit code).
Proof. intros (c & msg & H & _). discriminate H. Qed.

Lemma misuse_uncaught e c :
  misuse (Exc e) -> misuse_class c = false -> c <> OtherException ->
  isinstance e c = false.
Proof.
  intros (c' & msg & [= ->] & Hc) Hn Ho.
  destruct c', c; cbn in *; try reflexivity; try discriminate; congruence.
Qed.

(** The operations on a decoded value leave the world as it is and raise
    nothing but the errors of misuse. *)
Section Values.

Variable I : world -> Prop.
Variable R : raised -> Prop.
Hypothesis R_misuse : forall r, misuse r -> R r.

Lemma keeps_misuse {A} c msg : misuse_class c = true -> keeps I R (@raise A c msg).
Proof. intros H. apply keeps_raise, R_misuse. now apply misuse_exc. Qed.

Lemma keeps_no_attribute {A} v attr : keeps I R (@no_attribute A v attr).
Proof. now apply keeps_misuse. Qed.

Lemma keeps_dict_get d key default : keeps I R (dict_get d key default).
Proof.
  unfold dict_get. destruct d; first [apply keeps_ret | apply keeps_no_attribute].
Qed.

Lemma keeps_getitem0 v : keeps I R (getitem0 v).
Proof.
  unfold getitem0.
  destruct v as [| | | |[|c s]|[|x l]|];
    first [apply keeps_ret | now apply keeps_misuse].
Qed.

Lemma keeps_contains_text v text : keeps I R (contains_text v text).
Proof.
  unfold contains_text. destruct v; first [apply keeps_ret | now apply keeps_misuse].
Qed.

Lemma keeps_re_search_arxiv_abs_in v : keeps I R (re_search_arxiv_abs_in v).
Proof.
  unfold re_search_arxiv_abs_in.
  destruct v; first [apply keeps_ret | now apply keeps_misuse].
Qed.

Ltac value_step :=
  first [ apply keeps_dict_get
        | apply keeps_getitem0
        | apply keeps_contains_text
        | apply keeps_re_search_arxiv_abs_in
        | apply keeps_no_attribute
        | keeps_step ].

Lemma keeps_read_doi metadata : keeps I R (read_doi metadata).
Proof. unfold read_doi. repeat value_step. Qed.

Lemma keeps_select_pdf_url metadata : keeps I R (select_pdf_url metadata).
Proof. unfold select_pdf_url. repeat value_step. Qed.

Lemma keeps_correct_arxiv_url pdf_url : keeps I R (correct_arxiv_url pdf_url).
Proof. unfold correct_arxiv_url. repeat value_step. Qed.

Lemma keeps_pick_record name_in used metadata :
  (forall msg, R (Exc (mkExn NotFoundError msg))) ->
  keeps I R (pick_record name_in used metadata).
Proof.
  intros HR. unfold pick_record.
  repeat first [ apply keeps_raise; apply HR | value_step ].
Qed.

Lemma keeps_read_answer name_in used q answer :
  (forall msg, R (Exc (mkExn NotFoundError msg))) ->
  keeps I R (read_answer name_in used q answer).
Proof.
  intros HR. unfold read_answer.
  apply keeps_bind; [now apply keeps_pick_record | intros metadata].
  apply keeps_bind; [apply keeps_read_doi | intros final_doi].
  apply keeps_bind; [apply keeps_dict_get | intros title_].
  apply keeps_bind; [apply keeps_select_pdf_url | intros pdf_url].
  apply keeps_bind; [apply keeps_correct_arxiv_url | intros pdf_url'].
  apply keeps_ret.
Qed.

Lemma keeps_sanitize_filename_of title : keeps I R (sanitize_filename_of title).
Proof.
  unfold sanitize_filename_of.
  destruct title; repeat value_step.
Qed.

End Values.

Section Raises.

Variable env : Env.
Variable I : world -> Prop.

Hypothesis I_api : forall w v, I w -> I (set_api_requests v w).
Hypothesis I_pdf : forall w v, I w -> I (set_pdf_requests v w).

Lemma keeps_build_query d n u :
  keeps I (raised_class ValueError) (build_query d n u).
Proof.
  unfold build_query.
  repeat first [ keeps_step | apply keeps_raise; eexists; reflexivity ].
Qed.

Lemma keeps_requests_get_json api_url params :
  keeps I (raised_class RequestException) (requests_get_json env api_url params).
Proof.
  unfold requests_get_json.
  apply keeps_bind; [apply keeps_modify; intros; now apply I_api | intros _].
  repeat first [ keeps_step | apply keeps_raise; eexists; reflexivity ].
Qed.

Lemma keeps_get_paper_metadata d n u :
  keeps I resolver_raises (get_paper_metadata env d n u).
Proof.
  assert (Hm : forall r, misuse r -> resolver_raises r) by (intros r H; now right).
  unfold get_paper_metadata.
  apply keeps_bind.
  { eapply keeps_weaken; [|apply keeps_build_query].
    intros r Hr. left; right; left. exact Hr. }
  intros [[api_url params] identifier_used].
  apply keeps_bind.
  { eapply keeps_try_except; [apply keeps_requests_get_json | | ].
    - intros e [msg [= ->]]. cbn.
      apply keeps_raise. left; left. eexists; reflexivity.
    - intros code [msg Hm']. discriminate Hm'. }
  intros api_res.
  apply keeps_bind.
  { destruct (json api_res); [apply keeps_ret|].
    apply keeps_raise. left; right; right. eexists; reflexivity. }
  intros answer.
  apply keeps_read_answer; [exact Hm|].
  intros msg. left; left. eexists; reflexivity.
Qed.

Lemma keeps_requests_get_stream url jar :
  keeps I (raised_class RequestException) (requests_get_stream env url jar).
Proof.
  unfold requests_get_stream.
  apply keeps_bind; [apply keeps_modify; intros; now apply I_pdf | intros _].
  repeat first [ keeps_step | apply keeps_raise; eexists; reflexivity ].
Qed.

Lemma keeps_download_pdf_content url cookies :
  keeps I (raised_class NotFoundError) (download_pdf_content env url cookies).
Proof.
  unfold download_pdf_content.
  eapply keeps_try_except with
    (R' := fun r => raised_class RequestException r \/ raised_class NotFoundError r).
  - apply keeps_bind.
    { eapply keeps_weaken; [|apply keeps_requests_get_stream]. intros r Hr; now left. }
    intros resp.
    repeat first [ keeps_step | apply keeps_raise; right; eexists; reflexivity ].
  - intros e [[msg [= ->]] | [msg [= ->]]]; cbn.
    + apply keeps_raise. eexists; reflexivity.
    + eexists; reflexivity.
  - intros code [[msg Hm] | [msg Hm]]; discriminate Hm.
Qed.

(** The download of a candidate that is no [str] ends in the error of its
    misuse. *)
Lemma keeps_download_pdf_content_of pdf_url :
  keeps I (fun r => raised_class NotFoundError r \/ misuse r)
    (download_pdf_content_of env pdf_url).
Proof.
  unfold download_pdf_content_of.
  destruct pdf_url;
    try (apply keeps_no_attribute; intros r Hr; now right).
  eapply keeps_weaken; [|apply keeps_download_pdf_content]. intros r Hr; now left.
Qed.

Lemma keeps_download_pdf_content_of_str pdf_url :
  str_or_false pdf_url = true -> truth pdf_url = true ->
  keeps I (raised_class NotFoundError) (download_pdf_content_of env pdf_url).
Proof.
  intros Hs Ht. unfold download_pdf_content_of.
  destruct pdf_url; unfold str_or_false in Hs; try (rewrite Ht in Hs; discriminate Hs).
  apply keeps_download_pdf_content.
Qed.

End Raises.

Lemma isinstance_NotFoundError e :
  isinstance e NotFoundError = true -> e = mkExn NotFoundError (exn_str e).
Proof. destruct e as [[] msg]; cbn; intros H; try discriminate H; reflexivity. Qed.

Lemma not_exception_exit code : ~ is_exception (SystemExit code).
Proof. intros [e He]. discriminate He. Qed.

(** ** The Rendered-Page Extractor *)

Section Extractor.

Variable env : Env.
Variable I : world -> Prop.
Variable log_func : string -> string -> M unit.

Hypothesis log_func_keeps : forall s m, keeps I nothing (log_func s m).

Lemma keeps_log_func (R : raised -> Prop) s m : keeps I R (log_func s m).
Proof.
  eapply keeps_weaken; [|apply log_func_keeps]. intros r [].
Qed.

Ltac extractor_step :=
  first [ apply keeps_log_func
        | apply keeps_call; intros; eexists; reflexivity
        | keeps_step ].

Lemma keeps_scan_iframes iframes pdf_src :
  keeps I is_exception (scan_iframes log_func iframes pdf_src).
Proof.
  induction iframes as [|iframe rest IH]; cbn [scan_iframes].
  - apply keeps_ret.
  - apply keeps_bind; [extractor_step | intros src_attr].
    destruct (Py.truthy src_attr && Py.contains (Py.lower (value src_attr)) ".pdf").
    + repeat extractor_step.
    + apply keeps_bind; [repeat extractor_step | intros _; exact IH].
Qed.

Lemma keeps_scihub_page_steps doi_ base page :
  keeps I is_exception (scihub_page_steps env doi_ base page log_func).
Proof.
  unfold scihub_page_steps.
  apply keeps_bind; [extractor_step | intros _].
  apply keeps_bind.
  { eapply keeps_try_except with (R' := is_exception).
    - repeat first [ extractor_step | apply keeps_raise; eexists; reflexivity ].
    - intros e _. cbv beta.
      destruct (isinstance e TimeoutException); [apply keeps_log_func|].
      destruct (isinstance e WebDriverException); [apply keeps_log_func|].
      eexists; reflexivity.
    - intros code H. destruct (not_exception_exit _ H). }
  intros _.
  apply keeps_bind.
  { eapply keeps_try_except with (R' := is_exception).
    - repeat extractor_step.
    - intros e _. cbv beta.
      destruct (isinstance e TimeoutException); [|eexists; reflexivity].
      apply keeps_bind; [extractor_step | intros _].
      apply keeps_bind; [extractor_step | intros iframes].
      apply keeps_bind; [repeat extractor_step | intros _].
      apply keeps_scan_iframes.
    - intros code H. destruct (not_exception_exit _ H). }
  intros pdf_src.
  destruct (negb (Py.truthy pdf_src)).
  { repeat first [ extractor_step | apply keeps_raise; eexists; reflexivity ]. }
  apply keeps_bind; [extractor_step | intros _].
  apply keeps_bind; [|intros cookies; apply keeps_ret].
  eapply keeps_try_except with (R' := is_exception).
  - repeat extractor_step.
  - intros e _. cbv beta.
    destruct (isinstance e WebDriverException); [repeat extractor_step|].
    eexists; reflexivity.
  - intros code H. destruct (not_exception_exit _ H).
Qed.

Hypothesis I_browser : forall w v, I w -> I (set_browser v w).
Hypothesis I_fs : forall w v, I w -> I (set_fs v w).

Lemma keeps_quit_driver (R : raised -> Prop) : keeps I R (quit_driver env log_func).
Proof.
  unfold quit_driver.
  apply keeps_bind; [apply keeps_log_func | intros _].
  eapply keeps_try_except with (R' := is_exception).
  - unfold driver_quit, time_sleep, patch_quit.
    apply keeps_bind; [|intros _; apply keeps_bind; [|intros _]];
      repeat first [ apply keeps_modify; intros; auto | extractor_step ].
  - intros e _. cbv beta.
    destruct (isinstance e OSError); [apply keeps_log_func|].
    destruct (isinstance e WebDriverException); apply keeps_log_func.
  - intros code H. destruct (not_exception_exit _ H).
Qed.

Lemma keeps_scihub_session doi_ base page :
  keeps I is_exception (scihub_session env doi_ base page log_func).
Proof.
  unfold scihub_session, new_Chrome.
  apply keeps_bind; [|intros _; apply keeps_scihub_page_steps].
  apply keeps_bind; [extractor_step | intros _].
  apply keeps_modify; intros; auto.
Qed.

Lemma keeps_scihub_handlers e :
  match scihub_handlers log_func e with
  | Some h => keeps I (raised_class NotFoundError) h
  | None => False
  end.
Proof.
  unfold scihub_handlers.
  destruct (isinstance e WebDriverException).
  { apply keeps_bind; [apply keeps_log_func | intros _].
    apply keeps_raise. eexists; reflexivity. }
  destruct (isinstance e NotFoundError) eqn:E.
  { apply keeps_reraise. exists (exn_str e).
    f_equal. now apply isinstance_NotFoundError. }
  apply keeps_bind; [apply keeps_log_func | intros _].
  apply keeps_raise. eexists; reflexivity.
Qed.

Lemma keeps_protected (m : M (option string * option (list cookie))) :
  keeps I is_exception m ->
  keeps I (raised_class NotFoundError) (try_except m (scihub_handlers log_func)).
Proof.
  intros Hm. eapply keeps_try_except with (R' := is_exception).
  - exact Hm.
  - intros e _. generalize (keeps_scihub_handlers e).
    destruct (scihub_handlers log_func e); [auto | intros []].
  - intros code H. destruct (not_exception_exit _ H).
Qed.

Lemma keeps_retrieve doi_ base :
  keeps I extractor_error (retrieve_scihub_pdf_link_selenium env doi_ base log_func).
Proof.
  unfold retrieve_scihub_pdf_link_selenium.
  destruct (negb (Py.nonempty doi_)).
  { apply keeps_bind; [apply keeps_log_func | intros _].
    apply keeps_raise. right. eexists; reflexivity. }
  apply keeps_bind; [apply keeps_log_func | intros _].
  apply keeps_try_finally.
  - eapply keeps_weaken; [|apply keeps_protected, keeps_scihub_session].
    intros r Hr. now left.
  - apply keeps_when. apply keeps_quit_driver.
Qed.

End Extractor.

Section Release.

Variable env : Env.
Variable p : option string.
Variable i : string.

Let log := _log p i.

Lemma log_keeps_browser (b : driver_state) s m :
  keeps (fun w => browser w = b) nothing (log s m).
Proof. apply keeps_log. intros w Hw. exact Hw. Qed.

(** A second [quit] on a driver whose [quit] was replaced does nothing. *)
Lemma driver_quit_patched w :
  quit_patched (browser w) = true -> driver_quit env w = (Ok tt, w).
Proof.
  intros H. unfold driver_quit. cbv [bind gets]. now rewrite H.
Qed.

(** The [finally] block on a driver that was not quit before: it returns,
    the session is torn down once, and either [quit] is replaced or the
    failure is logged as a warning. *)
Lemma quit_driver_run w :
  quit_patched (browser w) = false ->
  exists w',
    quit_driver env log w = (Ok tt, w')
    /\ sessions (browser w') = sessions (browser w)
    /\ teardowns (browser w') = S (teardowns (browser w))
    /\ (webdriver_quit env = Done tt -> quit_patched (browser w') = true)
    /\ (forall e, webdriver_quit env = Fault e -> warned w').
Proof.
  intros H. unfold quit_driver, log.
  cbv [bind try_except driver_quit gets modify call time_sleep patch_quit].
  rewrite _log_run. cbn [logged_world browser]. rewrite H.
  destruct (webdriver_quit env) as [[]|e].
  - eexists. split; [reflexivity|]. cbn.
    repeat split; try reflexivity. intros e He; discriminate He.
  - destruct (isinstance e OSError); [|destruct (isinstance e WebDriverException)];
      rewrite _log_run; (eexists; split; [reflexivity|]); cbn;
      (repeat split; try reflexivity; [intros He; discriminate He|]);
      intros e' _; unfold warned; cbn; rewrite last_last; eexists; reflexivity.
Qed.

(** The [finally] block always returns. *)
Lemma quit_block_returns w :
  exists w', when (driver_is_set env) (quit_driver env log) w = (Ok tt, w').
Proof.
  assert (H : keeps always nothing (when (driver_is_set env) (quit_driver env log))).
  { apply keeps_when. apply keeps_quit_driver; try (intros; exact I).
    intros s m. apply keeps_log. intros; exact I. }
  destruct (keeps_nothing_returns always _ w H I) as [[] Hr].
  eexists. exact Hr.
Qed.

(** The extractor is its protected block followed by the [finally] block,
    and its result is that of the protected block. *)
Lemma retrieve_run doi_ base w :
  doi_ <> "" ->
  retrieve_scihub_pdf_link_selenium env doi_ base log w
  = (fst (protected_block env doi_ base log (announced p i doi_ base w)),
     snd (when (driver_is_set env) (quit_driver env log)
            (snd (protected_block env doi_ base log (announced p i doi_ base w))))).
Proof.
  intros Hd. unfold retrieve_scihub_pdf_link_selenium.
  rewrite (nonempty_true _ Hd). cbn [negb].
  unfold bind at 1. unfold log at 1. rewrite _log_run.
  fold (scihub_page base doi_). fold (announced p i doi_ base w). fold log.
  fold (protected_block env doi_ base log).
  unfold try_finally.
  destruct (protected_block env doi_ base log (announced p i doi_ base w)) as [r w2].
  destruct (quit_block_returns w2) as [w3 H3]. cbn [fst snd]. rewrite H3. reflexivity.
Qed.

Lemma protected_block_outcome doi_ base w :
  (exists v, fst (protected_block env doi_ base log w) = Ok v)
  \/ is_not_found (fst (protected_block env doi_ base log w)).
Proof.
  assert (H : keeps always (raised_class NotFoundError) (protected_block env doi_ base log)).
  { apply keeps_protected.
    - intros s m. apply keeps_log. intros; exact I.
    - apply keeps_scihub_session; try (intros; exact I).
      intros s m. apply keeps_log. intros; exact I. }
  destruct (H w I) as [_ Hr].
  destruct (fst (protected_block env doi_ base log w)) as [v|r].
  - left. now exists v.
  - right. destruct (Hr r eq_refl) as [msg ->]. now exists msg.
Qed.

(** No browser: the world the protected block leaves has the browser of
    the world it started in. *)
Lemma protected_block_no_driver doi_ base w e :
  uc_Chrome env = Fault e ->
  browser (snd (protected_block env doi_ base log w)) = browser w.
Proof.
  intros Hc.
  unfold protected_block, try_except, scihub_session, new_Chrome.
  unfold bind at 1. unfold bind at 1. unfold call. rewrite Hc.
  generalize (keeps_scihub_handlers (fun w' => browser w' = browser w) log
                (log_keeps_browser (browser w)) e).
  destruct (scihub_handlers log e) as [h|]; [|intros []].
  intros Hh. exact (proj1 (Hh w eq_refl)).
Qed.

(** A browser: the protected block leaves the new session open. *)
Lemma protected_block_driver doi_ base w :
  uc_Chrome env = Done tt ->
  browser (snd (protected_block env doi_ base log w))
  = mkDriver (S (sessions (browser w))) (teardowns (browser w)) false.
Proof.
  intros Hc.
  set (b := mkDriver (S (sessions (browser w))) (teardowns (browser w)) false).
  assert (H : keeps (fun w' => browser w' = b) (raised_class NotFoundError)
                (try_except (scihub_page_steps env doi_ base (scihub_page base doi_) log)
                            (scihub_handlers log))).
  { apply keeps_protected; [apply log_keeps_browser|].
    apply keeps_scihub_page_steps. apply log_keeps_browser. }
  specialize (H (set_browser b w) eq_refl). destruct H as [H _].
  unfold protected_block, try_except, scihub_session, new_Chrome.
  unfold bind at 1. unfold bind at 1. unfold call. rewrite Hc.
  cbv [modify]. fold b.
  unfold try_except in H. exact H.
Qed.

End Release.

(** C6. Whenever the extractor has started a browser, it quits it exactly
    once before it leaves, whether it returns a link or raises; when no
    browser could be started there is none to quit.  A failure of [quit]
    is logged as a warning, is not retried, and does not change what the
    extractor returns or raises.  After a successful [quit] a further
    [quit] on the same driver leaves the world as it is. *)
Theorem browser_session_is_released :
  (forall env p i base w,
      fst (retrieve_scihub_pdf_link_selenium env "" base (_log p i) w)
      = Raise (Exc (mkExn ValueError "DOI must be provided for Sci-Hub retrieval."))
      /\ browser (snd (retrieve_scihub_pdf_link_selenium env "" base (_log p i) w))
         = browser w)
  /\
  forall env p i doi_ base w,
    doi_ <> "" ->
    ((exists v, fst (retrieve_scihub_pdf_link_selenium env doi_ base (_log p i) w) = Ok v)
     \/ is_not_found (fst (retrieve_scihub_pdf_link_selenium env doi_ base (_log p i) w)))
    /\ (forall e, uc_Chrome env = Fault e ->
          browser (snd (retrieve_scihub_pdf_link_selenium env doi_ base (_log p i) w))
          = browser w)
    /\ (uc_Chrome env = Done tt ->
          sessions (browser (snd (retrieve_scihub_pdf_link_selenium env doi_ base (_log p i) w)))
          = S (sessions (browser w))
          /\ teardowns (browser (snd (retrieve_scihub_pdf_link_selenium env doi_ base (_log p i) w)))
             = S (teardowns (browser w))
          /\ (forall e, webdriver_quit env = Fault e ->
                warned (snd (retrieve_scihub_pdf_link_selenium env doi_ base (_log p i) w)))
          /\ (webdriver_quit env = Done tt ->
                quit_patched
                  (browser (snd (retrieve_scihub_pdf_link_selenium env doi_ base (_log p i) w)))
                = true
                /\ driver_quit env
                     (snd (retrieve_scihub_pdf_link_selenium env doi_ base (_log p i) w))
                   = (Ok tt,
                      snd (retrieve_scihub_pdf_link_selenium env doi_ base (_log p i) w))))
    /\ (forall q,
          fst (retrieve_scihub_pdf_link_selenium (with_webdriver_quit q env)
                 doi_ base (_log p i) w)
          = fst (retrieve_scihub_pdf_link_selenium env doi_ base (_log p i) w)).
Proof.
  split.
  { intros env p i base w. unfold retrieve_scihub_pdf_link_selenium.
    cbn [Py.nonempty negb]. unfold bind, raise. rewrite _log_run.
    split; reflexivity. }
  intros env p i doi_ base w Hd.
  rewrite (retrieve_run env p i doi_ base w Hd). cbn [fst snd].
  split; [apply protected_block_outcome|].
  split; [|split].
  - intros e Hc. unfold driver_is_set. rewrite Hc. cbn [when ret snd].
    now rewrite (protected_block_no_driver env p i doi_ base _ e Hc).
  - intros Hc. unfold driver_is_set. rewrite Hc. cbn [when].
    pose proof (protected_block_driver env p i doi_ base (announced p i doi_ base w) Hc)
      as Hb.
    destruct (quit_driver_run env p i
                (snd (protected_block env doi_ base (_log p i) (announced p i doi_ base w))))
      as (w' & Hrun & Hs & Ht & Hp & Hw).
    { now rewrite Hb. }
    rewrite Hrun. cbn [snd]. rewrite Hs, Ht, Hb. cbn.
    repeat split; auto.
    apply driver_quit_patched; auto.
  - intros q.
    rewrite (retrieve_run (with_webdriver_quit q env) p i doi_ base w Hd).
    reflexivity.
Qed.

Lemma browser_session_is_released_witness :
  teardowns (browser (snd (retrieve_scihub_pdf_link_selenium env_stuck_browser
                             "10.1000/xyz" "https://sci-hub.mksa.top/"
                             (_log None "10.1000/xyz") world0)))
  = S (teardowns (browser world0))
  /\ warned (snd (retrieve_scihub_pdf_link_selenium env_stuck_browser
                    "10.1000/xyz" "https://sci-hub.mksa.top/"
                    (_log None "10.1000/xyz") world0)).
Proof.
  assert (Hd : "10.1000/xyz" <> "") by discriminate.
  destruct (proj1 (proj2 (proj2
              (proj2 browser_session_is_released env_stuck_browser None "10.1000/xyz"
                 "10.1000/xyz" "https://sci-hub.mksa.top/" world0 Hd))) eq_refl)
    as (_ & Ht & Hw & _).
  split; [exact Ht | exact (Hw _ eq_refl)].
Defined.

(** ** The Retrieval Orchestrator *)

(** Invariants that do not look at [summary_data] or at [calls] pass
    through every stage.  By itself a stage raises nothing but
    [SystemExit(1)], and that only outside batch mode; the errors of the
    values it takes from the resolver pass through it.  The section is
    parametric in what is known of these values ([Known]) and in what the
    stages may raise in consequence ([Rs]). *)
Section Stages.

Variable env : Env.
Variable I : world -> Prop.
Variable a : downloader_args.
Variable id : string.

Hypothesis I_log : forall p i s m w, I w -> I (logged_world p i s m w).
Hypothesis I_sd : forall w v, I w -> I (set_summary_data v w).
Hypothesis I_api : forall w v, I w -> I (set_api_requests v w).
Hypothesis I_pdf : forall w v, I w -> I (set_pdf_requests v w).
Hypothesis I_browser : forall w v, I w -> I (set_browser v w).
Hypothesis I_fs : forall w v, I w -> I (set_fs v w).

Lemma keeps__log (R : raised -> Prop) p i s m : keeps I R (_log p i s m).
Proof. apply keeps_log. intros. now apply I_log. Qed.

Lemma keeps_set_sd (R : raised -> Prop) f : keeps I R (set_sd f).
Proof. apply keeps_modify. intros. now apply I_sd. Qed.

Variable Rs : raised -> Prop.
Variable Known : json_value -> Prop.

Hypothesis Rs_exit : forall r, exits_unless_batch a r -> Rs r.
Hypothesis Known_str : forall s, Known (JStr s).
Hypothesis resolver_yields :
  yields I (fun r => resolver_error r \/ Rs r)
    (fun md => Known (snd (fst (fst md))) /\ Known (snd (fst md)))
    (get_paper_metadata env (identifier_doi a) (identifier_name a) (identifier_url a)).
Hypothesis download_keeps :
  forall pdf_url, Known pdf_url -> truth pdf_url = true ->
    keeps I (fun r => raised_class NotFoundError r \/ Rs r)
      (download_pdf_content_of env pdf_url).
Hypothesis sanitize_keeps :
  forall title_, Known title_ -> keeps I Rs (sanitize_filename_of title_).

Lemma keeps_exit_unless_batch : keeps I Rs (exit_unless_batch a).
Proof.
  unfold exit_unless_batch. destruct (is_batch_mode a) eqn:E; cbn [negb].
  - apply keeps_ret.
  - apply keeps_sys_exit. apply Rs_exit. now split.
Qed.

Ltac stage_step :=
  first [ apply keeps__log
        | apply keeps_set_sd
        | apply keeps_exit_unless_batch
        | keeps_step ].

(** A step whose value does not matter, and the return of a value. *)
Lemma yields_after {A B} (R : raised -> Prop) (Q : B -> Prop) (m : M A) (k : A -> M B) :
  keeps I R m -> (forall x, yields I R Q (k x)) -> yields I R Q (bind m k).
Proof.
  intros Hm Hk. apply yields_bind with (Q := fun _ => True).
  - apply keeps_yields; [exact Hm | trivial].
  - intros x _. apply Hk.
Qed.

Ltac yields_step :=
  lazymatch goal with
  | |- yields _ _ _ (bind _ _) => apply yields_after; [|intro]
  | |- yields _ _ _ (ret _) => apply yields_ret
  end.

Let known_flow : flow -> Prop :=
  fun f => match f with
           | Continue l => Known (title l)
           | Return _ => True
           end.

Lemma resolver_error_caught e :
  resolver_error (Exc e) ->
  isinstance e NotFoundError = true \/ isinstance e ValueError = true.
Proof.
  intros [[msg [= ->]] | [[msg [= ->]] | [msg [= ->]]]]; cbn; auto.
Qed.

Lemma resolver_error_not_exit code : ~ resolver_error (SystemExit code).
Proof. intros [[msg H] | [[msg H] | [msg H]]]; discriminate H. Qed.

Lemma yields_stage1 : yields I Rs known_flow (stage1 env a id).
Proof.
  unfold stage1.
  eapply yields_try_except with (R' := fun r => resolver_error r \/ Rs r).
  - apply yields_after; [apply keeps__log | intros _].
    eapply yields_bind; [exact resolver_yields|].
    intros [[[fd pt] url] q] [Hpt Hurl]. cbn [fst snd] in Hpt, Hurl.
    do 4 (apply yields_after; [apply keeps_set_sd | intros _]).
    destruct (truth url) eqn:Et.
    + apply yields_after; [apply keeps__log | intros _].
      eapply yields_try_except with
        (R' := fun r => raised_class NotFoundError r \/ Rs r).
      * apply yields_after; [now apply download_keeps | intros content].
        do 2 (apply yields_after; [stage_step | intros _]).
        apply yields_ret. exact Hpt.
      * intros e He. destruct (isinstance e NotFoundError) eqn:E.
        -- do 2 (apply yields_after; [stage_step | intros _]).
           apply yields_ret. exact Hpt.
        -- destruct He as [[msg [= ->]] | He]; [discriminate E | now right].
      * intros code [[msg H] | H]; [discriminate H | now right].
    + do 2 (apply yields_after; [stage_step | intros _]).
      apply yields_ret. exact Hpt.
  - intros e He. cbv beta.
    destruct (isinstance e NotFoundError) eqn:E1.
    + do 2 (apply yields_after; [stage_step | intros _]).
      destruct (Py.truthy (identifier_doi a)).
      * do 3 (apply yields_after; [stage_step | intros _]).
        apply yields_ret. apply Known_str.
      * do 3 (apply yields_after; [stage_step | intros ?]).
        apply yields_ret. exact Logic.I.
    + destruct (isinstance e ValueError) eqn:E2.
      * do 4 (apply yields_after; [stage_step | intros ?]).
        apply yields_ret. exact Logic.I.
      * destruct He as [He | He]; [|exact He].
        destruct (resolver_error_caught _ He); congruence.
  - intros code [H | H]; [destruct (resolver_error_not_exit _ H) | exact H].
Qed.

Lemma keeps_locate_scihub_pdf d :
  keeps I extractor_error (locate_scihub_pdf env a id d).
Proof.
  unfold locate_scihub_pdf.
  destruct (scihub_retrieval_method a =? "selenium").
  - apply keeps_retrieve; auto. intros s m. apply keeps__log.
  - repeat first [ stage_step | apply keeps_raise; left; eexists; reflexivity ].
Qed.

(** Stage 2 leaves the title and the DOI it was given. *)
Lemma yields_use_scihub_link l r :
  yields I (raised_class NotFoundError) (same_paper l) (use_scihub_link env a id l r).
Proof.
  unfold use_scihub_link. destruct r as [url cookies].
  destruct (Py.truthy url).
  - apply yields_after; [stage_step | intros _].
    apply yields_after; [now apply keeps_download_pdf_content | intros content].
    do 2 (apply yields_after; [stage_step | intros _]).
    apply yields_ret. now split.
  - do 3 (apply yields_after; [repeat stage_step | intros ?]).
    apply yields_ret. now split.
Qed.

Lemma keeps_use_scihub_link l r :
  keeps I (raised_class NotFoundError) (use_scihub_link env a id l r).
Proof. eapply yields_keeps, yields_use_scihub_link. Qed.

Lemma yields_scihub_failure (R : raised -> Prop) l e :
  match scihub_failure a id l e with
  | Some h => yields I R (same_paper l) h
  | None => False
  end.
Proof.
  unfold scihub_failure.
  destruct (isinstance e NotFoundError).
  { do 2 (apply yields_after; [repeat stage_step | intros ?]).
    apply yields_ret. now split. }
  destruct (isinstance e ValueError);
    do 2 (apply yields_after; [repeat stage_step | intros ?]);
    apply yields_ret; now split.
Qed.

Lemma keeps_scihub_failure (R : raised -> Prop) l e :
  match scihub_failure a id l e with
  | Some h => keeps I R h
  | None => False
  end.
Proof.
  generalize (yields_scihub_failure R l e).
  destruct (scihub_failure a id l e); [apply yields_keeps | auto].
Qed.

Lemma yields_scihub_attempt (R : raised -> Prop) l d :
  yields I R (same_paper l) (scihub_attempt env a id l d).
Proof.
  unfold scihub_attempt.
  eapply yields_try_except with (R' := is_exception).
  - apply yields_after.
    + eapply keeps_weaken; [|apply keeps_locate_scihub_pdf].
      intros r [[msg ->] | [msg ->]]; eexists; reflexivity.
    + intros r. eapply yields_weaken; [| |apply yields_use_scihub_link]; [|auto].
      intros x [msg ->]; eexists; reflexivity.
  - intros e _. generalize (yields_scihub_failure R l e).
    destruct (scihub_failure a id l e); [auto | intros []].
  - intros code H. destruct (not_exception_exit _ H).
Qed.

Lemma keeps_scihub_attempt (R : raised -> Prop) l d :
  keeps I R (scihub_attempt env a id l d).
Proof. eapply yields_keeps, yields_scihub_attempt. Qed.

Lemma yields_stage2 (R : raised -> Prop) l :
  yields I R (same_paper l) (stage2 env a id l).
Proof.
  unfold stage2, scihub_fallback.
  destruct (negb (Py.truthy (pdf_content l)) && truth (final_doi l)).
  - apply yields_after; [stage_step | intros _].
    apply yields_after; [stage_step | intros _].
    apply yields_scihub_attempt.
  - destruct (negb (Py.truthy (pdf_content l)) && negb (truth (final_doi l))).
    + do 3 (apply yields_after; [repeat stage_step | intros ?]).
      apply yields_ret. now split.
    + apply yields_ret. now split.
Qed.

Lemma keeps_stage2 (R : raised -> Prop) l : keeps I R (stage2 env a id l).
Proof. eapply yields_keeps, yields_stage2. Qed.

Lemma keeps_stage3_known l : Known (title l) -> keeps I Rs (stage3 env a id l).
Proof.
  intros Hk. unfold stage3.
  destruct (Py.truthy (pdf_content l)).
  - apply keeps_bind; [now apply sanitize_keeps | intros filename].
    apply keeps_bind.
    { destruct (negb (os_path_exists env (output_dir a))); [|apply keeps_ret].
      eapply keeps_try_except with (R' := raised_class OSError).
      - unfold makedirs.
        repeat first [ apply keeps_modify; intros; now apply I_fs
                     | apply keeps_raise; eexists; reflexivity
                     | stage_step ].
      - intros e [msg [= ->]]. cbn. repeat stage_step.
      - intros code [msg Hm]. discriminate Hm. }
    intros dir.
    apply keeps_bind; [stage_step | intros _].
    eapply keeps_try_except with (R' := raised_class OSError).
    + unfold write_bytes, open_file_externally.
      repeat first [ apply keeps_modify; intros; now apply I_fs
                   | apply keeps_raise; eexists; reflexivity
                   | stage_step ].
    + intros e [msg [= ->]]. cbn. repeat stage_step.
    + intros code [msg Hm]. discriminate Hm.
  - repeat stage_step.
Qed.

Lemma keeps_report (R : raised -> Prop) : keeps I R (report a id).
Proof.
  unfold report, update_simplified_summary.
  repeat first [ apply keeps_modify; intros; now apply I_fs | stage_step ].
Qed.

Lemma keeps_finish_known l : Known (title l) -> keeps I Rs (finish env a id l).
Proof.
  intros Hk. unfold finish.
  eapply yields_keeps with (Q := fun _ => True).
  eapply yields_bind; [apply yields_stage2 | intros l2 [Ht _]].
  apply keeps_yields; [|trivial].
  apply keeps_bind; [now apply keeps_set_sd | intros _].
  apply keeps_bind; [apply keeps_stage3_known; now rewrite Ht | intros _].
  apply keeps_bind; [now apply keeps_report | intros _].
  apply keeps_gets.
Qed.

(** The stages one after the other, from the world a call has entered. *)
Lemma keeps_run_known :
  keeps I Rs
    (bind (stage1 env a id)
       (fun f => match f with
                 | Return sd => ret sd
                 | Continue l => finish env a id l
                 end)).
Proof.
  eapply yields_keeps with (Q := fun _ => True).
  eapply yields_bind; [apply yields_stage1 | intros [l|sd] Hf].
  - apply keeps_yields; [now apply keeps_finish_known | trivial].
  - now apply yields_ret.
Qed.

End Stages.

(** Without a hypothesis on the answers of the service: nothing is known
    of the values, and a stage may raise the errors of their misuse. *)
Section StagesOfAnyAnswer.

Variable env : Env.
Variable I : world -> Prop.
Variable a : downloader_args.
Variable id : string.

Hypothesis I_log : forall p i s m w, I w -> I (logged_world p i s m w).
Hypothesis I_sd : forall w v, I w -> I (set_summary_data v w).
Hypothesis I_api : forall w v, I w -> I (set_api_requests v w).
Hypothesis I_pdf : forall w v, I w -> I (set_pdf_requests v w).
Hypothesis I_browser : forall w v, I w -> I (set_browser v w).
Hypothesis I_fs : forall w v, I w -> I (set_fs v w).

Let anyhow : json_value -> Prop := fun _ => True.

Lemma resolver_yields_any d n u :
  yields I (fun r => resolver_error r \/ stage_raises a r)
    (fun md => anyhow (snd (fst (fst md))) /\ anyhow (snd (fst md)))
    (get_paper_metadata env d n u).
Proof.
  apply keeps_yields; [|intros; split; exact Logic.I].
  eapply keeps_weaken; [|now apply keeps_get_paper_metadata].
  intros r [H | H]; [now left | right; now right].
Qed.

Lemma download_keeps_any pdf_url :
  keeps I (fun r => raised_class NotFoundError r \/ stage_raises a r)
    (download_pdf_content_of env pdf_url).
Proof.
  eapply keeps_weaken; [|now apply keeps_download_pdf_content_of].
  intros r [H | H]; [now left | right; now right].
Qed.

Lemma sanitize_keeps_any title_ :
  keeps I (stage_raises a) (sanitize_filename_of title_).
Proof. apply keeps_sanitize_filename_of. intros r H; now right. Qed.

Ltac any_answer :=
  first [ assumption
        | intros r H; now left
        | intros; exact Logic.I
        | apply resolver_yields_any
        | intros; apply download_keeps_any
        | intros; apply sanitize_keeps_any ].

Lemma keeps_stage1 : keeps I (stage_raises a) (stage1 env a id).
Proof.
  eapply yields_keeps.
  apply yields_stage1 with (Known := anyhow); any_answer.
Qed.

Lemma keeps_stage3 l : keeps I (stage_raises a) (stage3 env a id l).
Proof. apply keeps_stage3_known with (Known := anyhow); any_answer. Qed.

Lemma keeps_finish l : keeps I (stage_raises a) (finish env a id l).
Proof. apply keeps_finish_known with (Known := anyhow); any_answer. Qed.

Lemma keeps_run :
  keeps I (stage_raises a)
    (bind (stage1 env a id)
       (fun f => match f with
                 | Return sd => ret sd
                 | Continue l => finish env a id l
                 end)).
Proof.
  apply keeps_run_known with (Known := anyhow); any_answer.
Qed.

End StagesOfAnyAnswer.

(** With answers of the documented shape: the values are strings or
    false, and a stage raises nothing but [SystemExit(1)]. *)
Section StagesOfTypedAnswers.

Variable env : Env.
Variable I : world -> Prop.
Variable a : downloader_args.
Variable id : string.

Hypothesis I_log : forall p i s m w, I w -> I (logged_world p i s m w).
Hypothesis I_sd : forall w v, I w -> I (set_summary_data v w).
Hypothesis I_api : forall w v, I w -> I (set_api_requests v w).
Hypothesis I_pdf : forall w v, I w -> I (set_pdf_requests v w).
Hypothesis I_browser : forall w v, I w -> I (set_browser v w).
Hypothesis I_fs : forall w v, I w -> I (set_fs v w).

Hypothesis typed :
  answers_well_typed env (identifier_doi a) (identifier_name a) (identifier_url a).

Let typed_value : json_value -> Prop := fun v => str_or_false v = true.

Lemma resolver_yields_typed :
  yields I (fun r => resolver_error r \/ exits_unless_batch a r)
    (fun md => typed_value (snd (fst (fst md))) /\ typed_value (snd (fst md)))
    (get_paper_metadata env (identifier_doi a) (identifier_name a) (identifier_url a)).
Proof.
  intros w Hw. split.
  - now apply (keeps_get_paper_metadata env I I_api).
  - pose proof (get_paper_metadata_typed env _ _ _ w typed) as H.
    destruct (fst (get_paper_metadata env (identifier_doi a) (identifier_name a)
                     (identifier_url a) w)) as [[[[fd pt] url] q]|r].
    + cbn [fst snd]. unfold typed_value. tauto.
    + now left.
Qed.

Lemma download_keeps_typed pdf_url :
  typed_value pdf_url -> truth pdf_url = true ->
  keeps I (fun r => raised_class NotFoundError r \/ exits_unless_batch a r)
    (download_pdf_content_of env pdf_url).
Proof.
  intros Hs Ht.
  eapply keeps_weaken; [|now apply keeps_download_pdf_content_of_str].
  intros r H; now left.
Qed.

Lemma sanitize_keeps_typed title_ :
  typed_value title_ -> keeps I (exits_unless_batch a) (sanitize_filename_of title_).
Proof.
  unfold typed_value, sanitize_filename_of, str_or_false.
  destruct title_; intros H; try apply keeps_ret;
    apply negb_true_iff in H; rewrite H; apply keeps_ret.
Qed.

Lemma keeps_run_typed :
  keeps I (exits_unless_batch a)
    (bind (stage1 env a id)
       (fun f => match f with
                 | Return sd => ret sd
                 | Continue l => finish env a id l
                 end)).
Proof.
  apply keeps_run_known with (Known := typed_value);
    first [ assumption
          | intros r H; exact H
          | intros; reflexivity
          | apply resolver_yields_typed
          | apply download_keeps_typed
          | apply sanitize_keeps_typed ].
Qed.

End StagesOfTypedAnswers.

(** Symbolic execution of a stage: each call of the logger is replaced by
    its effect, the constructs of the monad are unfolded, and the tests
    are decided case by case. *)
Ltac run_unfold :=
  cbv [bind ret raise reraise sys_exit try_except try_finally modify gets call
       when set_sd exit_unless_batch makedirs write_bytes open_file_externally
       report update_simplified_summary].

Ltac run_simpl :=
  cbn [fst snd isinstance exn_cls exn_str exn_class_eqb orb andb negb
       logged_world summary_data status set_summary_data set_status set_message
       set_local_filepath set_fs set_resolved_doi set_paper_title
       set_openalex_api_url_queried set_direct_oa_pdf_url_tried
       set_scihub_page_url_tried set_final_pdf_source_url].

(** What the two steps do that use a value of the record as a [str]. *)
Lemma sanitize_cases title_ w :
  sanitize_filename_of title_ w = (Ok (file_name title_), w)
  \/ (exists msg,
        sanitize_filename_of title_ w = (Raise (Exc (mkExn AttributeError msg)), w)
        /\ str_or_false title_ = false).
Proof.
  unfold sanitize_filename_of, file_name, str_or_false.
  destruct title_; cbv [ret no_attribute raise]; auto;
    match goal with
    | |- context [if ?c then _ else _] => destruct c
    end; auto; right; eexists; split; reflexivity.
Qed.

Lemma download_of_cases env pdf_url w :
  (exists s, pdf_url = JStr s
             /\ download_pdf_content_of env pdf_url w = download_pdf_content env s None w)
  \/ (exists msg,
        download_pdf_content_of env pdf_url w
        = (Raise (Exc (mkExn AttributeError msg)), w)).
Proof.
  destruct pdf_url; try (right; eexists; reflexivity).
  left. eexists. split; reflexivity.
Qed.

Ltac run_case :=
  match goal with
  | |- context [match os_makedirs ?e ?p with _ => _ end] =>
      destruct (os_makedirs e p) eqn:?
  | |- context [match write_file ?e ?p ?d with _ => _ end] =>
      destruct (write_file e p d) eqn:?
  | |- context [match requests_get_api ?e ?u ?q with _ => _ end] =>
      destruct (requests_get_api e u q) eqn:?
  | |- context [match requests_get_pdf ?e ?u ?q with _ => _ end] =>
      destruct (requests_get_pdf e u q) eqn:?
  | |- context [match http_error_msg ?c ?r ?u with _ => _ end] =>
      destruct (http_error_msg c r u) eqn:?
  | |- context [sanitize_filename_of ?t ?w] =>
      destruct (sanitize_cases t w) as [-> | (? & -> & ?)]
  | |- context [if ?c then _ else _] => destruct c eqn:?
  end.

Ltac run := repeat first [ rewrite _log_run | progress run_unfold | progress run_simpl ].

Lemma reported_status_after_log s m sd :
  reported s = true -> status sd <> "SUCCESS" ->
  status (logged_summary s m sd) = s.
Proof.
  intros Hs Hn. rewrite logged_summary_status, Hs.
  apply String.eqb_neq in Hn. now rewrite Hn.
Qed.

Lemma status_after_failure m sd :
  In (status (logged_summary "FAILURE" m sd)) ["SUCCESS"; "FAILURE"; "FAILURE_SAVE_PDF"].
Proof.
  rewrite logged_summary_status. change (reported "FAILURE") with true. cbn [andb].
  destruct (status sd =? "SUCCESS") eqn:E; cbn [negb].
  - apply String.eqb_eq in E. rewrite E. now left.
  - right; now left.
Qed.

Section Statuses.

Variable env : Env.
Variable a : downloader_args.
Variable id : string.

(** When stage 3 is over, the status is final. *)
Lemma stage3_status l w w' :
  stage3 env a id l w = (Ok tt, w') ->
  In (status (summary_data w')) ["SUCCESS"; "FAILURE"; "FAILURE_SAVE_PDF"].
Proof.
  unfold stage3. destruct (Py.truthy (pdf_content l)).
  - run.
    repeat (run_case; run); try discriminate; intros [= <-]; cbn; auto.
  - run. repeat (run_case; run); try discriminate; intros [= <-];
      apply status_after_failure.
Qed.

End Statuses.

Section Downloader.

Variable env : Env.
Variable a : downloader_args.

Lemma downloader_run w :
  doi_to_pdf_downloader env a w
  = bind (stage1 env a (input_identifier a))
      (fun f => match f with
                | Return sd => ret sd
                | Continue l => finish env a (input_identifier a) l
                end) (entered a w).
Proof. reflexivity. Qed.

(** The call is recorded, and nothing else is. *)
Lemma downloader_calls w :
  calls (snd (doi_to_pdf_downloader env a w)) = (calls w ++ [a])%list.
Proof.
  rewrite downloader_run.
  assert (H : keeps (fun w' => calls w' = (calls w ++ [a])%list) (stage_raises a)
                (bind (stage1 env a (input_identifier a))
                   (fun f => match f with
                             | Return sd => ret sd
                             | Continue l => finish env a (input_identifier a) l
                             end))).
  { apply keeps_run; intros; assumption. }
  exact (proj1 (H (entered a w) eq_refl)).
Qed.

(** The downloader raises nothing but [SystemExit(1)], outside batch mode,
    and the errors of an answer that is not of the documented shape. *)
Lemma downloader_raises w r :
  fst (doi_to_pdf_downloader env a w) = Raise r -> stage_raises a r.
Proof.
  rewrite downloader_run.
  assert (H : keeps always (stage_raises a)
                (bind (stage1 env a (input_identifier a))
                   (fun f => match f with
                             | Return sd => ret sd
                             | Continue l => finish env a (input_identifier a) l
                             end))).
  { apply keeps_run; intros; exact I. }
  exact (proj2 (H (entered a w) I) r).
Qed.

(** When the answer is of the documented shape, only the first is left. *)
Lemma downloader_raises_typed w r :
  answers_well_typed env (identifier_doi a) (identifier_name a) (identifier_url a) ->
  fst (doi_to_pdf_downloader env a w) = Raise r -> exits_unless_batch a r.
Proof.
  intros Hty. rewrite downloader_run.
  assert (H : keeps always (exits_unless_batch a)
                (bind (stage1 env a (input_identifier a))
                   (fun f => match f with
                             | Return sd => ret sd
                             | Continue l => finish env a (input_identifier a) l
                             end))).
  { apply keeps_run_typed; try (intros; exact I). exact Hty. }
  exact (proj2 (H (entered a w) I) r).
Qed.

End Downloader.

Ltac run_stage_case :=
  match goal with
  | |- context [get_paper_metadata ?e ?d ?n ?u ?w] =>
      destruct (get_paper_metadata e d n u w) as [[[[[? ?] ?] ?]|[?|?]] ?] eqn:?
  | |- context [download_pdf_content_of ?e ?u ?w] =>
      destruct (download_pdf_content_of e u w) as [[?|[?|?]] ?] eqn:?
  | |- context [download_pdf_content ?e ?u ?c ?w] =>
      destruct (download_pdf_content e u c w) as [[?|[?|?]] ?] eqn:?
  | |- context [stage2 ?e ?a ?i ?l ?w] =>
      destruct (stage2 e a i l w) as [[?|?] ?] eqn:?
  | |- context [stage3 ?e ?a ?i ?l ?w] =>
      destruct (stage3 e a i l w) as [[[]|?] ?] eqn:?
  | _ => run_case
  end.

Ltac run_all := run; repeat (run_stage_case; run).

Section FinalStatus.

Variable env : Env.
Variable a : downloader_args.
Variable id : string.

(** Stage 1 returns the summary only in batch mode, after a lookup that
    failed, and then with the status the last [_log] or assignment left. *)
Lemma stage1_return w sd w' :
  stage1 env a id w = (Ok (Return sd), w') ->
  sd = summary_data w'
  /\ In (status sd) ["ERROR"; "FAILURE_INPUT_ERROR"]
  /\ is_batch_mode a = true.
Proof.
  unfold stage1. run_all; try discriminate; intros [= <- <-]; run_simpl;
    (split; [reflexivity|]);
    (split; [|now destruct (is_batch_mode a)]);
    first [ left; symmetry; apply reported_status_after_log;
            [reflexivity | discriminate]
          | right; left; reflexivity ].
Qed.

(** Outside batch mode stage 3 returns only after a successful save. *)
Lemma stage3_single l w w' :
  is_batch_mode a = false ->
  stage3 env a id l w = (Ok tt, w') ->
  status (summary_data w') = "SUCCESS".
Proof.
  intros Hb. unfold stage3. rewrite ?Hb. run_all; rewrite ?Hb in *;
    try discriminate; intros [= <-]; reflexivity.
Qed.

Lemma report_summary w :
  exists w', report a id w = (Ok tt, w') /\ summary_data w' = summary_data w.
Proof.
  unfold report. run_all; eexists; split; reflexivity.
Qed.

(** What [finish] returns is the final dictionary, with a final status. *)
Lemma finish_return l w sd w' :
  finish env a id l w = (Ok sd, w') ->
  sd = summary_data w'
  /\ In (status sd) ["SUCCESS"; "FAILURE"; "FAILURE_SAVE_PDF"]
  /\ (is_batch_mode a = false -> status sd = "SUCCESS").
Proof.
  unfold finish. unfold bind at 1.
  destruct (stage2 env a id l w) as [[l2|r] w2]; [|discriminate].
  unfold bind at 1. unfold set_sd, modify.
  unfold bind at 1.
  set (w3 := set_summary_data
               (set_final_pdf_source_url (actual_download_source_url l2) (summary_data w2)) w2).
  pose proof (stage3_status env a id l2 w3) as Hst.
  pose proof (stage3_single l2 w3) as Hsingle.
  destruct (stage3 env a id l2 w3) as [[[]|r] w4]; [|discriminate].
  specialize (Hst w4 eq_refl).
  unfold bind at 1.
  destruct (report_summary w4) as (w5 & Hr & Hsd). rewrite Hr.
  unfold gets. intros [= <- <-]. rewrite Hsd.
  repeat split; auto.
Qed.

End FinalStatus.

Lemma downloader_return env a w sd w' :
  doi_to_pdf_downloader env a w = (Ok sd, w') ->
  sd = summary_data w'
  /\ In (status sd) final_statuses
  /\ (is_batch_mode a = false -> status sd = "SUCCESS").
Proof.
  rewrite downloader_run. unfold bind at 1.
  destruct (stage1 env a (input_identifier a) (entered a w)) as [[[l|sd1]|r] w1] eqn:E1;
    [| |discriminate].
  - intros H. destruct (finish_return env a _ l w1 sd w' H) as (H1 & H2 & H3).
    repeat split; auto.
    unfold final_statuses. cbn in H2 |- *. intuition.
  - intros [= <- <-].
    destruct (stage1_return env a _ _ _ _ E1) as (H1 & H2 & H3).
    repeat split; auto.
    + unfold final_statuses. cbn in H2 |- *. intuition.
    + intros Hb. congruence.
Qed.





(** ** The status once it is [SUCCESS] *)

Lemma logged_world_succeeded p i s m w :
  succeeded w -> succeeded (logged_world p i s m w).
Proof.
  unfold succeeded. intros H. cbn [logged_world summary_data].
  rewrite logged_summary_status, H. cbn. now rewrite andb_false_r.
Qed.

Lemma stage3_after_success env a id l w :
  succeeded w ->
  In (status (summary_data (snd (stage3 env a id l w)))) ["SUCCESS"; "FAILURE_SAVE_PDF"].
Proof.
  unfold succeeded. intros Hs. unfold stage3. destruct (Py.truthy (pdf_content l)).
  - run_all; cbn; auto.
  - run. rewrite Hs. run_all; try discriminate;
      rewrite logged_summary_status, Hs; cbn; rewrite ?andb_false_r; auto.
Qed.

(** C2, as the claim states it, fails: the direct download sets the status
    to [SUCCESS], and stage 3, which cannot write the file, replaces it
    by [FAILURE_SAVE_PDF]. *)
Lemma success_is_overwritten_by_failed_save :
  status (summary_data
            (snd (stage1 env_disk_full (batch_doi "10.1000/xyz1") "10.1000/xyz1"
                    (entered (batch_doi "10.1000/xyz1") world0))))
  = "SUCCESS"
  /\ returned_status
       (fst (doi_to_pdf_downloader env_disk_full (batch_doi "10.1000/xyz1") world0))
     = Some "FAILURE_SAVE_PDF".
Proof. split; vm_compute; reflexivity. Qed.

(** C2, amended.  Once the status is [SUCCESS] no logged event overwrites
    it, whatever its severity: [_log] leaves it, and so does the whole
    Rendered-Page Extractor, which reaches the status through the logger
    only.  Stage 3 replaces a [SUCCESS] only by [FAILURE_SAVE_PDF], the
    status of a file that could not be written. *)
Theorem success_is_not_overwritten_by_logging :
  (forall p i s m w,
      succeeded w ->
      fst (_log p i s m w) = Ok tt /\ succeeded (snd (_log p i s m w)))
  /\ (forall env doi_ base p i w,
        succeeded w ->
        succeeded (snd (retrieve_scihub_pdf_link_selenium env doi_ base (_log p i) w)))
  /\ (forall env a id l w,
        succeeded w ->
        In (status (summary_data (snd (stage3 env a id l w))))
           ["SUCCESS"; "FAILURE_SAVE_PDF"]).
Proof.
  split; [|split].
  - intros p i s m w H. rewrite _log_run. split; [reflexivity|].
    now apply logged_world_succeeded.
  - intros env doi_ base p i w H.
    assert (Hk : keeps succeeded extractor_error
                   (retrieve_scihub_pdf_link_selenium env doi_ base (_log p i))).
    { apply keeps_retrieve.
      - intros s m. apply keeps_log. intros w0. apply logged_world_succeeded.
      - intros w0 v Hw. exact Hw.
      - intros w0 v Hw. exact Hw. }
    exact (proj1 (Hk w H)).
  - intros. now apply stage3_after_success.
Qed.

Lemma success_is_not_overwritten_by_logging_witness :
  succeeded (snd (_log None "10.1000/xyz1" "WARNING" "late warning"
                    (snd (stage1 env_open_access (batch_doi "10.1000/xyz1") "10.1000/xyz1"
                            (entered (batch_doi "10.1000/xyz1") world0))))).
Proof.
  apply (proj1 success_is_not_overwritten_by_logging).
  vm_compute. reflexivity.
Defined.

(** ** Establishing a fact about the final world *)

Lemma ensures_bind_l {A B} (I : world -> Prop) (m : M A) (k : A -> M B) :
  ensures I m -> (forall x, keeps I anything (k x)) -> ensures I (bind m k).
Proof.
  intros Hm Hk w. unfold bind. specialize (Hm w).
  destruct (m w) as [[x|r] w']; cbn [snd] in *; [|exact Hm].
  exact (proj1 (Hk x w' Hm)).
Qed.

Lemma ensures_try_except {A} (I : world -> Prop) (m : M A) handler :
  ensures I m ->
  (forall e, match handler e with
             | Some h => keeps I anything h
             | None => True
             end) ->
  ensures I (try_except m handler).
Proof.
  intros Hm Hh w. unfold try_except. specialize (Hm w).
  destruct (m w) as [[x|[e|code]] w']; cbn [snd] in *; try exact Hm.
  specialize (Hh e). destruct (handler e) as [h|]; [|exact Hm].
  exact (proj1 (Hh w' Hm)).
Qed.

Lemma keeps_anything {A} (I : world -> Prop) (R : raised -> Prop) (m : M A) :
  keeps I R m -> keeps I anything m.
Proof. apply keeps_weaken. intros; exact Logic.I. Qed.

(** ** Log entries stay *)

Section LogEntries.

Variable env : Env.
Variable a : downloader_args.
Variable id : string.
Variable entry : string * string.

Let has_entry : world -> Prop := fun w => In entry (logged w).

Lemma has_entry_logged p i s m w : has_entry w -> has_entry (logged_world p i s m w).
Proof. unfold has_entry. cbn. intros H. apply in_or_app. now left. Qed.

Lemma keeps_entry_attempt l d : keeps has_entry anything (scihub_attempt env a id l d).
Proof.
  apply keeps_scihub_attempt; try (intros; assumption).
  intros. now apply has_entry_logged.
Qed.

Lemma keeps_entry_rest l :
  keeps has_entry anything
    (set_sd (set_final_pdf_source_url (actual_download_source_url l)) ;;
     stage3 env a id l ;; report a id ;; gets summary_data).
Proof.
  assert (Hlog : forall p i s m w, has_entry w -> has_entry (logged_world p i s m w))
    by (intros; now apply has_entry_logged).
  apply keeps_bind; [apply keeps_set_sd; intros; assumption | intros _].
  apply keeps_bind.
  { eapply keeps_anything. apply keeps_stage3; try (intros; assumption). exact Hlog. }
  intros _.
  apply keeps_bind; [apply keeps_report; intros; assumption | intros _].
  apply keeps_gets.
Qed.

End LogEntries.

(** ** A lookup that fails *)

Lemma get_paper_metadata_frame env d n u w :
  summary_data (snd (get_paper_metadata env d n u w)) = summary_data w
  /\ logged (snd (get_paper_metadata env d n u w)) = logged w
  /\ outside_summary (snd (get_paper_metadata env d n u w)) = outside_summary w
  /\ fs (snd (get_paper_metadata env d n u w)) = fs w.
Proof.
  assert (H : keeps (fun w' => summary_data w' = summary_data w
                               /\ logged w' = logged w
                               /\ outside_summary w' = outside_summary w
                               /\ fs w' = fs w)
                resolver_raises (get_paper_metadata env d n u)).
  { apply keeps_get_paper_metadata. intros w0 v H0. exact H0. }
  apply (H w). repeat split.
Qed.

Lemma logged_summary_reported_false s m sd :
  reported s = false -> logged_summary s m sd = sd.
Proof. unfold logged_summary. now intros ->. Qed.

Section LookupFails.

Variable env : Env.
Variable a : downloader_args.
Variable id : string.
Variable msg : string.

Hypothesis Hfails : lookup_fails env a msg.

(** The entries stage 1 adds to the log when the lookup fails. *)
Let started : string * string := ("INFO", "Starting process for: " ++ id).
Let lookup_error : string * string :=
  ("ERROR", "Error fetching metadata from OpenAlex: " ++ msg ++ ".").

Lemma stage1_lookup_failed_doi w :
  Py.truthy (identifier_doi a) = true ->
  exists w1,
    stage1 env a id w
    = (Ok (Continue (mkLocals (of_optional (identifier_doi a))
                       (JStr (placeholder_title (value (identifier_doi a))))
                       None JNull)), w1)
    /\ status (summary_data w1) = "FAILURE_OPENALEX_METADATA"
    /\ resolved_doi (summary_data w1) = of_optional (identifier_doi a)
    /\ paper_title (summary_data w1)
       = JStr (placeholder_title (value (identifier_doi a)))
    /\ logged w1
       = (logged w ++ [started] ++ [lookup_error]
          ++ [("INFO", "Will attempt Sci-Hub using the provided DOI.")])%list
    /\ outside_summary w1 = outside_summary w.
Proof.
  intros Hd. unfold stage1. run.
  match goal with
  | |- context [get_paper_metadata env ?d ?n ?u ?w0] =>
      pose proof (Hfails w0) as Hf;
      pose proof (get_paper_metadata_frame env d n u w0) as (Hsd & Hlog & Hout & Hfs);
      destruct (get_paper_metadata env d n u w0) as [[md|[e|code]] w1]
  end; cbn [fst snd] in *; try discriminate Hf.
  injection Hf as ->. run. rewrite Hd. run.
  eexists. split; [reflexivity|].
  unfold outside_summary in *. cbn. rewrite Hlog. cbn.
  rewrite <- !app_assoc. repeat split; try reflexivity. exact Hout.
Qed.

Lemma stage1_lookup_failed_other w :
  Py.truthy (identifier_doi a) = false ->
  exists w1,
    stage1 env a id w
    = ((if is_batch_mode a then Ok (Return (summary_data w1))
        else Raise (SystemExit 1)), w1)
    /\ scihub_page_url_tried (summary_data w1) = scihub_page_url_tried (summary_data w)
    /\ logged w1
       = (logged w ++ [started] ++ [lookup_error]
          ++ [("ERROR", "Could not obtain DOI from OpenAlex to attempt Sci-Hub download.")])%list
    /\ outside_summary w1 = outside_summary w.
Proof.
  intros Hd. unfold stage1. run.
  match goal with
  | |- context [get_paper_metadata env ?d ?n ?u ?w0] =>
      pose proof (Hfails w0) as Hf;
      pose proof (get_paper_metadata_frame env d n u w0) as (Hsd & Hlog & Hout & Hfs);
      destruct (get_paper_metadata env d n u w0) as [[md|[e|code]] w1]
  end; cbn [fst snd] in *; try discriminate Hf.
  injection Hf as ->. run. rewrite Hd. run.
  destruct (is_batch_mode a); run;
    match goal with |- exists _, (_, ?W) = _ /\ _ => exists W end;
    (split; [reflexivity|]);
    unfold outside_summary in *; cbn; rewrite Hlog, Hsd; cbn;
    rewrite <- !app_assoc; (repeat split; try reflexivity; try exact Hout);
    destruct (status (summary_data w) =? "SUCCESS"); reflexivity.
Qed.

End LookupFails.

(** ** The fallback is recorded in the log *)

Section Fallback.

Variable env : Env.
Variable a : downloader_args.
Variable id : string.

Lemma stage2_falls_back l :
  pdf_content l = None -> truth (final_doi l) = true ->
  stage2 env a id l = scihub_fallback env a id l.
Proof. intros Hp Hd. unfold stage2. now rewrite Hp, Hd. Qed.

Lemma truthy_value_nonempty o : Py.truthy o = true -> value o <> "".
Proof. destruct o as [[|c s]|]; cbn; congruence. Qed.

(** An input DOI that is true, as the value the stages hold. *)
Lemma of_optional_truthy o :
  Py.truthy o = true ->
  of_optional o = JStr (value o) /\ truth (of_optional o) = true.
Proof. destruct o as [s|]; [intros H; split; [reflexivity | exact H] | discriminate]. Qed.

Lemma finish_logs_fallback l w :
  pdf_content l = None -> truth (final_doi l) = true ->
  In (fallback_entry a (format_value env (final_doi l)))
     (logged (snd (finish env a id l w))).
Proof.
  intros Hp Hd. unfold finish.
  apply (ensures_bind_l
           (fun w' => In (fallback_entry a (format_value env (final_doi l)))
                         (logged w'))).
  - intros w0. rewrite (stage2_falls_back l Hp Hd). unfold scihub_fallback.
    cbv [bind set_sd modify]. rewrite _log_run.
    apply (keeps_entry_attempt env a id
             (fallback_entry a (format_value env (final_doi l))) l).
    cbn. apply in_or_app. right. now left.
  - intros l2. apply keeps_entry_rest.
Qed.

Lemma retrieve_logs_entry doi_ base p i :
  doi_ <> "" ->
  ensures (fun w' => In (extractor_entry base doi_) (logged w'))
    (retrieve_scihub_pdf_link_selenium env doi_ base (_log p i)).
Proof.
  intros Hd w. rewrite (retrieve_run env p i doi_ base w Hd). cbn [snd].
  set (I' := fun w' : world => In (extractor_entry base doi_) (logged w')).
  assert (Hlog : forall s m, keeps I' nothing (_log p i s m)).
  { intros s m. apply keeps_log. intros w0 H0. unfold I' in *. cbn.
    apply in_or_app. now left. }
  assert (H0 : I' (announced p i doi_ base w)).
  { unfold I', announced. cbn. apply in_or_app. right. now left. }
  assert (H1 : I' (snd (protected_block env doi_ base (_log p i)
                          (announced p i doi_ base w)))).
  { apply (keeps_protected I' (_log p i) Hlog); [|exact H0].
    apply keeps_scihub_session; [exact Hlog|]. intros w0 v Hw. exact Hw. }
  apply (keeps_when I' anything); [|exact H1].
  apply keeps_quit_driver; [exact Hlog | |]; intros w0 v Hw; exact Hw.
Qed.

Lemma finish_logs_extractor l w :
  pdf_content l = None -> truth (final_doi l) = true ->
  format_value env (final_doi l) <> "" ->
  scihub_retrieval_method a = "selenium" ->
  In (extractor_entry (SCI_HUB_URL env) (format_value env (final_doi l)))
     (logged (snd (finish env a id l w))).
Proof.
  intros Hp Hd Hne Hm. unfold finish.
  set (entry := extractor_entry (SCI_HUB_URL env) (format_value env (final_doi l))).
  apply (ensures_bind_l (fun w' => In entry (logged w'))).
  - intros w0. rewrite (stage2_falls_back l Hp Hd). unfold scihub_fallback.
    cbv [bind set_sd modify]. rewrite _log_run.
    unfold scihub_attempt.
    apply (ensures_try_except (fun w' => In entry (logged w'))).
    + apply ensures_bind_l.
      * unfold locate_scihub_pdf. rewrite Hm. cbn [String.eqb].
        change ("selenium" =? "selenium") with true. cbv iota.
        apply retrieve_logs_entry. exact Hne.
      * intros r. eapply keeps_anything.
        apply keeps_use_scihub_link; try (intros; assumption).
        intros. now apply has_entry_logged.
    + intros e.
      generalize (keeps_scihub_failure (fun w' => In entry (logged w')) a id
                    (fun p i s m w1 H => has_entry_logged entry p i s m w1 H)
                    (fun w1 v H => H) anything l e).
      destruct (scihub_failure a id l e); [auto | intros []].
  - intros l2. apply keeps_entry_rest.
Qed.

End Fallback.

(** C5, as the claim states it, fails for an identifier that is not a DOI:
    in single-item mode the orchestrator does not return, it leaves
    through [sys.exit(1)]; and the summary it returns in batch mode
    carries the status [ERROR] of the last log entry. *)
Lemma lookup_failure_without_doi_exits :
  fst (doi_to_pdf_downloader env_no_results (single_name "Example Paper") world0)
  = Raise (SystemExit 1)
  /\ returned_status
       (fst (doi_to_pdf_downloader env_no_results (batch_name "Example Paper") world0))
     = Some "ERROR".
Proof. split; vm_compute; reflexivity. Qed.

(** C5, amended.  When the lookup fails with a not-found error and the
    input is a DOI, stage 1 records [FAILURE_OPENALEX_METADATA], takes the
    input DOI as it is for the canonical identifier, makes the placeholder
    title of it and goes on, and the run enters the fallback with that DOI
    (and, with the browser method, the extractor with the page of that
    DOI).  When the input is not a DOI, the run ends at once with no
    fallback: no page is tried, no document is requested, the browser is
    not touched; in batch mode the summary is returned, in single-item
    mode the run leaves through [sys.exit(1)]. *)
Theorem lookup_failure_falls_back_for_doi :
  forall env a msg w,
    lookup_fails env a msg ->
    (Py.truthy (identifier_doi a) = true ->
       (exists w1,
           stage1 env a (input_identifier a) (entered a w)
           = (Ok (Continue (mkLocals (of_optional (identifier_doi a))
                              (JStr (placeholder_title (value (identifier_doi a))))
                              None JNull)), w1)
           /\ status (summary_data w1) = "FAILURE_OPENALEX_METADATA"
           /\ resolved_doi (summary_data w1) = of_optional (identifier_doi a)
           /\ paper_title (summary_data w1)
              = JStr (placeholder_title (value (identifier_doi a))))
       /\ In (fallback_entry a (value (identifier_doi a)))
             (logged (snd (doi_to_pdf_downloader env a w)))
       /\ (scihub_retrieval_method a = "selenium" ->
           In (extractor_entry (SCI_HUB_URL env) (value (identifier_doi a)))
              (logged (snd (doi_to_pdf_downloader env a w)))))
    /\ (Py.truthy (identifier_doi a) = false ->
          fst (doi_to_pdf_downloader env a w)
          = (if is_batch_mode a
             then Ok (summary_data (snd (doi_to_pdf_downloader env a w)))
             else Raise (SystemExit 1))
          /\ scihub_page_url_tried (summary_data (snd (doi_to_pdf_downloader env a w)))
             = None
          /\ pdf_requests (snd (doi_to_pdf_downloader env a w)) = pdf_requests w
          /\ browser (snd (doi_to_pdf_downloader env a w)) = browser w
          /\ logged (snd (doi_to_pdf_downloader env a w))
             = (logged w
                ++ [("INFO", ("Starting process for: " ++ input_identifier a)%string);
                    ("ERROR",
                     ("Error fetching metadata from OpenAlex: " ++ msg ++ ".")%string);
                    ("ERROR",
                     "Could not obtain DOI from OpenAlex to attempt Sci-Hub download.")])%list).
Proof.
  intros env a msg w Hf. split; intros Hd.
  - destruct (stage1_lookup_failed_doi env a (input_identifier a) msg Hf (entered a w) Hd)
      as (w1 & H1 & Hst & Hrd & Hpt & Hlog & Hout).
    split; [exists w1; auto|].
    rewrite downloader_run. unfold bind. rewrite H1.
    destruct (of_optional_truthy _ Hd) as [Hof Htrue].
    assert (Hfmt : format_value env (of_optional (identifier_doi a))
                   = value (identifier_doi a)) by now rewrite Hof.
    split.
    + replace (fallback_entry a (value (identifier_doi a)))
        with (fallback_entry a (format_value env (of_optional (identifier_doi a))))
        by now rewrite Hfmt.
      apply (finish_logs_fallback env a (input_identifier a)
               (mkLocals (of_optional (identifier_doi a))
                  (JStr (placeholder_title (value (identifier_doi a)))) None JNull) w1);
        [reflexivity | exact Htrue].
    + intros Hm.
      replace (extractor_entry (SCI_HUB_URL env) (value (identifier_doi a)))
        with (extractor_entry (SCI_HUB_URL env)
                (format_value env (of_optional (identifier_doi a))))
        by now rewrite Hfmt.
      apply (finish_logs_extractor env a (input_identifier a)
               (mkLocals (of_optional (identifier_doi a))
                  (JStr (placeholder_title (value (identifier_doi a)))) None JNull) w1);
        [reflexivity | exact Htrue | | exact Hm].
      cbn [final_doi]. rewrite Hfmt. now apply truthy_value_nonempty.
  - destruct (stage1_lookup_failed_other env a (input_identifier a) msg Hf (entered a w) Hd)
      as (w1 & H1 & Hpage & Hlog & Hout).
    rewrite downloader_run. unfold bind. rewrite H1.
    unfold outside_summary in Hout. cbn in Hout. injection Hout as Hp Hb Hc.
    destruct (is_batch_mode a); cbn [fst snd ret];
      (split; [reflexivity|]); (split; [exact Hpage|]);
      (split; [exact Hp|]); (split; [exact Hb|]); exact Hlog.
Qed.

Lemma lookup_failure_falls_back_for_doi_witness :
  In (fallback_entry (batch_doi "10.1000/xyz")
        (value (identifier_doi (batch_doi "10.1000/xyz"))))
     (logged (snd (doi_to_pdf_downloader env_offline (batch_doi "10.1000/xyz") world0)))
  /\ browser (snd (doi_to_pdf_downloader env_no_results (batch_name "Example Paper")
                     world0))
     = browser world0.
Proof.
  assert (Hdoi : lookup_fails env_offline (batch_doi "10.1000/xyz")
                   "OpenAlex API request failed for DOI: 10.1000/xyz: connection refused")
    by (intros w; vm_compute; reflexivity).
  assert (Hname : lookup_fails env_no_results (batch_name "Example Paper")
                    "No paper found on OpenAlex for name: Example Paper")
    by (intros w; vm_compute; reflexivity).
  split.
  - exact (proj1 (proj2 (proj1 (lookup_failure_falls_back_for_doi env_offline
                                  (batch_doi "10.1000/xyz") _ world0 Hdoi) eq_refl))).
  - exact (proj1 (proj2 (proj2 (proj2 (proj2 (lookup_failure_falls_back_for_doi
                                                env_no_results (batch_name "Example Paper")
                                                _ world0 Hname) eq_refl))))).
Defined.

(** ** The prefix of a DOI *)

Lemma strip_https_prefix d : strip_doi_prefix ("https://doi.org/" ++ d) = d.
Proof.
  unfold strip_doi_prefix. now rewrite startswith_app, drop_app.
Qed.

Lemma strip_http_prefix d : strip_doi_prefix ("http://doi.org/" ++ d) = d.
Proof.
  unfold strip_doi_prefix.
  assert (H : Py.startswith ("http://doi.org/" ++ d) "https://doi.org/" = false)
    by reflexivity.
  now rewrite H, startswith_app, drop_app.
Qed.

Lemma build_query_prefixed pfx d n u :
  pfx = "https://doi.org/" \/ pfx = "http://doi.org/" ->
  build_query (Some (pfx ++ d)) n u
  = ret (base_api_url ++ "/https://doi.org/" ++ d, [], "DOI: " ++ d).
Proof.
  intros [-> | ->]; unfold build_query.
  - assert (H : Py.truthy (Some ("https://doi.org/" ++ d)) = true) by reflexivity.
    rewrite H. unfold value. now rewrite strip_https_prefix.
  - assert (H : Py.truthy (Some ("http://doi.org/" ++ d)) = true) by reflexivity.
    rewrite H. unfold value. now rewrite strip_http_prefix.
Qed.

(** The resolver reads the DOI through its query only. *)
Lemma get_paper_metadata_same_query env d1 d2 n u w :
  build_query d1 n u = build_query d2 n u ->
  get_paper_metadata env d1 n u w = get_paper_metadata env d2 n u w.
Proof.
  intros H. unfold get_paper_metadata. now rewrite H.
Qed.

(** What is made of the answer leaves the world as it is; the lookup adds
    its query to the queries sent. *)
Lemma read_answer_world n used q answer w : snd (read_answer n used q answer w) = w.
Proof.
  assert (H : keeps (fun w' => w' = w) anything (read_answer n used q answer)).
  { apply keeps_read_answer; intros; exact Logic.I. }
  exact (proj1 (H w eq_refl)).
Qed.

Lemma get_paper_metadata_world env d n u api_url params used w :
  (forall w0, build_query d n u w0 = (Ok (api_url, params, used), w0)) ->
  snd (get_paper_metadata env d n u w)
  = set_api_requests (api_requests w ++ [(api_url, params)]) w.
Proof.
  intros Hq. unfold get_paper_metadata. rewrite (bind_ok _ _ _ _ _ (Hq w)).
  unfold bind at 1. cbv [try_except requests_get_json bind modify ret raise].
  destruct (requests_get_api env api_url params) as [r|msg]; [|reflexivity].
  destruct (http_error_msg (api_status_code r) (api_reason r) (api_response_url r));
    [reflexivity|].
  destruct (json r); [|reflexivity].
  apply read_answer_world.
Qed.

Lemma get_paper_metadata_request env pfx d n u w :
  pfx = "https://doi.org/" \/ pfx = "http://doi.org/" ->
  api_requests (snd (get_paper_metadata env (Some (pfx ++ d)) n u w))
  = (api_requests w ++ [((base_api_url ++ "/https://doi.org/" ++ d)%string, [])])%list.
Proof.
  intros Hp.
  rewrite (get_paper_metadata_world env _ n u
             (base_api_url ++ "/https://doi.org/" ++ d) [] ("DOI: " ++ d));
    [reflexivity|].
  intros w0. now rewrite (build_query_prefixed pfx d n u Hp).
Qed.

(** Once the record is there, the resolver raises nothing of its own. *)
Lemma get_paper_metadata_misuse env d n u api_url metadata w r :
  resolves env d n u api_url metadata ->
  fst (get_paper_metadata env d n u w) = Raise r -> misuse r.
Proof.
  intros Hres. destruct (get_paper_metadata_picks _ _ _ _ _ _ w Hres) as [w0 ->].
  match goal with
  | |- fst (?m w0) = _ -> _ => assert (H : keeps always misuse m)
  end.
  { apply keeps_bind; [now apply keeps_read_doi | intros final_doi].
    apply keeps_bind; [now apply keeps_dict_get | intros title_].
    apply keeps_bind; [now apply keeps_select_pdf_url | intros pdf_url].
    apply keeps_bind; [now apply keeps_correct_arxiv_url | intros pdf_url'].
    apply keeps_ret. }
  exact (proj2 (H w0 Logic.I) r).
Qed.

Section Resolved.

Variable env : Env.
Variable a : downloader_args.
Variable id : string.

(** After a lookup that succeeds the canonical identifier is the DOI of
    the record. *)
Lemma stage1_resolved api_url metadata w l w1 :
  resolves env (identifier_doi a) (identifier_name a) (identifier_url a)
    api_url metadata ->
  stage1 env a id w = (Ok (Continue l), w1) ->
  final_doi l = record_doi metadata.
Proof.
  intros Hres. unfold stage1. run.
  match goal with
  | |- context [get_paper_metadata env ?d ?n ?u ?w0] =>
      pose proof (get_paper_metadata_doi env d n u api_url metadata w0) as Hg;
      pose proof (get_paper_metadata_misuse env d n u api_url metadata w0) as Hm;
      destruct (get_paper_metadata env d n u w0) as [[[[[fd pt] url] q]|[e|code]] w2]
  end.
  - specialize (Hg _ _ _ _ _ Hres eq_refl). subst fd.
    run_all; try discriminate; intros [= <- <-]; reflexivity.
  - destruct (Hm _ Hres eq_refl) as (c & msg & [= ->] & Hc).
    destruct c; try discriminate Hc; run; discriminate.
  - run_all; discriminate.
Qed.

End Resolved.

(** C8, as the claim states it, fails on the fallback path: when the
    lookup fails, the page tried is made of the input DOI as it was given,
    prefix included, and differs between the two schemes. *)
Lemma fallback_keeps_the_prefix :
  returned_field scihub_page_url_tried
    (fst (doi_to_pdf_downloader env_offline
            (batch_doi "https://doi.org/10.1000/xyz") world0))
  = Some (Some "https://sci-hub.mksa.top/https://doi.org/10.1000/xyz")
  /\ returned_field scihub_page_url_tried
       (fst (doi_to_pdf_downloader env_offline
               (batch_doi "http://doi.org/10.1000/xyz") world0))
     = Some (Some "https://sci-hub.mksa.top/http://doi.org/10.1000/xyz").
Proof. split; vm_compute; reflexivity. Qed.

(** C8, amended.  For a DOI given with the prefix [https://doi.org/] or
    [http://doi.org/], the identifier of the metadata query is the DOI
    without the prefix, and the resolver does the same for both schemes:
    same request, same result.  The fallback uses the DOI of the record
    when the lookup has succeeded, and the input DOI as it was given when
    the lookup has failed. *)
Theorem doi_prefix_is_stripped_for_the_query :
  (forall d,
      strip_doi_prefix ("https://doi.org/" ++ d) = d
      /\ strip_doi_prefix ("http://doi.org/" ++ d) = d)
  /\ (forall env d n u w,
        get_paper_metadata env (Some ("http://doi.org/" ++ d)) n u w
        = get_paper_metadata env (Some ("https://doi.org/" ++ d)) n u w
        /\ api_requests (snd (get_paper_metadata env (Some ("https://doi.org/" ++ d)) n u w))
           = (api_requests w
              ++ [((base_api_url ++ "/https://doi.org/" ++ d)%string, [])])%list)
  /\ (forall env a id api_url metadata w l w1,
        resolves env (identifier_doi a) (identifier_name a) (identifier_url a)
          api_url metadata ->
        stage1 env a id w = (Ok (Continue l), w1) ->
        final_doi l = record_doi metadata)
  /\ (forall env a id msg w,
        lookup_fails env a msg ->
        Py.truthy (identifier_doi a) = true ->
        exists l w1,
          stage1 env a id w = (Ok (Continue l), w1)
          /\ final_doi l = of_optional (identifier_doi a)).
Proof.
  split; [|split; [|split]].
  - intros d. split; [apply strip_https_prefix | apply strip_http_prefix].
  - intros env d n u w. split.
    + apply get_paper_metadata_same_query.
      rewrite !build_query_prefixed; auto.
    + apply get_paper_metadata_request. now left.
  - intros env a id api_url metadata w l w1. apply stage1_resolved.
  - intros env a id msg w Hf Hd.
    destruct (stage1_lookup_failed_doi env a id msg Hf w Hd) as (w1 & H1 & _).
    eexists. exists w1. split; [exact H1 | reflexivity].
Qed.

Lemma doi_prefix_is_stripped_for_the_query_witness :
  exists l w1,
    stage1 env_offline (batch_doi "https://doi.org/10.1000/xyz")
      "https://doi.org/10.1000/xyz" world0
    = (Ok (Continue l), w1)
    /\ final_doi l = of_optional (identifier_doi (batch_doi "https://doi.org/10.1000/xyz")).
Proof.
  assert (Hf : lookup_fails env_offline (batch_doi "https://doi.org/10.1000/xyz")
                 "OpenAlex API request failed for DOI: 10.1000/xyz: connection refused")
    by (intros w; vm_compute; reflexivity).
  exact (proj2 (proj2 (proj2 doi_prefix_is_stripped_for_the_query))
           env_offline (batch_doi "https://doi.org/10.1000/xyz")
           "https://doi.org/10.1000/xyz" _ world0 Hf eq_refl).
Defined.

(** ** The Batch Runner *)

Lemma identifiers_nonempty lines id :
  In id (identifiers_to_process lines) ->
  id <> "" /\ exists line, In line lines /\ id = Py.strip line.
Proof.
  unfold identifiers_to_process. intros H.
  apply in_map_iff in H as (line & <- & Hin).
  apply filter_In in Hin as [Hin Hne].
  split.
  - intros E. rewrite E in Hne. discriminate Hne.
  - now exists line.
Qed.

Lemma identifiers_complete lines line :
  In line lines -> Py.strip line <> "" ->
  In (Py.strip line) (identifiers_to_process lines).
Proof.
  intros Hin Hne. unfold identifiers_to_process.
  apply in_map. apply filter_In. split; [exact Hin|].
  now apply nonempty_true.
Qed.

Lemma build_query_doi id n u :
  id <> "" ->
  build_query (Some id) n u
  = ret (base_api_url ++ "/https://doi.org/" ++ strip_doi_prefix id, [],
         "DOI: " ++ strip_doi_prefix id).
Proof.
  intros Hne. unfold build_query. cbn [Py.truthy value].
  now rewrite (nonempty_true _ Hne).
Qed.

Section BatchLoop.

Variable env : Env.
Variable args : cli_args.
Variable output master_log : string.
Variable summary_path : option string.
Variable total_items : nat.

Lemma batch_loop_run identifiers :
  forall i acc w,
    (exists sums,
        batch_loop env args output master_log summary_path total_items i identifiers acc w
        = (Ok sums,
           snd (batch_loop env args output master_log summary_path total_items i
                  identifiers acc w)))
    /\ calls (snd (batch_loop env args output master_log summary_path total_items i
                     identifiers acc w))
       = (calls w
          ++ map (batch_call_args args output master_log summary_path) identifiers)%list.
Proof.
  induction identifiers as [|identifier_str rest IH]; intros i acc w.
  - cbn. split; [eexists; reflexivity | now rewrite app_nil_r].
  - cbn [batch_loop map]. unfold log_message, time_sleep. run.
    match goal with
    | |- context [doi_to_pdf_downloader env ?a ?w0] =>
        pose proof (downloader_raises env a w0) as Hr;
        pose proof (downloader_calls env a w0) as Hc;
        destruct (doi_to_pdf_downloader env a w0) as [[sd|r] w1]
    end; cbn [fst snd] in *.
    + destruct ((i <? total_items - 1)%nat && (0 <? arg_delay args)%Z); run;
        match goal with
        | |- context [batch_loop env args output master_log summary_path total_items
                        ?j rest ?acc' ?w2] =>
            destruct (IH j acc' w2) as [Hok Hcalls]
        end;
        (split; [exact Hok|]); rewrite Hcalls; cbn; rewrite Hc; cbn;
        now rewrite <- app_assoc.
    + destruct (Hr r eq_refl) as [[_ Hb] | (c & msg & -> & _)]; [discriminate Hb|].
      run.
      destruct ((i <? total_items - 1)%nat && (0 <? arg_delay args)%Z); run;
        match goal with
        | |- context [batch_loop env args output master_log summary_path total_items
                        ?j rest ?acc' ?w2] =>
            destruct (IH j acc' w2) as [Hok Hcalls]
        end;
        (split; [exact Hok|]); rewrite Hcalls; cbn; rewrite Hc; cbn;
        now rewrite <- app_assoc.
Qed.

End BatchLoop.

Lemma main_batch_run env args lines w :
  Py.truthy (arg_input_file args) = true ->
  Py.truthy (individual_identifier args) = false ->
  os_path_exists env (value (arg_input_file args)) = true ->
  read_lines env (value (arg_input_file args)) = Done lines ->
  exists out log sum sums,
    main env args w = (Ok sums, snd (main env args w))
    /\ calls (snd (main env args w))
       = (calls w
          ++ map (batch_call_args args out log sum) (identifiers_to_process lines))%list.
Proof.
  intros Hin Hid Hex Hread. unfold main. rewrite Hin, Hid, Hex, Hread. cbn [andb negb].
  unfold log_message, call. run.
  repeat (run_case; run);
    match goal with
    | |- context [batch_loop env args ?o ?l ?s ?t ?j ?ids ?acc ?w0] =>
        destruct (batch_loop_run env args o l s t ids j acc w0) as [[sums Hok] Hc];
        exists o, l, s, sums; rewrite Hok in *; cbn [fst snd] in *;
        split; [reflexivity | cbn; exact Hc]
    end.
Qed.

Lemma main_batch_unreadable env args e w :
  Py.truthy (arg_input_file args) = true ->
  Py.truthy (individual_identifier args) = false ->
  os_path_exists env (value (arg_input_file args)) = true ->
  read_lines env (value (arg_input_file args)) = Fault e ->
  fst (main env args w) = Raise (Exc e) /\ calls (snd (main env args w)) = calls w.
Proof.
  intros Hin Hid Hex Hread. unfold main. rewrite Hin, Hid, Hex, Hread. cbn [andb negb].
  unfold log_message, call. run.
  repeat (run_case; run); split; reflexivity.
Qed.

(** C10. In batch mode, when the input file can be read (line 711), the
    orchestrator is called once for every line of the file that is not
    blank, in the order of the file, with the stripped line as
    [identifier_doi] and with neither a name nor a URL; the query made for
    such a call is the lookup of a DOI.  A line is blank when it holds
    only characters [str.strip] removes, the no-break space among them.
    When the file cannot be read, [main] ends with the exception of
    [open] and the orchestrator is not called. *)
Theorem batch_lines_are_passed_as_dois :
  forall env args w,
    Py.truthy (arg_input_file args) = true ->
    Py.truthy (individual_identifier args) = false ->
    os_path_exists env (value (arg_input_file args)) = true ->
    match read_lines env (value (arg_input_file args)) with
    | Fault e =>
        fst (main env args w) = Raise (Exc e)
        /\ calls (snd (main env args w)) = calls w
    | Done lines =>
        (exists out log sum sums,
            main env args w = (Ok sums, snd (main env args w))
            /\ calls (snd (main env args w))
               = (calls w
                  ++ map (batch_call_args args out log sum)
                       (identifiers_to_process lines))%list)
        /\ (forall out log sum id,
              identifier_slots (batch_call_args args out log sum id)
              = (Some id, None, None)
              /\ is_batch_mode (batch_call_args args out log sum id) = true)
        /\ (forall id,
              In id (identifiers_to_process lines) ->
              id <> ""
              /\ (exists line, In line lines /\ id = Py.strip line)
              /\ forall out log sum,
                   build_query (identifier_doi (batch_call_args args out log sum id))
                     (identifier_name (batch_call_args args out log sum id))
                     (identifier_url (batch_call_args args out log sum id))
                   = ret (base_api_url ++ "/https://doi.org/" ++ strip_doi_prefix id, [],
                          "DOI: " ++ strip_doi_prefix id))
        /\ (forall line,
              In line lines ->
              Py.strip line <> "" ->
              In (Py.strip line) (identifiers_to_process lines))
    end.
Proof.
  intros env args w Hin Hid Hex.
  destruct (read_lines env (value (arg_input_file args))) as [lines|e] eqn:Hread.
  - split; [now apply main_batch_run|].
    split; [intros; split; reflexivity|].
    split.
    + intros id Hi. destruct (identifiers_nonempty _ _ Hi) as [Hne Hline].
      repeat split; auto. intros. now apply build_query_doi.
    + intros line. apply identifiers_complete.
  - now apply main_batch_unreadable.
Qed.

Lemma batch_lines_are_passed_as_dois_witness :
  map identifier_slots
    (calls (snd (main env_with_input_file batch_cli world0)))
  = [(Some "10.1000/xyz1", None, None); (Some "https://doi.org/10.1000/xyz2", None, None)].
Proof.
  destruct (proj1 (batch_lines_are_passed_as_dois env_with_input_file batch_cli world0
                     eq_refl eq_refl eq_refl))
    as (out & log & sum & sums & _ & Hc).
  rewrite Hc. reflexivity.
Defined.

(** * Further properties of the program *)

(** ** [sanitize_filename] *)

Lemma replace_char_removes c s :
  Py.replace s (String c "") "" = keep (fun ch => negb (Ascii.eqb c ch)) s.
Proof.
  unfold Py.replace. induction s as [|ch s IH]; [reflexivity|].
  cbn [Py.replace_go Py.startswith keep String.length Nat.sub].
  rewrite andb_true_r. destruct (Ascii.eqb c ch); cbn [negb append]; now rewrite IH.
Qed.

Lemma replace_char_substitutes c d s :
  Py.replace s (String c "") (String d "")
  = map_chars (fun ch => if Ascii.eqb c ch then d else ch) s.
Proof.
  unfold Py.replace. induction s as [|ch s IH]; [reflexivity|].
  cbn [Py.replace_go Py.startswith map_chars String.length Nat.sub].
  rewrite andb_true_r. destruct (Ascii.eqb c ch); cbn [append]; now rewrite IH.
Qed.

Lemma keep_keep f g s : keep f (keep g s) = keep (fun c => g c && f c) s.
Proof.
  induction s as [|c s IH]; [reflexivity|]. cbn [keep].
  destruct (g c); cbn [keep andb]; [destruct (f c)|]; now rewrite IH.
Qed.

Lemma keep_ext f g s : (forall c, f c = g c) -> keep f s = keep g s.
Proof.
  intros H. induction s as [|c s IH]; [reflexivity|]. cbn. now rewrite H, IH.
Qed.

Lemma keep_all f s : (forall c, Py.mem c s = true -> f c = true) -> keep f s = s.
Proof.
  induction s as [|c s IH]; intros H; [reflexivity|]. cbn [keep].
  rewrite (H c) by (cbn; now rewrite Ascii.eqb_refl).
  f_equal. apply IH. intros d Hd. apply H. cbn. rewrite Hd. apply orb_true_r.
Qed.

Lemma keep_none f s : (forall c, Py.mem c s = true -> f c = false) -> keep f s = "".
Proof.
  induction s as [|c s IH]; intros H; [reflexivity|]. cbn [keep].
  rewrite (H c) by (cbn; now rewrite Ascii.eqb_refl).
  apply IH. intros d Hd. apply H. cbn. rewrite Hd. apply orb_true_r.
Qed.

Lemma mem_keep f c s : Py.mem c (keep f s) = Py.mem c s && f c.
Proof.
  induction s as [|d s IH]; [reflexivity|]. cbn [keep Py.mem].
  destruct (f d) eqn:Ed; cbn [Py.mem]; rewrite IH.
  - destruct (Ascii.eqb c d) eqn:E; cbn [orb]; [|reflexivity].
    apply Ascii.eqb_eq in E. subst d. rewrite Ed. now rewrite andb_true_r.
  - destruct (Ascii.eqb c d) eqn:E; cbn [orb]; [|reflexivity].
    apply Ascii.eqb_eq in E. subst d. rewrite Ed. now rewrite !andb_false_r.
Qed.

Lemma mem_list c s :
  Py.mem c s = existsb (fun x => Ascii.eqb x c) (list_ascii_of_string s).
Proof.
  induction s as [|d s IH]; [reflexivity|]. cbn. now rewrite IH, Ascii.eqb_sym.
Qed.

Lemma fold_removes l s :
  fold_left (fun t char => Py.replace t (String char "") "") l s
  = keep (fun ch => negb (existsb (fun x => Ascii.eqb x ch) l)) s.
Proof.
  revert s. induction l as [|c l IH]; intros s; cbn [fold_left existsb].
  - symmetry. now apply keep_all.
  - rewrite IH, replace_char_removes, keep_keep.
    apply keep_ext. intros ch. now rewrite negb_orb.
Qed.

Lemma mem_app c s t : Py.mem c (s ++ t) = Py.mem c s || Py.mem c t.
Proof.
  induction s as [|d s IH]; [reflexivity|]. cbn. now rewrite IH, orb_assoc.
Qed.

Lemma mem_take c n s : Py.mem c (Py.take n s) = true -> Py.mem c s = true.
Proof.
  revert s. induction n as [|n IH]; intros [|d s]; cbn; try discriminate.
  intros H. apply orb_true_iff in H as [H|H]; [now rewrite H|].
  rewrite (IH _ H). apply orb_true_r.
Qed.

Lemma mem_rstrip c chars s : Py.mem c (Py.rstrip s chars) = true -> Py.mem c s = true.
Proof.
  induction s as [|d s IH]; [discriminate|]. cbn [Py.rstrip].
  destruct (Py.rstrip s chars) as [|e r] eqn:E.
  - destruct (Py.mem d chars); [discriminate|]. cbn.
    rewrite orb_false_r. intros ->. reflexivity.
  - cbn [Py.mem]. intros H. apply orb_true_iff in H as [H|H]; [now rewrite H|].
    rewrite (IH H). apply orb_true_r.
Qed.

Lemma length_take n s : String.length (Py.take n s) <= n.
Proof.
  revert s. induction n as [|n IH]; intros [|c s]; cbn; try lia.
  specialize (IH s). lia.
Qed.

Lemma length_rstrip s chars : String.length (Py.rstrip s chars) <= String.length s.
Proof.
  induction s as [|c s IH]; [cbn; lia|]. cbn [Py.rstrip].
  destruct (Py.rstrip s chars) as [|e r].
  - destruct (Py.mem c chars); cbn in *; lia.
  - cbn in *. lia.
Qed.

Lemma last_char_rstrip s chars c :
  last_char (Py.rstrip s chars) = Some c -> Py.mem c chars = false.
Proof.
  induction s as [|d s IH]; [discriminate|]. cbn [Py.rstrip].
  destruct (Py.rstrip s chars) as [|e r] eqn:E.
  - destruct (Py.mem d chars) eqn:Ed; [discriminate|].
    cbn. intros [= <-]. exact Ed.
  - cbn [last_char]. exact IH.
Qed.

Lemma rstrip_fixed s chars :
  (forall c, last_char s = Some c -> Py.mem c chars = false) ->
  Py.rstrip s chars = s.
Proof.
  induction s as [|d s IH]; intros H; [reflexivity|]. cbn [Py.rstrip].
  destruct s as [|e s'].
  - cbn. now rewrite (H d eq_refl).
  - rewrite IH by (intros c Hc; apply H; exact Hc).
    reflexivity.
Qed.

Lemma last_char_app s c : last_char (s ++ String c "") = Some c.
Proof.
  induction s as [|d s IH]; [reflexivity|]. cbn [append last_char].
  destruct (s ++ String c "") eqn:E; [destruct s; discriminate E|]. exact IH.
Qed.

Lemma sanitize_filename_stem title : sanitize_filename title = stem_of title ++ ".pdf".
Proof.
  unfold sanitize_filename, stem_of.
  rewrite replace_char_substitutes, fold_removes.
  rewrite (keep_ext _ (fun ch => negb (Py.mem ch invalid_chars)))
    by (intros c; now rewrite mem_list).
  reflexivity.
Qed.

Lemma forbidden_fixed_texts c :
  forbidden c = true ->
  Py.mem c ".pdf" = false /\ Py.mem c "Sanitized_Paper_Title" = false.
Proof.
  destruct c as [[] [] [] [] [] [] [] []]; vm_compute; intros H;
    first [discriminate H | split; reflexivity].
Qed.

Lemma mem_map_space s :
  Py.mem " " (map_chars (fun ch => if Ascii.eqb " " ch then "_"%char else ch) s) = false.
Proof.
  induction s as [|c s IH]; [reflexivity|]. cbn [map_chars Py.mem].
  rewrite IH, orb_false_r.
  destruct (Ascii.eqb " " c) eqn:E; [reflexivity|exact E].
Qed.

Lemma map_chars_id f s :
  (forall c, Py.mem c s = true -> f c = c) -> map_chars f s = s.
Proof.
  induction s as [|c s IH]; intros H; [reflexivity|]. cbn [map_chars].
  rewrite (H c) by (cbn; now rewrite Ascii.eqb_refl).
  f_equal. apply IH. intros d Hd. apply H. cbn. rewrite Hd. apply orb_true_r.
Qed.

Lemma safe_mem s : safe s = true <-> forall c, forbidden c = true -> Py.mem c s = false.
Proof.
  unfold safe. induction s as [|d s IH]; cbn [list_ascii_of_string forallb Py.mem].
  - split; [reflexivity|reflexivity].
  - rewrite andb_true_iff, IH. split.
    + intros [Hd Hs] c Hc. rewrite (Hs c Hc), orb_false_r.
      destruct (Ascii.eqb c d) eqn:E; [|reflexivity].
      apply Ascii.eqb_eq in E. subst d. rewrite Hc in Hd. discriminate.
    + intros H. split.
      * destruct (forbidden d) eqn:E; [|reflexivity].
        specialize (H d E). rewrite Ascii.eqb_refl in H. discriminate.
      * intros c Hc. specialize (H c Hc). now apply orb_false_iff in H.
Qed.

Lemma stem_of_mem c title :
  forbidden c = true -> Py.mem c (stem_of title) = false.
Proof.
  intros Hc. unfold stem_of.
  set (t := if Py.nonempty title then title else "Unknown_Paper_Title").
  set (cleaned := keep _ _).
  set (cut := if (200 <? String.length cleaned)%nat then _ else _).
  assert (Hcl : Py.mem c cleaned = false).
  { unfold cleaned. rewrite mem_keep. unfold forbidden in Hc. cbn [Py.mem] in Hc.
    apply orb_true_iff in Hc as [Hc|Hc].
    - apply Ascii.eqb_eq in Hc. subst c. now rewrite mem_map_space.
    - rewrite Hc. apply andb_false_r. }
  destruct (Py.nonempty (Py.rstrip cut ". ")).
  - destruct (Py.mem c (Py.rstrip cut ". ")) eqn:E; [|reflexivity].
    apply mem_rstrip in E. unfold cut in E.
    destruct (200 <? String.length cleaned)%nat; [apply mem_take in E|]; congruence.
  - now apply forbidden_fixed_texts.
Qed.

(** X1. Whatever the title, the file name is a non-empty stem of at most
    200 characters followed by [.pdf], and the stem does not end with a
    period or a space. *)
Theorem sanitize_filename_shape title :
  exists stem,
    sanitize_filename title = stem ++ ".pdf"
    /\ stem <> ""
    /\ String.length stem <= 200
    /\ last_char stem <> Some "."%char
    /\ last_char stem <> Some " "%char.
Proof.
  exists (stem_of title). split; [apply sanitize_filename_stem|].
  unfold stem_of.
  set (cleaned := keep _ _).
  set (cut := if (200 <? String.length cleaned)%nat then _ else _).
  assert (Hcut : String.length cut <= 200).
  { unfold cut. destruct (200 <? String.length cleaned)%nat eqn:E.
    - apply length_take.
    - now apply Nat.ltb_ge in E. }
  destruct (Py.nonempty (Py.rstrip cut ". ")) eqn:E.
  - repeat split.
    + intros H. rewrite H in E. discriminate.
    + pose proof (length_rstrip cut ". "). lia.
    + intros H. apply last_char_rstrip in H. discriminate.
    + intros H. apply last_char_rstrip in H. discriminate.
  - repeat split; try discriminate. cbn. lia.
Qed.

(** X2. No file name contains a space, a control character, a double
    quote or one of the characters [< > : / \ | ? *]. *)
Theorem sanitize_filename_safe title : safe (sanitize_filename title) = true.
Proof.
  apply safe_mem. intros c Hc. rewrite sanitize_filename_stem, mem_app.
  rewrite (stem_of_mem c title Hc). now apply forbidden_fixed_texts.
Qed.

(** X3. A title that is already a good stem (non-empty, none of the
    characters above, at most 200 characters, no period at the end) is kept
    as it is: the file name is the title followed by [.pdf]. *)
Theorem sanitize_filename_clean title :
  title <> "" ->
  safe title = true ->
  String.length title <= 200 ->
  last_char title <> Some "."%char ->
  sanitize_filename title = title ++ ".pdf".
Proof.
  intros Hne Hsafe Hlen Hlast.
  rewrite sanitize_filename_stem. f_equal. unfold stem_of.
  rewrite (nonempty_true _ Hne).
  pose proof (proj1 (safe_mem title) Hsafe) as Hmem.
  rewrite map_chars_id.
  2:{ intros c Hc. destruct (Ascii.eqb " " c) eqn:E; [|reflexivity].
      apply Ascii.eqb_eq in E. subst c.
      rewrite (Hmem " "%char eq_refl) in Hc. discriminate. }
  rewrite keep_all.
  2:{ intros c Hc. destruct (Py.mem c invalid_chars) eqn:E; [|reflexivity].
      assert (forbidden c = true) as Hf
        by (unfold forbidden; cbn [Py.mem]; rewrite E; apply orb_true_r).
      rewrite (Hmem c Hf) in Hc. discriminate. }
  apply Nat.ltb_ge in Hlen. rewrite Hlen.
  rewrite rstrip_fixed.
  - now rewrite (nonempty_true _ Hne).
  - intros c Hc. cbn [Py.mem]. rewrite orb_false_r. apply orb_false_iff. split.
    + destruct (Ascii.eqb c ".") eqn:E; [|reflexivity].
      apply Ascii.eqb_eq in E. subst c. contradiction.
    + destruct (Ascii.eqb c " ") eqn:E; [|reflexivity].
      apply Ascii.eqb_eq in E. subst c. exfalso.
      clear - Hc Hmem. specialize (Hmem " "%char eq_refl).
      revert Hc Hmem. induction title as [|d t IH]; [discriminate|].
      cbn [last_char Py.mem]. destruct t as [|e t'].
      * intros [= ->]. discriminate.
      * intros Hc Hm. apply orb_false_iff in Hm as [_ Hm]. exact (IH Hc Hm).
Qed.

Lemma sanitize_filename_clean_witness :
  sanitize_filename "Attention_Is_All_You_Need" = "Attention_Is_All_You_Need" ++ ".pdf".
Proof.
  apply (sanitize_filename_clean "Attention_Is_All_You_Need").
  - discriminate.
  - vm_compute. reflexivity.
  - cbn. lia.
  - discriminate.
Defined.

Lemma rstrip_all s chars :
  (forall c, Py.mem c s = true -> Py.mem c chars = true) -> Py.rstrip s chars = "".
Proof.
  induction s as [|d s IH]; intros H; [reflexivity|]. cbn [Py.rstrip].
  rewrite IH by (intros c Hc; apply H; cbn; rewrite Hc; apply orb_true_r).
  now rewrite (H d) by (cbn; now rewrite Ascii.eqb_refl).
Qed.

Lemma vanishing_mem title c :
  vanishing title = true -> Py.mem c title = true ->
  Py.mem c invalid_chars || Ascii.eqb c "." = true.
Proof.
  unfold vanishing. induction title as [|d t IH]; [discriminate|].
  cbn [list_ascii_of_string forallb Py.mem]. intros H Hc.
  apply andb_true_iff in H as [Hd Ht].
  destruct (Ascii.eqb c d) eqn:E.
  - apply Ascii.eqb_eq in E. now subst d.
  - exact (IH Ht Hc).
Qed.

(** X4. A non-empty title in which every character is removed or is a
    period leaves nothing to name the file with, and the file is called
    [Sanitized_Paper_Title.pdf]. *)
Theorem sanitize_filename_of_nothing title :
  title <> "" ->
  vanishing title = true ->
  sanitize_filename title = "Sanitized_Paper_Title.pdf".
Proof.
  intros Hne Hv. rewrite sanitize_filename_stem. unfold stem_of.
  rewrite (nonempty_true _ Hne).
  set (cleaned := keep _ _).
  assert (Hdots : forall c, Py.mem c cleaned = true -> Py.mem c ". " = true).
  { intros c. unfold cleaned. rewrite mem_keep. intros H.
    apply andb_true_iff in H as [Hm Hk].
    apply negb_true_iff in Hk.
    assert (Hin : exists d, Py.mem d title = true
                            /\ c = (if Ascii.eqb " " d then "_"%char else d)).
    { clear - Hm. induction title as [|e t IH]; [discriminate|].
      cbn [map_chars Py.mem] in Hm. apply orb_true_iff in Hm as [Hm|Hm].
      - exists e. split; [cbn; now rewrite Ascii.eqb_refl|].
        now apply Ascii.eqb_eq in Hm.
      - destruct (IH Hm) as (d & Hd & Hc). exists d. split; [|exact Hc].
        cbn. rewrite Hd. apply orb_true_r. }
    destruct Hin as (d & Hd & Hc).
    pose proof (vanishing_mem title d Hv Hd) as Hvd.
    destruct (Ascii.eqb " " d) eqn:E.
    - apply Ascii.eqb_eq in E. subst d. discriminate Hvd.
    - subst c. rewrite Hk in Hvd. cbn [orb] in Hvd.
      cbn [Py.mem]. now rewrite Hvd. }
  assert (Hcut : Py.rstrip (if (200 <? String.length cleaned)%nat
                            then Py.take 200 cleaned else cleaned) ". " = "").
  { apply rstrip_all. intros c Hc. apply Hdots.
    destruct (200 <? String.length cleaned)%nat; [now apply mem_take in Hc|exact Hc]. }
  rewrite Hcut. reflexivity.
Qed.

Lemma sanitize_filename_of_nothing_witness :
  sanitize_filename "<?>..." = "Sanitized_Paper_Title.pdf".
Proof.
  apply (sanitize_filename_of_nothing "<?>...").
  - discriminate.
  - vm_compute. reflexivity.
Defined.

(** ** The Metadata Resolver, when the lookup fails *)

Lemma http_error_msg_range code reason_ url :
  400 <= code < 600 -> exists msg, http_error_msg code reason_ url = Some msg.
Proof.
  intros [Hlo Hhi]. unfold http_error_msg.
  destruct (code <? 500)%nat eqn:E.
  - apply Nat.leb_le in Hlo. rewrite Hlo. cbn [andb]. eexists; reflexivity.
  - assert (H4 : ((400 <=? code) && false)%nat = false) by apply andb_false_r.
    rewrite H4. apply Nat.ltb_ge in E.
    apply Nat.leb_le in E. rewrite E. apply Nat.ltb_lt in Hhi. rewrite Hhi.
    cbn [andb]. eexists; reflexivity.
Qed.

(** X5. When the query of the service fails, because the request itself
    fails or because the answer carries a status from 400 to 599, the
    Metadata Resolver raises [NotFoundError] with the text [OpenAlex API
    request failed for], the description of the identifier and the text of
    the failure. *)
Theorem failed_query_is_not_found :
  forall env d n u api_url params used w,
    (forall w0, build_query d n u w0 = (Ok (api_url, params, used), w0)) ->
    (exists msg, requests_get_api env api_url params = HttpError msg)
    \/ (exists r, requests_get_api env api_url params = HttpResponse r
                  /\ 400 <= api_status_code r < 600) ->
    exists msg,
      fst (get_paper_metadata env d n u w)
      = Raise (Exc (mkExn NotFoundError
                      ("OpenAlex API request failed for " ++ used ++ ": " ++ msg))).
Proof.
  intros env d n u api_url params used w Hq Hfail.
  unfold get_paper_metadata, bind at 1. rewrite Hq.
  unfold requests_get_json. run.
  destruct Hfail as [[msg Hm] | (r & Hr & Hcode)].
  - rewrite Hm. run. now exists msg.
  - rewrite Hr.
    destruct (http_error_msg_range _ (api_reason r) (api_response_url r) Hcode)
      as [msg Hmsg].
    rewrite Hmsg. run. now exists msg.
Qed.

Lemma failed_query_is_not_found_witness :
  exists msg,
    fst (get_paper_metadata
           (with_api (fun api_url _ =>
                         HttpResponse (mkApiResponse 404 "Not Found" api_url
                                         (NotJson "Expecting value")))
              env_offline)
           (Some "10.1000/xyz") None None world0)
    = Raise (Exc (mkExn NotFoundError
                    ("OpenAlex API request failed for " ++ "DOI: 10.1000/xyz" ++ ": " ++ msg))).
Proof.
  apply (failed_query_is_not_found
           (with_api (fun api_url _ =>
                         HttpResponse (mkApiResponse 404 "Not Found" api_url
                                         (NotJson "Expecting value")))
              env_offline)
           (Some "10.1000/xyz") None None
           (base_api_url ++ "/https://doi.org/" ++ "10.1000/xyz") [] "DOI: 10.1000/xyz").
  - intros w0. reflexivity.
  - right. eexists. split; [reflexivity|]. cbn. lia.
Defined.

(** X6. A search by title whose answer counts no result ends in
    [NotFoundError] with the text [No paper found on OpenAlex for name:]
    and the title. *)
Theorem empty_search_is_not_found :
  forall env d n u api_url params used r answer w,
    (forall w0, build_query d n u w0 = (Ok (api_url, params, used), w0)) ->
    Py.truthy n = true ->
    requests_get_api env api_url params = HttpResponse r ->
    http_error_msg (api_status_code r) (api_reason r) (api_response_url r) = None ->
    json r = Json answer ->
    counts_nothing answer = true ->
    fst (get_paper_metadata env d n u w)
    = Raise (Exc (mkExn NotFoundError
                    ("No paper found on OpenAlex for name: " ++ value n))).
Proof.
  intros env d n u api_url params used r answer w Hq Hn Hr Hst Hj Hc.
  unfold get_paper_metadata, bind at 1. rewrite Hq.
  unfold requests_get_json. run. rewrite Hr, Hst. run. rewrite Hj. run.
  unfold read_answer, pick_record. rewrite Hn.
  destruct answer as [| | | | |items|members]; try discriminate Hc.
  cbn [counts_nothing] in Hc. cbv [bind ret dict_get].
  destruct (lookup "meta" members) as [[| | | | |items|m]|]; try discriminate Hc.
  - destruct (lookup "count" m) as [c|]; [now rewrite Hc | reflexivity].
  - reflexivity.
Qed.

Lemma empty_search_is_not_found_witness :
  fst (get_paper_metadata env_no_results None (Some "A title nobody wrote") None world0)
  = Raise (Exc (mkExn NotFoundError
                  ("No paper found on OpenAlex for name: "
                   ++ value (Some "A title nobody wrote")))).
Proof.
  apply (empty_search_is_not_found env_no_results None (Some "A title nobody wrote") None
           base_api_url
           [("filter", "title.search:" ++ "A title nobody wrote");
            ("sort", "relevance_score:desc"); ("per-page", "1")]
           ("Name: " ++ "A title nobody wrote")
           (mkApiResponse 200 "OK" base_api_url (Json no_results))
           no_results);
    reflexivity.
Defined.

Lemma build_query_total d n u :
  Py.truthy d || Py.truthy n || Py.truthy u = true ->
  exists api_url params used,
    forall w, build_query d n u w = (Ok (api_url, params, used), w).
Proof.
  intros H. unfold build_query.
  destruct (Py.truthy d); [do 3 eexists; intros; reflexivity|].
  destruct (Py.truthy n); [do 3 eexists; intros; reflexivity|].
  destruct (Py.truthy u); [|discriminate H].
  destruct (Py.contains (value u) "doi.org"); [do 3 eexists; intros; reflexivity|].
  destruct (Py.contains (value u) "arxiv.org/abs/" || Py.contains (value u) "arxiv.org/pdf/");
    do 3 eexists; intros; reflexivity.
Qed.

(** X7. The Metadata Resolver changes nothing in the world but the list
    of the queries sent: without any identifier it raises [ValueError] and
    sends nothing; with an identifier it sends exactly one query, the one
    [build_query] makes, whatever the answer is. *)
Theorem resolver_sends_one_query :
  forall env d n u w,
    (Py.truthy d || Py.truthy n || Py.truthy u = false ->
       get_paper_metadata env d n u w
       = (Raise (Exc (mkExn ValueError
                        "No identifier (DOI, name, or URL) provided to get_paper_metadata.")),
          w))
    /\ (Py.truthy d || Py.truthy n || Py.truthy u = true ->
          exists api_url params used,
            build_query d n u w = (Ok (api_url, params, used), w)
            /\ snd (get_paper_metadata env d n u w)
               = set_api_requests (api_requests w ++ [(api_url, params)]) w).
Proof.
  intros env d n u w. split.
  - intros H. apply orb_false_iff in H as [H Hu]. apply orb_false_iff in H as [Hd Hn].
    unfold get_paper_metadata, build_query. rewrite Hd, Hn, Hu. reflexivity.
  - intros H. destruct (build_query_total d n u H) as (api_url & params & used & Hq).
    exists api_url, params, used. split; [apply Hq|].
    now apply get_paper_metadata_world with (used := used).
Qed.

Lemma resolver_sends_one_query_witness :
  exists api_url params used,
    build_query (Some "10.1000/xyz") None None world0 = (Ok (api_url, params, used), world0)
    /\ snd (get_paper_metadata env_offline (Some "10.1000/xyz") None None world0)
       = set_api_requests (api_requests world0 ++ [(api_url, params)]) world0.
Proof.
  exact (proj2 (resolver_sends_one_query env_offline (Some "10.1000/xyz") None None world0)
           eq_refl).
Defined.

(** ** The Content Fetcher: the request and its failures *)

Lemma append_empty s : s ++ "" = s.
Proof. induction s as [|c s IH]; [reflexivity|]. cbn. now rewrite IH. Qed.

Lemma append_assoc s t r : (s ++ t) ++ r = s ++ t ++ r.
Proof. induction s as [|c s IH]; [reflexivity|]. cbn. now rewrite IH. Qed.

Lemma split_first_fragment_go u frag cur :
  Py.mem "#" u = false ->
  hd "" (Py.split_go "#" 0 cur (u ++ "#" ++ frag)) = cur ++ u.
Proof.
  revert cur. induction u as [|d u IH]; intros cur H.
  - cbn. now rewrite append_empty.
  - cbn [Py.mem] in H. apply orb_false_iff in H as [Hd Hs].
    cbn [append Py.split_go Py.startswith]. rewrite Hd. cbn [andb].
    rewrite (IH _ Hs). now rewrite append_assoc.
Qed.

Lemma split_first_plain_go u cur :
  Py.mem "#" u = false -> hd "" (Py.split_go "#" 0 cur u) = cur ++ u.
Proof.
  revert cur. induction u as [|d u IH]; intros cur H.
  - cbn. now rewrite append_empty.
  - cbn [Py.mem] in H. apply orb_false_iff in H as [Hd Hs].
    cbn [append Py.split_go Py.startswith]. rewrite Hd. cbn [andb].
    rewrite (IH _ Hs). now rewrite append_assoc.
Qed.

Lemma split_first_fragment u frag :
  Py.mem "#" u = false -> Py.split_first (u ++ "#" ++ frag) "#" = u.
Proof. intros H. exact (split_first_fragment_go u frag "" H). Qed.

Lemma split_first_plain u : Py.mem "#" u = false -> Py.split_first u "#" = u.
Proof. intros H. exact (split_first_plain_go u "" H). Qed.

Lemma download_world env pdf_url_ cookies w :
  snd (download_pdf_content env pdf_url_ cookies w)
  = set_pdf_requests
      (pdf_requests w ++ [(Py.split_first pdf_url_ "#", cookie_jar_of cookies)]) w.
Proof.
  cbv [download_pdf_content try_except bind ret raise modify requests_get_stream].
  fold (cookie_jar_of cookies).
  destruct (requests_get_pdf env (Py.split_first pdf_url_ "#") (cookie_jar_of cookies))
    as [resp|msg]; [|reflexivity].
  destruct (http_error_msg (status_code resp) (reason resp) (response_url resp));
    [reflexivity|].
  repeat match goal with
         | |- context [if ?c then _ else _] => destruct c
         end; reflexivity.
Qed.

(** X8. The Content Fetcher sends exactly one request, for the URL up to
    its first [#], with the cookies of the browser when there are some and
    without cookies otherwise; nothing else in the world changes. *)
Theorem download_sends_one_request :
  forall env u cookies w,
    Py.mem "#" u = false ->
    (forall frag,
        snd (download_pdf_content env (u ++ "#" ++ frag) cookies w)
        = set_pdf_requests (pdf_requests w ++ [(u, cookie_jar_of cookies)]) w)
    /\ snd (download_pdf_content env u cookies w)
       = set_pdf_requests (pdf_requests w ++ [(u, cookie_jar_of cookies)]) w.
Proof.
  intros env u cookies w Hu. split.
  - intros frag. now rewrite download_world, split_first_fragment.
  - now rewrite download_world, split_first_plain.
Qed.

Lemma download_sends_one_request_witness :
  snd (download_pdf_content env_offline ("https://host.example/paper.pdf" ++ "#" ++ "page=2")
         (Some []) world0)
  = set_pdf_requests
      (pdf_requests world0 ++ [("https://host.example/paper.pdf", cookie_jar_of (Some []))])
      world0.
Proof.
  exact (proj1 (download_sends_one_request env_offline "https://host.example/paper.pdf"
                  (Some []) world0 eq_refl) "page=2").
Defined.

(** X9. When the request for the document fails, because it cannot be
    made or because the answer carries a status from 400 to 599, the
    Content Fetcher raises [NotFoundError] with the text [Failed to
    download PDF from], the URL without its fragment and the text of the
    failure. *)
Theorem failed_download_is_not_found :
  forall env pdf_url_ cookies w,
    (exists msg,
        requests_get_pdf env (Py.split_first pdf_url_ "#") (cookie_jar_of cookies)
        = HttpError msg)
    \/ (exists resp,
          requests_get_pdf env (Py.split_first pdf_url_ "#") (cookie_jar_of cookies)
          = HttpResponse resp
          /\ 400 <= status_code resp < 600) ->
    exists msg,
      fst (download_pdf_content env pdf_url_ cookies w)
      = Raise (Exc (mkExn NotFoundError
                      ("Failed to download PDF from " ++ Py.split_first pdf_url_ "#"
                       ++ ": " ++ msg))).
Proof.
  intros env pdf_url_ cookies w Hfail.
  cbv [download_pdf_content try_except bind ret raise modify requests_get_stream].
  fold (cookie_jar_of cookies).
  destruct Hfail as [[msg Hm] | (resp & Hr & Hcode)].
  - rewrite Hm. now exists msg.
  - rewrite Hr.
    destruct (http_error_msg_range _ (reason resp) (response_url resp) Hcode)
      as [msg Hmsg].
    rewrite Hmsg. now exists msg.
Qed.

Lemma failed_download_is_not_found_witness :
  exists msg,
    fst (download_pdf_content
           (env_serving (mkResponse 403 "Forbidden" "https://host.example/paper.pdf"
                           (Some "text/html") (Whole "<html></html>")))
           "https://host.example/paper.pdf" None world0)
    = Raise (Exc (mkExn NotFoundError
                    ("Failed to download PDF from "
                     ++ Py.split_first "https://host.example/paper.pdf" "#"
                     ++ ": " ++ msg))).
Proof.
  apply (failed_download_is_not_found
           (env_serving (mkResponse 403 "Forbidden" "https://host.example/paper.pdf"
                           (Some "text/html") (Whole "<html></html>")))
           "https://host.example/paper.pdf" None world0).
  right. eexists. split; [reflexivity|]. cbn. lia.
Defined.

Lemma download_returns_bytes :
  forall env pdf_url_ cookies w,
    (exists resp pdf_bytes,
        serves env pdf_url_ cookies resp
        /\ fst (download_pdf_content env pdf_url_ cookies w) = Ok pdf_bytes
        /\ pdf_bytes <> ""
        /\ pdf_bytes = (if recognized_type resp then body resp else peeked resp)
        /\ (forall data, sent resp = Whole data -> pdf_bytes = body resp))
    \/ is_not_found (fst (download_pdf_content env pdf_url_ cookies w)).
Proof.
  intros env pdf_url_ cookies w.
  destruct (requests_get_pdf env (Py.split_first pdf_url_ "#") (cookie_jar_of cookies))
    as [resp|msg] eqn:Hget.
  - destruct (http_error_msg (status_code resp) (reason resp) (response_url resp))
      as [msg|] eqn:Hst.
    + right.
      cbv [download_pdf_content try_except bind ret raise modify requests_get_stream].
      fold (cookie_jar_of cookies). rewrite Hget, Hst. eexists; reflexivity.
    + assert (Hs : serves env pdf_url_ cookies resp) by (split; assumption).
      rewrite (download_served env pdf_url_ cookies resp w Hs).
      destruct (recognized_type resp) eqn:Hrec.
      * destruct (Py.nonempty (body resp)) eqn:Hb; [|right; eexists; reflexivity].
        left. exists resp, (body resp).
        split; [exact Hs|]. split; [reflexivity|]. split; [|split; [now rewrite Hrec|auto]].
        intros E. rewrite E in Hb. discriminate Hb.
      * destruct (Py.startswith (first_piece 1024 resp) "%PDF-") eqn:Hp;
          [|right; eexists; reflexivity].
        left. exists resp, (peeked resp).
        split; [exact Hs|]. split; [reflexivity|]. split; [|split; [now rewrite Hrec|]].
        -- unfold peeked. intros E.
           destruct (first_piece 1024 resp); [discriminate Hp | discriminate E].
        -- intros data Hd. exact (proj2 (peeked_whole _ _ Hd)).
  - right.
    cbv [download_pdf_content try_except bind ret raise modify requests_get_stream].
    fold (cookie_jar_of cookies). rewrite Hget. eexists; reflexivity.
Qed.

(** X10. The Content Fetcher either returns bytes, which are then not
    empty, or raises [NotFoundError]; it never returns empty bytes and
    never lets another exception through.  The bytes are those of a served
    response: its body under a recognized type, and otherwise the first
    piece of the stream with what is read after it, which is the body when
    the body is sent whole. *)
Theorem download_returns_the_body_or_fails :
  forall env pdf_url_ cookies w,
    (exists resp pdf_bytes,
        serves env pdf_url_ cookies resp
        /\ fst (download_pdf_content env pdf_url_ cookies w) = Ok pdf_bytes
        /\ pdf_bytes <> ""
        /\ pdf_bytes = (if recognized_type resp then body resp else peeked resp)
        /\ (forall data, sent resp = Whole data -> pdf_bytes = body resp))
    \/ is_not_found (fst (download_pdf_content env pdf_url_ cookies w)).
Proof. exact download_returns_bytes. Qed.

(** ** The Rendered-Page Extractor: what it finds *)

(** X11. When the page of the fallback source shows that the document is
    unavailable, the extractor logs a warning and raises [NotFoundError]
    with the text [Sci-Hub does not have the document for DOI:] and the
    DOI. *)
Theorem unavailable_document_is_not_found :
  forall env p i doi_ base w,
    doi_ <> "" ->
    uc_Chrome env = Done tt ->
    driver_get env (scihub_page base doi_) = Done tt ->
    wait_unavailable_text env (scihub_page base doi_) = Done tt ->
    fst (retrieve_scihub_pdf_link_selenium env doi_ base (_log p i) w)
    = Raise (Exc (mkExn NotFoundError
                    ("Sci-Hub does not have the document for DOI: " ++ doi_)))
    /\ In ("WARNING",
           "[Selenium] Sci-Hub page indicates document not found for DOI: " ++ doi_
           ++ " (via specific text check)")
          (logged (snd (retrieve_scihub_pdf_link_selenium env doi_ base (_log p i) w))).
Proof.
  intros env p i doi_ base w Hd Hc Hg Hu.
  rewrite (retrieve_run env p i doi_ base w Hd). cbn [fst snd].
  unfold driver_is_set. rewrite Hc. cbn [when].
  assert (Hb : protected_block env doi_ base (_log p i) (announced p i doi_ base w)
               = (Raise (Exc (mkExn NotFoundError
                                ("Sci-Hub does not have the document for DOI: " ++ doi_))),
                  logged_world p i "WARNING"
                    ("[Selenium] Sci-Hub page indicates document not found for DOI: "
                     ++ doi_ ++ " (via specific text check)")
                    (set_browser
                       (mkDriver (S (sessions (browser (announced p i doi_ base w))))
                          (teardowns (browser (announced p i doi_ base w))) false)
                       (announced p i doi_ base w)))).
  { unfold protected_block, scihub_session, new_Chrome, scihub_page_steps, scihub_handlers.
    rewrite Hc, Hg, Hu. run. reflexivity. }
  rewrite Hb. cbn [fst snd]. split; [reflexivity|].
  assert (Hk : keeps (fun w' => In ("WARNING",
                        "[Selenium] Sci-Hub page indicates document not found for DOI: "
                        ++ doi_ ++ " (via specific text check)") (logged w'))
                 nothing (quit_driver env (_log p i))).
  { apply keeps_quit_driver.
    - intros s m. apply keeps_log. intros w0 H0. cbn [logged_world logged].
      apply in_or_app. now left.
    - intros w0 v H0. exact H0.
    - intros w0 v H0. exact H0. }
  apply Hk. cbn [logged_world logged]. apply in_or_app. right. now left.
Qed.

Lemma unavailable_document_is_not_found_witness :
  fst (retrieve_scihub_pdf_link_selenium env_no_document "10.1000/xyz"
         "https://sci-hub.mksa.top/" (_log None "10.1000/xyz") world0)
  = Raise (Exc (mkExn NotFoundError
                  ("Sci-Hub does not have the document for DOI: " ++ "10.1000/xyz")))
  /\ In ("WARNING",
         "[Selenium] Sci-Hub page indicates document not found for DOI: " ++ "10.1000/xyz"
         ++ " (via specific text check)")
        (logged (snd (retrieve_scihub_pdf_link_selenium env_no_document "10.1000/xyz"
                        "https://sci-hub.mksa.top/" (_log None "10.1000/xyz") world0))).
Proof.
  apply (unavailable_document_is_not_found env_no_document None "10.1000/xyz"
           "10.1000/xyz" "https://sci-hub.mksa.top/" world0);
    [discriminate | reflexivity | reflexivity | reflexivity].
Defined.

Lemma startswith_http_not_slashes s :
  Py.startswith s "http" = true -> Py.startswith s "//" = false.
Proof.
  destruct s as [|c s]; [discriminate|].
  cbn [Py.startswith]. intros H. apply andb_true_iff in H as [H _].
  apply Ascii.eqb_eq in H. subst c. reflexivity.
Qed.

Lemma link_cases env base src :
  let link := if Py.startswith src "//" then "https:" ++ src
              else if negb (Py.startswith src "http") then urljoin env base src
              else src in
  (Py.startswith src "//" = true -> link = "https:" ++ src)
  /\ (Py.startswith src "http" = true -> link = src)
  /\ (Py.startswith src "//" = false -> Py.startswith src "http" = false ->
      link = urljoin env base src).
Proof.
  cbv zeta. repeat split.
  - now intros ->.
  - intros H. now rewrite (startswith_http_not_slashes _ H), H.
  - now intros -> ->.
Qed.

(** X12. When the page shows the element [#pdf] with a [src], the
    extractor returns that link and the cookies of the session.  A [src]
    that starts with two slashes gets the scheme [https:], a [src] that
    starts with [http] is returned as it is, and any other [src] is joined
    to the base URL of the source. *)
Theorem extractor_returns_the_frame :
  forall env p i doi_ base w e el src cs,
    doi_ <> "" ->
    uc_Chrome env = Done tt ->
    driver_get env (scihub_page base doi_) = Done tt ->
    wait_unavailable_text env (scihub_page base doi_) = Fault e ->
    isinstance e WebDriverException = true ->
    wait_pdf_element env (scihub_page base doi_) = Done el ->
    get_attribute_src el = Done (Some src) ->
    src <> "" ->
    driver_get_cookies env (scihub_page base doi_) = Done cs ->
    exists link,
      fst (retrieve_scihub_pdf_link_selenium env doi_ base (_log p i) w)
      = Ok (Some link, Some cs)
      /\ (Py.startswith src "//" = true -> link = "https:" ++ src)
      /\ (Py.startswith src "http" = true -> link = src)
      /\ (Py.startswith src "//" = false -> Py.startswith src "http" = false ->
          link = urljoin env base src).
Proof.
  intros env p i doi_ base w e el src cs Hd Hc Hg Hu He Hel Hsrc Hne Hck.
  rewrite (retrieve_run env p i doi_ base w Hd). cbn [fst].
  eexists. split; [|apply (link_cases env base src)].
  unfold protected_block, scihub_session, new_Chrome, scihub_page_steps, scihub_handlers.
  rewrite Hc, Hg, Hu. run. rewrite He.
  assert (Ht : Py.truthy (Some src) = true) by exact (nonempty_true _ Hne).
  change (value (Some src)) with src.
  destruct (isinstance e TimeoutException); run;
    repeat (first [ rewrite Hel | rewrite Hsrc | rewrite Ht | rewrite Hck
                  | progress change (value (Some src)) with src ]; run);
    destruct (negb (List.length cs =? 0)%nat); run; reflexivity.
Qed.

Lemma extractor_returns_the_frame_witness :
  exists link,
    fst (retrieve_scihub_pdf_link_selenium env_stuck_browser "10.1000/xyz"
           "https://sci-hub.mksa.top/" (_log None "10.1000/xyz") world0)
    = Ok (Some link, Some [])
    /\ (Py.startswith "//cdn.example/paper.pdf" "//" = true
        -> link = "https:" ++ "//cdn.example/paper.pdf")
    /\ (Py.startswith "//cdn.example/paper.pdf" "http" = true
        -> link = "//cdn.example/paper.pdf")
    /\ (Py.startswith "//cdn.example/paper.pdf" "//" = false ->
        Py.startswith "//cdn.example/paper.pdf" "http" = false ->
        link = urljoin env_stuck_browser "https://sci-hub.mksa.top/"
                 "//cdn.example/paper.pdf").
Proof.
  apply (extractor_returns_the_frame env_stuck_browser None "10.1000/xyz" "10.1000/xyz"
           "https://sci-hub.mksa.top/" world0 (mkExn TimeoutException "timeout")
           (mkElement (Done (Some "//cdn.example/paper.pdf")))
           "//cdn.example/paper.pdf" []);
    first [discriminate | reflexivity].
Defined.

Lemma contains_nonempty s p : p <> "" -> Py.contains s p = true -> s <> "".
Proof.
  intros Hp H E. subst s. destruct p; [congruence|]. discriminate H.
Qed.

Lemma lower_nonempty s : Py.lower s <> "" -> s <> "".
Proof. intros H E. subst s. now apply H. Qed.

(** The scan stops at the first frame whose [src] names a PDF. *)
Lemma scan_iframes_first p i before f s after :
  forallb other_frame before = true ->
  get_attribute_src f = Done (Some s) ->
  Py.contains (Py.lower s) ".pdf" = true ->
  forall w, exists w',
    scan_iframes (_log p i) (before ++ f :: after)%list None w = (Ok (Some s), w').
Proof.
  intros Hb Hf Hs.
  assert (Hne : s <> "").
  { apply lower_nonempty. apply (contains_nonempty _ ".pdf"); [discriminate|exact Hs]. }
  induction before as [|b before IH]; intros w.
  - cbn [app scan_iframes]. run. rewrite Hf. run.
    assert (Ht : Py.truthy (Some s) = true) by exact (nonempty_true _ Hne).
    rewrite Ht. change (value (Some s)) with s. rewrite Hs. run.
    eexists; reflexivity.
  - cbn [forallb] in Hb. apply andb_true_iff in Hb as [Hb1 Hb2].
    cbn [app scan_iframes]. run. unfold other_frame in Hb1.
    destruct (get_attribute_src b) as [o|e]; [|discriminate Hb1].
    apply negb_true_iff in Hb1. rewrite Hb1.
    destruct (Py.truthy o); run; apply (IH Hb2).
Qed.

(** X13. When the page has no element [#pdf] within the wait, the
    extractor takes the first frame of the page whose [src], in lower
    case, contains [.pdf]: the frames before it are passed over, those
    after it are not looked at, and the link is made absolute as in X12. *)
Theorem extractor_scans_the_frames :
  forall env p i doi_ base w e e' before f after src cs,
    doi_ <> "" ->
    uc_Chrome env = Done tt ->
    driver_get env (scihub_page base doi_) = Done tt ->
    wait_unavailable_text env (scihub_page base doi_) = Fault e ->
    isinstance e WebDriverException = true ->
    wait_pdf_element env (scihub_page base doi_) = Fault e' ->
    isinstance e' TimeoutException = true ->
    find_iframes env (scihub_page base doi_) = Done (before ++ f :: after)%list ->
    forallb other_frame before = true ->
    get_attribute_src f = Done (Some src) ->
    Py.contains (Py.lower src) ".pdf" = true ->
    driver_get_cookies env (scihub_page base doi_) = Done cs ->
    exists link,
      fst (retrieve_scihub_pdf_link_selenium env doi_ base (_log p i) w)
      = Ok (Some link, Some cs)
      /\ (Py.startswith src "//" = true -> link = "https:" ++ src)
      /\ (Py.startswith src "http" = true -> link = src)
      /\ (Py.startswith src "//" = false -> Py.startswith src "http" = false ->
          link = urljoin env base src).
Proof.
  intros env p i doi_ base w e e' before f after src cs
         Hd Hc Hg Hu He Hel He' Hfr Hb Hf Hs Hck.
  assert (Hne : src <> "").
  { apply lower_nonempty. apply (contains_nonempty _ ".pdf"); [discriminate|exact Hs]. }
  assert (Ht : Py.truthy (Some src) = true) by exact (nonempty_true _ Hne).
  assert (Hlen : (List.length (before ++ f :: after)%list =? 0)%nat = false)
    by (destruct before; reflexivity).
  rewrite (retrieve_run env p i doi_ base w Hd). cbn [fst].
  eexists. split; [|apply (link_cases env base src)].
  unfold protected_block, scihub_session, new_Chrome, scihub_page_steps, scihub_handlers.
  rewrite Hc, Hg, Hu. run. rewrite He.
  destruct (isinstance e TimeoutException); run;
    rewrite Hel; run; rewrite He'; run; rewrite Hfr; run; rewrite Hlen; run;
    match goal with
    | |- context [scan_iframes (_log p i) ?l None ?w0] =>
        destruct (scan_iframes_first p i before f src after Hb Hf Hs w0) as [w1 Hscan];
        rewrite Hscan
    end; run;
    repeat (first [ rewrite Ht | rewrite Hck
                  | progress change (value (Some src)) with src ]; run);
    destruct (negb (List.length cs =? 0)%nat); run; reflexivity.
Qed.

Lemma extractor_scans_the_frames_witness :
  exists link,
    fst (retrieve_scihub_pdf_link_selenium env_framed_page "10.1000/xyz"
           "https://sci-hub.mksa.top/" (_log None "10.1000/xyz") world0)
    = Ok (Some link, Some [])
    /\ (Py.startswith "/downloads/Paper.PDF" "//" = true
        -> link = "https:" ++ "/downloads/Paper.PDF")
    /\ (Py.startswith "/downloads/Paper.PDF" "http" = true
        -> link = "/downloads/Paper.PDF")
    /\ (Py.startswith "/downloads/Paper.PDF" "//" = false ->
        Py.startswith "/downloads/Paper.PDF" "http" = false ->
        link = urljoin env_framed_page "https://sci-hub.mksa.top/" "/downloads/Paper.PDF").
Proof.
  apply (extractor_scans_the_frames env_framed_page None "10.1000/xyz" "10.1000/xyz"
           "https://sci-hub.mksa.top/" world0
           (mkExn TimeoutException "timeout") (mkExn TimeoutException "timeout")
           [mkElement (Done None); mkElement (Done (Some "https://ads.example/banner"))]
           (mkElement (Done (Some "/downloads/Paper.PDF")))
           [mkElement (Done (Some "https://other.example/second.pdf"))]
           "/downloads/Paper.PDF" []);
    first [discriminate | reflexivity].
Defined.

(** ** The Retrieval Orchestrator: a run from its beginning to its end *)

Lemma get_paper_metadata_resolved env d n u api_url metadata :
  resolves env d n u api_url metadata ->
  well_typed_record metadata = true ->
  exists params, forall w,
    get_paper_metadata env d n u w
    = (Ok (record_doi metadata, record_title metadata,
           corrected_url (selected_url metadata), Some api_url),
       set_api_requests (api_requests w ++ [(api_url, params)]) w).
Proof.
  intros Hres Ht. pose proof Hres as (params & used & r & answer & Hq & _).
  exists params. intros w.
  rewrite (surjective_pairing (get_paper_metadata env d n u w)).
  rewrite (get_paper_metadata_record env d n u api_url metadata w Hres Ht).
  now rewrite (get_paper_metadata_world env d n u api_url params used w Hq).
Qed.

Lemma accepted_delivered resp : accepted resp = true -> delivered resp <> "".
Proof.
  unfold accepted, delivered. destruct (recognized_type resp); intros H E.
  - rewrite E in H. discriminate H.
  - unfold peeked in E.
    destruct (first_piece 1024 resp); [discriminate H | discriminate E].
Qed.

Lemma download_accepted env pdf_url_ cookies resp w :
  serves env pdf_url_ cookies resp ->
  accepted resp = true ->
  download_pdf_content env pdf_url_ cookies w
  = (Ok (delivered resp),
     set_pdf_requests
       (pdf_requests w ++ [(Py.split_first pdf_url_ "#", cookie_jar_of cookies)]) w).
Proof.
  intros Hs Hok.
  rewrite (surjective_pairing (download_pdf_content env pdf_url_ cookies w)).
  rewrite download_world, (download_served env pdf_url_ cookies resp w Hs).
  revert Hok. unfold accepted, delivered.
  destruct (recognized_type resp); now intros ->.
Qed.

(** ** The fields of the summary through a run *)

Lemma logged_summary_fields s m sd :
  apart_from_status (logged_summary s m sd) = apart_from_status sd.
Proof.
  unfold logged_summary. destruct (reported s); [|reflexivity].
  destruct (negb (status sd =? "SUCCESS")); reflexivity.
Qed.

Lemma apart_from_status_all sd sd' :
  apart_from_status sd' = apart_from_status sd ->
  apart_from_lookup sd' = apart_from_lookup sd
  /\ apart_from_fallback sd' = apart_from_fallback sd
  /\ apart_from_file sd' = apart_from_file sd.
Proof.
  unfold apart_from_status, apart_from_lookup, apart_from_fallback, apart_from_file.
  intros [= -> -> -> -> -> -> -> ->]. repeat split.
Qed.

Lemma logged_summary_field {A} (f : summary -> A) s m sd :
  (forall v sd0, f (set_status v sd0) = f sd0) ->
  (forall v sd0, f (set_message v sd0) = f sd0) ->
  f (logged_summary s m sd) = f sd.
Proof.
  intros Hs Hm. unfold logged_summary. destruct (reported s); [|reflexivity].
  rewrite Hm. destruct (negb (status sd =? "SUCCESS")); [apply Hs | reflexivity].
Qed.

Lemma status_after_reported s m sd :
  reported s = true -> s <> "SUCCESS" -> status sd <> "SUCCESS" ->
  status (logged_summary s m sd) <> "SUCCESS".
Proof.
  intros Hr Hs Hn. now rewrite (reported_status_after_log s m sd Hr Hn).
Qed.

Lemma apart_from_file_set_status v sd : apart_from_file (set_status v sd) = apart_from_file sd.
Proof. reflexivity. Qed.
Lemma apart_from_file_set_message v sd : apart_from_file (set_message v sd) = apart_from_file sd.
Proof. reflexivity. Qed.
Lemma apart_from_file_set_local_filepath v sd : apart_from_file (set_local_filepath v sd) = apart_from_file sd.
Proof. reflexivity. Qed.
Lemma apart_from_fallback_set_status v sd : apart_from_fallback (set_status v sd) = apart_from_fallback sd.
Proof. reflexivity. Qed.
Lemma apart_from_fallback_set_message v sd : apart_from_fallback (set_message v sd) = apart_from_fallback sd.
Proof. reflexivity. Qed.
Lemma apart_from_fallback_set_scihub_page_url_tried v sd : apart_from_fallback (set_scihub_page_url_tried v sd) = apart_from_fallback sd.
Proof. reflexivity. Qed.
Lemma apart_from_lookup_set_status v sd : apart_from_lookup (set_status v sd) = apart_from_lookup sd.
Proof. reflexivity. Qed.
Lemma apart_from_lookup_set_message v sd : apart_from_lookup (set_message v sd) = apart_from_lookup sd.
Proof. reflexivity. Qed.
Lemma apart_from_lookup_set_resolved_doi v sd : apart_from_lookup (set_resolved_doi v sd) = apart_from_lookup sd.
Proof. reflexivity. Qed.
Lemma apart_from_lookup_set_paper_title v sd : apart_from_lookup (set_paper_title v sd) = apart_from_lookup sd.
Proof. reflexivity. Qed.
Lemma apart_from_lookup_set_openalex_api_url_queried v sd : apart_from_lookup (set_openalex_api_url_queried v sd) = apart_from_lookup sd.
Proof. reflexivity. Qed.
Lemma apart_from_lookup_set_direct_oa_pdf_url_tried v sd : apart_from_lookup (set_direct_oa_pdf_url_tried v sd) = apart_from_lookup sd.
Proof. reflexivity. Qed.

Lemma apart_from_file_logged s m sd :
  apart_from_file (logged_summary s m sd) = apart_from_file sd.
Proof. now apply apart_from_status_all, logged_summary_fields. Qed.

Lemma apart_from_fallback_logged s m sd :
  apart_from_fallback (logged_summary s m sd) = apart_from_fallback sd.
Proof. now apply apart_from_status_all, logged_summary_fields. Qed.

Lemma apart_from_lookup_logged s m sd :
  apart_from_lookup (logged_summary s m sd) = apart_from_lookup sd.
Proof. now apply apart_from_status_all, logged_summary_fields. Qed.

Create Rewrite HintDb summary_fields.
#[export] Hint Rewrite
  apart_from_file_set_status apart_from_file_set_message
  apart_from_file_set_local_filepath apart_from_fallback_set_status
  apart_from_fallback_set_message
  apart_from_fallback_set_scihub_page_url_tried
  apart_from_lookup_set_status apart_from_lookup_set_message
  apart_from_lookup_set_resolved_doi apart_from_lookup_set_paper_title
  apart_from_lookup_set_openalex_api_url_queried
  apart_from_lookup_set_direct_oa_pdf_url_tried
  apart_from_file_logged apart_from_fallback_logged apart_from_lookup_logged
  : summary_fields.

(** Reading the summary through the assignments and the log. *)
Ltac fields :=
  cbn [summary_data set_summary_data set_fs set_pdf_requests set_api_requests
       set_browser logged_world];
  autorewrite with summary_fields;
  repeat first
    [ rewrite (logged_summary_field local_filepath) by (intros; reflexivity)
    | rewrite (logged_summary_field paper_title) by (intros; reflexivity)
    | rewrite (logged_summary_field resolved_doi) by (intros; reflexivity)
    | rewrite (logged_summary_field identifier_input) by (intros; reflexivity)
    | rewrite (logged_summary_field scihub_page_url_tried) by (intros; reflexivity)
    | rewrite (logged_summary_field final_pdf_source_url) by (intros; reflexivity)
    | progress cbn [identifier_input resolved_doi paper_title status message
                    openalex_api_url_queried direct_oa_pdf_url_tried
                    scihub_page_url_tried final_pdf_source_url local_filepath
                    set_resolved_doi set_paper_title set_status set_message
                    set_openalex_api_url_queried set_direct_oa_pdf_url_tried
                    set_scihub_page_url_tried set_final_pdf_source_url
                    set_local_filepath] ].

Lemma fs_logged_world p i s m w ev :
  In ev (fs w) -> In ev (fs (logged_world p i s m w)).
Proof.
  intros H. cbn [logged_world fs]. destruct (Py.truthy p); [|exact H].
  apply in_or_app. now left.
Qed.

Ltac in_fs :=
  repeat first
    [ apply fs_logged_world
    | progress cbn [fs set_fs set_summary_data]
    | match goal with
      | |- In _ (fs (if ?c then _ else _)) => destruct c
      | |- In _ (if ?c then _ else _) => destruct c
      end
    | solve [apply in_or_app; right; left; reflexivity]
    | apply in_or_app; left
    | assumption ].

Lemma download_result env pdf_url_ cookies w :
  match fst (download_pdf_content env pdf_url_ cookies w) with
  | Ok b => b <> ""
  | Raise x => raised_class NotFoundError x
  end
  /\ snd (download_pdf_content env pdf_url_ cookies w)
     = set_pdf_requests
         (pdf_requests w ++ [(Py.split_first pdf_url_ "#", cookie_jar_of cookies)]) w.
Proof.
  split; [|apply download_world].
  pose proof (keeps_download_pdf_content env always (fun _ _ _ => I)
                pdf_url_ cookies w I) as [_ Hr].
  destruct (download_returns_bytes env pdf_url_ cookies w)
    as [(resp & b & _ & -> & Hb & _) | [msg ->]]; [exact Hb | eexists; reflexivity].
Qed.

Lemma resolver_result env d n u w :
  match fst (get_paper_metadata env d n u w) with
  | Ok _ => True
  | Raise x => resolver_raises x
  end
  /\ summary_data (snd (get_paper_metadata env d n u w)) = summary_data w.
Proof.
  split; [|apply get_paper_metadata_frame].
  pose proof (keeps_get_paper_metadata env always (fun _ _ _ => I) d n u w I) as [_ Hr].
  destruct (fst (get_paper_metadata env d n u w)); [exact I | now apply Hr].
Qed.

Section Outcome.

Variable env : Env.
Variable a : downloader_args.
Variable id : string.

(** What stage 3 leaves: a saved file under [SUCCESS], or no file path and
    another status. *)
Lemma stage3_outcome l w w3 :
  stage3 env a id l w = (Ok tt, w3) ->
  local_filepath (summary_data w) = None ->
  (Py.truthy (pdf_content l) = false -> status (summary_data w) <> "SUCCESS") ->
  apart_from_file (summary_data w3) = apart_from_file (summary_data w)
  /\ outside_summary w3 = outside_summary w
  /\ ((status (summary_data w3) = "SUCCESS"
       /\ Py.truthy (pdf_content l) = true
       /\ exists dir,
            (dir = output_dir a \/ dir = ".")
            /\ local_filepath (summary_data w3)
               = Some (os_path_join env dir (file_name (title l)))
            /\ write_file env (os_path_join env dir (file_name (title l)))
                 (value (pdf_content l)) = None
            /\ In (FileWrite (os_path_join env dir (file_name (title l)))
                     (value (pdf_content l)))
                  (fs w3))
      \/ (status (summary_data w3) <> "SUCCESS"
          /\ local_filepath (summary_data w3) = None)).
Proof.
  intros H Hlf Hst. revert H. unfold stage3.
  destruct (Py.truthy (pdf_content l)) eqn:Hpc.
  - run_all; try discriminate; intros [= <-];
      (split; [fields; reflexivity|]);
      (split; [reflexivity|]);
      first [ solve [right; split; [fields; discriminate | fields; reflexivity]]
            | left; split; [fields; reflexivity|]; split; [reflexivity|];
              first [ exists (output_dir a); split; [now left|];
                      split; [fields; reflexivity|]
                    | exists "."; split; [now right|];
                      split; [fields; reflexivity|] ];
              split; [assumption | in_fs] ].
  - specialize (Hst eq_refl). run_all; try discriminate; intros [= <-];
      (split; [fields; reflexivity|]);
      (split; [reflexivity|]);
      right; (split; [|fields; exact Hlf]); run_simpl;
      (apply status_after_reported;
       [reflexivity | discriminate
       | first [ exact Hst | cbn [status set_status]; discriminate ] ]).
Qed.

(** What stage 1 leaves when it returns. *)
Lemma stage1_outcome w f w1 :
  stage1 env a id w = (Ok f, w1) ->
  apart_from_lookup (summary_data w1) = apart_from_lookup (summary_data w)
  /\ match f with
     | Continue l =>
         paper_title (summary_data w1) = title l
         /\ resolved_doi (summary_data w1) = final_doi l
         /\ (if Py.truthy (pdf_content l)
             then truth (actual_download_source_url l) = true
             else status (summary_data w1) <> "SUCCESS")
     | Return sd => sd = summary_data w1
     end.
Proof.
  unfold stage1. run.
  match goal with
  | |- context [get_paper_metadata env ?d ?n ?u ?w0] =>
      pose proof (resolver_result env d n u w0) as [Hr Hsd];
      destruct (get_paper_metadata env d n u w0) as [[[[[fd pt] url] q]|x] w2]
  end; cbn [fst snd] in Hr, Hsd; run.
  - destruct (truth url) eqn:Hurl; run.
    + match goal with
      | |- context [download_pdf_content_of env ?u ?w0] =>
          destruct (download_of_cases env u w0) as [(s & -> & ->) | (msg & ->)]
      end; [|run; discriminate].
      match goal with
      | |- context [download_pdf_content env ?u ?c ?w0] =>
          pose proof (download_result env u c w0) as [Hd Hw];
          destruct (download_pdf_content env u c w0) as [[b|x] w3]
      end; cbn [fst snd] in Hd, Hw; subst w3; run.
      * intros [= <- <-].
        split; [fields; now rewrite Hsd|].
        cbn [title final_doi pdf_content actual_download_source_url].
        change (Py.truthy (Some b)) with (Py.nonempty b).
        rewrite (nonempty_true _ Hd). fields. auto.
      * destruct Hd as [msg ->]. run. intros [= <- <-].
        split; [fields; now rewrite Hsd|].
        cbn [title final_doi pdf_content actual_download_source_url Py.truthy].
        fields. repeat split; discriminate.
    + intros [= <- <-]. split; [fields; now rewrite Hsd|].
      cbn [title final_doi pdf_content actual_download_source_url Py.truthy].
      fields. repeat split; discriminate.
  - destruct Hr as [[[msg ->] | [[msg ->] | [msg ->]]] | (c & msg & -> & Hc)]; run.
    + destruct (Py.truthy (identifier_doi a)); run.
      * intros [= <- <-]. split; [fields; now rewrite Hsd|].
        cbn [title final_doi pdf_content actual_download_source_url Py.truthy].
        fields. repeat split; discriminate.
      * destruct (is_batch_mode a); run; [|discriminate].
        intros [= <- <-]. split; [fields; now rewrite Hsd | reflexivity].
    + destruct (is_batch_mode a); run; [|discriminate].
      intros [= <- <-]. split; [fields; now rewrite Hsd | reflexivity].
    + destruct (is_batch_mode a); run; [|discriminate].
      intros [= <- <-]. split; [fields; now rewrite Hsd | reflexivity].
    + destruct c; try discriminate Hc; run; discriminate.
Qed.

(** What the search for the link leaves. *)
Lemma locate_result d w :
  match fst (locate_scihub_pdf env a id d w) with
  | Ok _ => True
  | Raise x => extractor_error x
  end
  /\ apart_from_status (summary_data (snd (locate_scihub_pdf env a id d w)))
     = apart_from_status (summary_data w).
Proof.
  pose proof (keeps_locate_scihub_pdf env
                (fun w' => apart_from_status (summary_data w')
                           = apart_from_status (summary_data w)) a id) as H.
  destruct (H (fun p i s m w0 H0 => eq_trans (logged_summary_fields s m _) H0)
              (fun w0 v H0 => H0) (fun w0 v H0 => H0) d w eq_refl) as [Hi Hr].
  split; [|exact Hi].
  destruct (fst (locate_scihub_pdf env a id d w)); [exact I | now apply Hr].
Qed.

(** What stage 2 leaves: it returns, with a document and its source, or
    without a document and with another status than [SUCCESS]. *)
Lemma stage2_outcome l w :
  (if Py.truthy (pdf_content l)
   then truth (actual_download_source_url l) = true
   else status (summary_data w) <> "SUCCESS") ->
  exists l2 w2,
    stage2 env a id l w = (Ok l2, w2)
    /\ apart_from_fallback (summary_data w2) = apart_from_fallback (summary_data w)
    /\ title l2 = title l
    /\ (if Py.truthy (pdf_content l2)
        then truth (actual_download_source_url l2) = true
        else status (summary_data w2) <> "SUCCESS").
Proof.
  intros Hpre. unfold stage2.
  destruct (Py.truthy (pdf_content l)) eqn:Hpc; cbn [negb andb].
  2:{ destruct (truth (final_doi l)) eqn:Hfd; cbn [negb].
      2:{ run. destruct (negb (existsb _ _)); run;
            (do 2 eexists; split; [reflexivity|]);
            (split; [fields; reflexivity|]); (split; [reflexivity|]);
            rewrite Hpc; run_simpl; try discriminate.
          apply status_after_reported; [reflexivity | discriminate | exact Hpre]. }
      unfold scihub_fallback, scihub_attempt. run.
      match goal with
      | |- context [locate_scihub_pdf env a id ?d ?w0] =>
          pose proof (locate_result d w0) as [Hr Hfr];
          destruct (locate_scihub_pdf env a id d w0) as [[[url cookies]|x] w1]
      end; cbn [fst snd] in Hr, Hfr;
        apply apart_from_status_all in Hfr as (_ & Hfr & _);
        revert Hfr; fields; intros Hfr.
      - unfold use_scihub_link. destruct (Py.truthy url) eqn:Hurl; run.
        + match goal with
          | |- context [download_pdf_content env ?u ?c ?w0] =>
              pose proof (download_result env u c w0) as [Hd Hw];
              destruct (download_pdf_content env u c w0) as [[b|x] w3]
          end; cbn [fst snd] in Hd, Hw; subst w3; run.
          * do 2 eexists; split; [reflexivity|].
            split; [fields; exact Hfr|]. split; [reflexivity|].
            cbn [pdf_content actual_download_source_url].
            change (Py.truthy (Some b)) with (Py.nonempty b).
            rewrite (nonempty_true _ Hd).
            exact (proj2 (of_optional_truthy url Hurl)).
          * destruct Hd as [msg ->]. unfold scihub_failure. run.
            destruct (Py.contains msg "Sci-Hub does not have the document"); run;
              (do 2 eexists; split; [reflexivity|]);
              (split; [fields; exact Hfr|]); (split; [reflexivity|]);
              rewrite Hpc; run_simpl;
              (apply status_after_reported; [reflexivity | discriminate | discriminate]).
        + destruct (negb (_ =? "FAILURE_SCIHUB_NOT_FOUND")) eqn:Hnf; run;
            (do 2 eexists; split; [reflexivity|]);
            (split; [fields; exact Hfr|]); (split; [reflexivity|]);
            rewrite Hpc; run_simpl; [discriminate|].
          apply negb_false_iff, String.eqb_eq in Hnf. rewrite Hnf. discriminate.
      - unfold scihub_failure.
        destruct Hr as [[msg ->] | [msg ->]]; run.
        + destruct (Py.contains msg "Sci-Hub does not have the document"); run;
            (do 2 eexists; split; [reflexivity|]);
            (split; [fields; exact Hfr|]); (split; [reflexivity|]);
            rewrite Hpc; run_simpl;
            (apply status_after_reported; [reflexivity | discriminate | discriminate]).
        + do 2 eexists; split; [reflexivity|].
          split; [fields; exact Hfr|]. split; [reflexivity|].
          rewrite Hpc. run_simpl. discriminate. }
  run. do 2 eexists; split; [reflexivity|].
  split; [reflexivity|]. split; [reflexivity|]. now rewrite Hpc.
Qed.

Lemma report_frame w :
  exists w',
    report a id w = (Ok tt, w')
    /\ summary_data w' = summary_data w
    /\ outside_summary w' = outside_summary w
    /\ forall ev, In ev (fs w) -> In ev (fs w').
Proof.
  unfold report. run_all; eexists; (split; [reflexivity|]); (split; [reflexivity|]);
    (split; [reflexivity|]); intros ev Hev; first [exact Hev | in_fs].
Qed.

(** Stage 1 when the record has a candidate and its host serves it. *)
Lemma stage1_direct w api_url metadata url resp :
  resolves env (identifier_doi a) (identifier_name a) (identifier_url a)
    api_url metadata ->
  well_typed_record metadata = true ->
  corrected_url (selected_url metadata) = JStr url ->
  url <> "" ->
  serves env url None resp ->
  accepted resp = true ->
  exists w1,
    stage1 env a id w
    = (Ok (Continue (mkLocals (record_doi metadata) (record_title metadata)
                       (Some (delivered resp)) (JStr url))), w1)
    /\ outside_summary w1
       = ((pdf_requests w ++ [(Py.split_first url "#", None)])%list, browser w, calls w).
Proof.
  intros Hres Hty Hurl Hne Hs Hok.
  destruct (get_paper_metadata_resolved env _ _ _ api_url metadata Hres Hty)
    as [params Hmeta].
  assert (Ht : truth (JStr url) = true) by exact (nonempty_true _ Hne).
  unfold stage1. run. rewrite Hmeta. run. rewrite Hurl, Ht. run.
  cbn [download_pdf_content_of format_value].
  rewrite (download_accepted env url None resp _ Hs Hok). run.
  eexists. split; reflexivity.
Qed.

(** Stage 3 when the directory is there and the file can be written. *)
Lemma stage3_saves l w content :
  pdf_content l = Some content ->
  content <> "" ->
  str_or_false (title l) = true ->
  os_path_exists env (output_dir a) = true ->
  write_file env (os_path_join env (output_dir a) (file_name (title l))) content
  = None ->
  exists w3,
    stage3 env a id l w = (Ok tt, w3)
    /\ status (summary_data w3) = "SUCCESS"
    /\ local_filepath (summary_data w3)
       = Some (os_path_join env (output_dir a) (file_name (title l)))
    /\ apart_from_file (summary_data w3) = apart_from_file (summary_data w)
    /\ outside_summary w3 = outside_summary w
    /\ In (FileWrite (os_path_join env (output_dir a) (file_name (title l)))
             content) (fs w3).
Proof.
  intros Hpc Hne Hti Hex Hwr. unfold stage3. rewrite Hpc.
  change (Py.truthy (Some content)) with (Py.nonempty content).
  rewrite (nonempty_true _ Hne), Hex. run.
  destruct (sanitize_cases (title l) w) as [-> | (msg & _ & Hf)]; [|congruence].
  run. change (value (Some content)) with content. rewrite Hwr. run.
  destruct (auto_open_pdf a); run;
    try destruct (os_path_exists env (os_path_join env _ _)); run;
    (eexists; split; [reflexivity|]);
    (split; [reflexivity|]); (split; [fields; reflexivity|]);
    (split; [fields; reflexivity|]); (split; [reflexivity|]); in_fs.
Qed.

Lemma truthy_some o : Py.truthy o = true -> exists c, o = Some c /\ c <> "".
Proof.
  destruct o as [c|]; [|discriminate]. intros H. exists c. split; [reflexivity|].
  intros E. subst c. discriminate H.
Qed.

(** What [finish] returns: the summary of a saved file, or a summary
    without a file path. *)
Lemma finish_outcome l w sd w' :
  finish env a id l w = (Ok sd, w') ->
  local_filepath (summary_data w) = None ->
  paper_title (summary_data w) = title l ->
  (if Py.truthy (pdf_content l)
   then truth (actual_download_source_url l) = true
   else status (summary_data w) <> "SUCCESS") ->
  identifier_input sd = identifier_input (summary_data w)
  /\ (status sd = "SUCCESS" ->
        exists dir content,
          (dir = output_dir a \/ dir = ".")
          /\ content <> ""
          /\ local_filepath sd
             = Some (os_path_join env dir (file_name (paper_title sd)))
          /\ write_file env (os_path_join env dir (file_name (paper_title sd)))
               content = None
          /\ In (FileWrite (os_path_join env dir (file_name (paper_title sd)))
                   content) (fs w')
          /\ truth (final_pdf_source_url sd) = true)
  /\ (status sd <> "SUCCESS" -> local_filepath sd = None).
Proof.
  intros H Hlf Hpt Hpre. revert H. unfold finish. unfold bind at 1.
  destruct (stage2_outcome l w Hpre) as (l2 & w2 & H2 & Hfb & Ht2 & Hpost). rewrite H2.
  unfold bind at 1. unfold set_sd, modify. unfold bind at 1.
  set (w2' := set_summary_data
                (set_final_pdf_source_url (actual_download_source_url l2)
                   (summary_data w2)) w2).
  unfold apart_from_fallback in Hfb.
  injection Hfb as Hid Hrd Hti Hoa Hdu Hfs Hlp.
  pose proof (stage3_outcome l2 w2') as H3.
  destruct (stage3 env a id l2 w2') as [[[]|r] w3]; [|discriminate].
  destruct (H3 w3 eq_refl) as (Hff & _ & Hcase).
  { subst w2'. fields. congruence. }
  { intros Hf. rewrite Hf in Hpost. subst w2'. fields. exact Hpost. }
  unfold apart_from_file in Hff. subst w2'. revert Hff. fields. intros Hff.
  injection Hff as Hid3 Hrd3 Hti3 Hoa3 Hdu3 Hsp3 Hfs3.
  unfold bind at 1.
  destruct (report_frame w3) as (w4 & Hr & Hsd4 & _ & Hfs4). rewrite Hr.
  unfold gets. intros [= <- <-]. rewrite Hsd4.
  split; [congruence|]. split.
  - intros Hs. destruct Hcase as [(_ & Hpc & dir & Hdir & Hpath & Hwr & Hin) | [Hn _]];
      [|contradiction].
    destruct (truthy_some _ Hpc) as (c & Hc & Hne).
    rewrite Hpc in Hpost.
    assert (Htitle : paper_title (summary_data w3) = title l2) by congruence.
    exists dir, c. rewrite Htitle. rewrite Hc in Hwr, Hin. cbn [value] in Hwr, Hin.
    repeat split; auto. congruence.
  - intros Hs. destruct Hcase as [(Hs3 & _) | [_ Hn]]; [contradiction | exact Hn].
Qed.

End Outcome.

(** X15. In a summary that the orchestrator returns, [identifier_input]
    is the identifier the call was given, and a file path is recorded
    exactly when the status is [SUCCESS]: under [SUCCESS] the path is the
    output directory (or the current directory, when the output directory
    could not be made) joined with the file name made of the title, a
    non-empty document was written there, and the source of the document
    is recorded; under any other status there is no file path. *)
Theorem returned_summary_is_consistent :
  forall env a w sd w',
    doi_to_pdf_downloader env a w = (Ok sd, w') ->
    identifier_input sd = input_identifier a
    /\ (status sd = "SUCCESS" ->
          exists dir content,
            (dir = output_dir a \/ dir = ".")
            /\ content <> ""
            /\ local_filepath sd
               = Some (os_path_join env dir (file_name (paper_title sd)))
            /\ write_file env (os_path_join env dir (file_name (paper_title sd)))
                 content = None
            /\ In (FileWrite (os_path_join env dir (file_name (paper_title sd)))
                     content) (fs w')
            /\ truth (final_pdf_source_url sd) = true)
    /\ (status sd <> "SUCCESS" -> local_filepath sd = None).
Proof.
  intros env a w sd w'. rewrite downloader_run. unfold bind at 1.
  pose proof (stage1_outcome env a (input_identifier a) (entered a w)) as H1.
  pose proof (stage1_return env a (input_identifier a) (entered a w)) as Hret.
  destruct (stage1 env a (input_identifier a) (entered a w)) as [[[l|sd1]|r] w1];
    [| |discriminate].
  - destruct (H1 _ _ eq_refl) as (Hal & Hpt & _ & Hpre).
    unfold apart_from_lookup in Hal. injection Hal as Hid Hsp Hfs Hlf.
    intros H.
    destruct (finish_outcome env a _ l w1 sd w' H Hlf Hpt Hpre) as (Hi & Hok & Hno).
    split; [rewrite Hi; exact Hid|]. split; assumption.
  - destruct (H1 _ _ eq_refl) as (Hal & Hsd).
    destruct (Hret _ _ eq_refl) as (_ & Hst & _).
    unfold apart_from_lookup in Hal. injection Hal as Hid Hsp Hfs Hlf.
    intros [= <- <-]. subst sd1.
    split; [exact Hid|]. split.
    + intros Hs. rewrite Hs in Hst. cbn in Hst.
      destruct Hst as [E|[E|[]]]; discriminate E.
    + intros _. exact Hlf.
Qed.

Lemma returned_summary_is_consistent_witness :
  identifier_input
    (returned (doi_to_pdf_downloader env_open_access (batch_doi "10.1000/xyz1") world0))
  = input_identifier (batch_doi "10.1000/xyz1").
Proof.
  assert (H : doi_to_pdf_downloader env_open_access (batch_doi "10.1000/xyz1") world0
              = (Ok (returned (doi_to_pdf_downloader env_open_access
                                 (batch_doi "10.1000/xyz1") world0)),
                 snd (doi_to_pdf_downloader env_open_access
                        (batch_doi "10.1000/xyz1") world0)))
    by (vm_compute; reflexivity).
  exact (proj1 (returned_summary_is_consistent _ _ _ _ _ H)).
Defined.

(** X14. When the record of the paper is of the documented shape and
    names a candidate URL, and the host of the candidate serves a response
    the Content Fetcher accepts, the run ends with [SUCCESS]: the bytes the
    fetcher returns are written under the output directory, in the file
    named after the title of the record; the summary names that file, the
    URL the document came from, the DOI and the title of the record;
    exactly one request for a document is sent, to the candidate without
    its fragment and without cookies; the fallback source is not tried and
    no browser is started.  The bytes written are the body served, when
    its type is recognized or when it is sent whole; of a chunked answer of
    another type they are the first piece of the stream.  The title of the
    record is the value of [display_name]: when it is [null], the file is
    [Unknown_Paper_Title.pdf]. *)
Theorem open_access_paper_is_saved :
  forall env a w api_url metadata url resp,
    resolves env (identifier_doi a) (identifier_name a) (identifier_url a)
      api_url metadata ->
    usable_record metadata = true ->
    corrected_url (selected_url metadata) = JStr url ->
    url <> "" ->
    serves env url None resp ->
    accepted resp = true ->
    os_path_exists env (output_dir a) = true ->
    write_file env
      (os_path_join env (output_dir a) (file_name (record_title metadata)))
      (delivered resp)
    = None ->
    (exists sd w',
        doi_to_pdf_downloader env a w = (Ok sd, w')
        /\ status sd = "SUCCESS"
        /\ local_filepath sd
           = Some (os_path_join env (output_dir a) (file_name (record_title metadata)))
        /\ final_pdf_source_url sd = JStr url
        /\ resolved_doi sd = record_doi metadata
        /\ paper_title sd = record_title metadata
        /\ scihub_page_url_tried sd = None
        /\ In (FileWrite
                 (os_path_join env (output_dir a) (file_name (record_title metadata)))
                 (delivered resp))
              (fs w')
        /\ pdf_requests w' = (pdf_requests w ++ [(Py.split_first url "#", None)])%list
        /\ browser w' = browser w)
    /\ delivered resp <> ""
    /\ (recognized_type resp = true -> delivered resp = body resp)
    /\ (forall data, sent resp = Whole data -> delivered resp = body resp)
    /\ (forall chunks,
          recognized_type resp = false -> sent resp = Chunked chunks ->
          delivered resp = Py.take 1024 (hd "" chunks))
    /\ (forall members,
          metadata = JDict members -> lookup "display_name" members = Some JNull ->
          file_name (record_title metadata) = "Unknown_Paper_Title.pdf").
Proof.
  intros env a w api_url metadata url resp Hres Hus Hurl Hne Hs Hok Hex Hwr.
  assert (Hty : well_typed_record metadata = true)
    by (unfold usable_record in Hus; now apply andb_true_iff in Hus).
  assert (Hti : str_or_false (record_title metadata) = true)
    by (apply str_or_false_record_title; unfold usable_record in Hus;
        now apply andb_true_iff in Hus).
  pose proof (accepted_delivered resp Hok) as Hb.
  split; [|split; [exact Hb|split; [|split; [|split]]]].
  - rewrite downloader_run. unfold bind at 1.
    destruct (stage1_direct env a (input_identifier a) (entered a w) api_url metadata
                url resp Hres Hty Hurl Hne Hs Hok) as (w1 & H1 & Hout1).
    destruct (stage1_outcome env a _ _ _ _ H1) as (Hal & Hpt & Hrd & _).
    rewrite H1. unfold apart_from_lookup in Hal. injection Hal as _ Hsp _ _.
    cbn [title final_doi] in Hpt, Hrd.
    unfold finish, stage2. cbn [pdf_content].
    change (Py.truthy (Some (delivered resp))) with (Py.nonempty (delivered resp)).
    rewrite (nonempty_true _ Hb). cbn [negb andb]. cbv [bind ret set_sd modify].
    match goal with
    | |- context [stage3 env a ?i ?l ?w2] =>
        destruct (stage3_saves env a i l w2 (delivered resp) eq_refl Hb Hti Hex Hwr)
          as (w3 & H3 & Hst & Hlf & Hff & Hout3 & Hin)
    end.
    rewrite H3. cbv [bind].
    destruct (report_frame a (input_identifier a) w3) as (w4 & H4 & Hsd4 & Hout4 & Hfs4).
    rewrite H4. cbv [gets].
    exists (summary_data w4), w4. split; [reflexivity|].
    rewrite Hsd4. unfold apart_from_file in Hff. revert Hff. fields.
    intros [= _ Hrd3 Hpt3 _ _ Hsp3 Hfs3].
    unfold outside_summary in Hout1, Hout3, Hout4. revert Hout3. fields. intros Hout3.
    injection Hout1 as Hp1 Hb1 _. injection Hout3 as Hp3 Hb3 _.
    injection Hout4 as Hp4 Hb4 _.
    repeat split; try congruence; auto.
  - unfold delivered. now intros ->.
  - intros data Hd. unfold delivered.
    destruct (recognized_type resp); [reflexivity|].
    exact (proj2 (peeked_whole _ _ Hd)).
  - intros chunks Hr Hc. unfold delivered, peeked, first_piece, content_after_first_piece.
    rewrite Hr, Hc. apply append_empty.
  - intros members -> Hn. unfold record_title. now rewrite Hn.
Qed.

Lemma open_access_paper_is_saved_witness :
  exists sd w',
    doi_to_pdf_downloader env_open_access (batch_doi "10.1000/xyz1") world0 = (Ok sd, w')
    /\ status sd = "SUCCESS"
    /\ browser w' = browser world0.
Proof.
  destruct (proj1 (open_access_paper_is_saved env_open_access (batch_doi "10.1000/xyz1")
                     world0 (base_api_url ++ "/https://doi.org/" ++ "10.1000/xyz1")
                     open_paper "https://good.example/paper.pdf" served_pdf
                     ltac:(exists [], ("DOI: " ++ "10.1000/xyz1"),
                             (mkApiResponse 200 "OK"
                                (base_api_url ++ "/https://doi.org/" ++ "10.1000/xyz1")
                                (Json open_paper)), open_paper;
                           repeat split; left; repeat split)
                     eq_refl eq_refl ltac:(discriminate) ltac:(split; reflexivity)
                     eq_refl eq_refl eq_refl))
    as (sd & w' & H & Hs & _ & _ & _ & _ & _ & _ & _ & Hb).
  exists sd, w'. repeat split; assumption.
Defined.

(** ** The browser over a whole run *)

Section BrowserUse.

Variable env : Env.
Variable a : downloader_args.
Variable id : string.

(** The extractor leaves the browser as it was, or has started one session
    and torn one down. *)
Lemma retrieve_browser p i doi_ base w :
  browser (snd (retrieve_scihub_pdf_link_selenium env doi_ base (_log p i) w)) = browser w
  \/ (sessions (browser (snd (retrieve_scihub_pdf_link_selenium env doi_ base (_log p i) w)))
      = S (sessions (browser w))
      /\ teardowns
           (browser (snd (retrieve_scihub_pdf_link_selenium env doi_ base (_log p i) w)))
         = S (teardowns (browser w))).
Proof.
  destruct doi_ as [|c d].
  - left. unfold retrieve_scihub_pdf_link_selenium. cbn [Py.nonempty negb].
    unfold bind, raise. rewrite _log_run. reflexivity.
  - assert (Hd : String c d <> "") by discriminate.
    rewrite (retrieve_run env p i _ base w Hd). cbn [snd].
    unfold driver_is_set. destruct (uc_Chrome env) as [[]|e] eqn:Hc; cbn [when].
    + right.
      pose proof (protected_block_driver env p i (String c d) base
                    (announced p i (String c d) base w) Hc) as Hb.
      destruct (quit_driver_run env p i
                  (snd (protected_block env (String c d) base (_log p i)
                          (announced p i (String c d) base w))))
        as (w' & Hrun & Hs & Ht & _).
      { now rewrite Hb. }
      rewrite Hrun. cbn [snd]. rewrite Hs, Ht, Hb. split; reflexivity.
    + left. cbn [ret snd].
      now rewrite (protected_block_no_driver env p i (String c d) base _ e Hc).
Qed.

Lemma stage1_browser w : browser (snd (stage1 env a id w)) = browser w.
Proof.
  apply (keeps_stage1 env (fun w' => browser w' = browser w) a id); auto.
Qed.

Lemma stage3_browser l w : browser (snd (stage3 env a id l w)) = browser w.
Proof.
  apply (keeps_stage3 env (fun w' => browser w' = browser w) a id); auto.
Qed.

Lemma report_browser w : browser (snd (report a id w)) = browser w.
Proof.
  apply (keeps_report (fun w' => browser w' = browser w) a id
           (fun w0 v H0 => H0) anything w eq_refl).
Qed.

Lemma use_scihub_link_browser l r w :
  browser (snd (use_scihub_link env a id l r w)) = browser w.
Proof.
  apply (keeps_use_scihub_link env (fun w' => browser w' = browser w) a id); auto.
Qed.

Lemma scihub_failure_browser l e w :
  match scihub_failure a id l e with
  | Some h => browser (snd (h w)) = browser w
  | None => False
  end.
Proof.
  pose proof (keeps_scihub_failure (fun w' => browser w' = browser w) a id
                (fun p i s m w0 H0 => H0) (fun w0 v H0 => H0) anything l e) as H.
  destruct (scihub_failure a id l e) as [h|]; [|exact H].
  exact (proj1 (H w eq_refl)).
Qed.

Lemma locate_browser d w :
  browser (snd (locate_scihub_pdf env a id d w)) = browser w
  \/ (scihub_retrieval_method a = "selenium"
      /\ sessions (browser (snd (locate_scihub_pdf env a id d w))) = S (sessions (browser w))
      /\ teardowns (browser (snd (locate_scihub_pdf env a id d w)))
         = S (teardowns (browser w))).
Proof.
  unfold locate_scihub_pdf.
  destruct (scihub_retrieval_method a =? "selenium") eqn:E.
  - apply String.eqb_eq in E.
    destruct (retrieve_browser (log_file_path a) id d (SCI_HUB_URL env) w) as [H|H];
      [now left | right; split; [exact E | exact H]].
  - left. run. reflexivity.
Qed.

Lemma stage2_browser l w :
  browser (snd (stage2 env a id l w)) = browser w
  \/ (scihub_retrieval_method a = "selenium"
      /\ sessions (browser (snd (stage2 env a id l w))) = S (sessions (browser w))
      /\ teardowns (browser (snd (stage2 env a id l w))) = S (teardowns (browser w))).
Proof.
  unfold stage2.
  destruct (negb (Py.truthy (pdf_content l)) && truth (final_doi l)).
  2:{ left. destruct (negb (Py.truthy (pdf_content l)) && negb (truth (final_doi l)));
        run; [destruct (negb (existsb _ _)); run|]; reflexivity. }
  unfold scihub_fallback, scihub_attempt. run.
  match goal with
  | |- context [locate_scihub_pdf env a id ?d ?w0] =>
      pose proof (locate_browser d w0) as Hl;
      destruct (locate_scihub_pdf env a id d w0) as [[r|[e|code]] w1]
  end; cbn [snd] in Hl; revert Hl; run_simpl; cbn [browser]; intros Hl.
  - pose proof (use_scihub_link_browser l r w1) as Hu.
    destruct (use_scihub_link env a id l r w1) as [[l2|[e|code]] w2];
      cbn [snd] in Hu |- *; try (rewrite Hu; exact Hl).
    pose proof (scihub_failure_browser l e w2) as Hf.
    destruct (scihub_failure a id l e) as [h|]; [|destruct Hf].
    rewrite Hf, Hu. exact Hl.
  - pose proof (scihub_failure_browser l e w1) as Hf.
    destruct (scihub_failure a id l e) as [h|]; [|destruct Hf].
    rewrite Hf. exact Hl.
  - exact Hl.
Qed.

Lemma finish_browser l w :
  browser (snd (finish env a id l w)) = browser w
  \/ (scihub_retrieval_method a = "selenium"
      /\ sessions (browser (snd (finish env a id l w))) = S (sessions (browser w))
      /\ teardowns (browser (snd (finish env a id l w))) = S (teardowns (browser w))).
Proof.
  unfold finish. cbv [bind set_sd modify gets].
  pose proof (stage2_browser l w) as H2.
  destruct (stage2 env a id l w) as [[l2|r] w2]; cbn [snd] in H2; [|exact H2].
  match goal with
  | |- context [stage3 env a id l2 ?w0] =>
      pose proof (stage3_browser l2 w0) as H3;
      destruct (stage3 env a id l2 w0) as [[[]|r] w3]
  end; cbn [snd browser set_summary_data] in H3; cbn [snd]; [|rewrite H3; exact H2].
  pose proof (report_browser w3) as H4.
  destruct (report a id w3) as [[[]|r] w4]; cbn [snd] in H4 |- *;
    rewrite H4, H3; exact H2.
Qed.

End BrowserUse.

(** X16. Over a whole call of the orchestrator the browser is left as
    it was found, or exactly one session was started and one was torn
    down, and then the retrieval method is [selenium]; with any other
    method the browser is never touched. *)
Theorem browser_runs_for_the_fallback_only :
  forall env a w,
    (browser (snd (doi_to_pdf_downloader env a w)) = browser w
     \/ (scihub_retrieval_method a = "selenium"
         /\ sessions (browser (snd (doi_to_pdf_downloader env a w)))
            = S (sessions (browser w))
         /\ teardowns (browser (snd (doi_to_pdf_downloader env a w)))
            = S (teardowns (browser w))))
    /\ (scihub_retrieval_method a <> "selenium" ->
        browser (snd (doi_to_pdf_downloader env a w)) = browser w).
Proof.
  intros env a w.
  assert (H : browser (snd (doi_to_pdf_downloader env a w)) = browser w
              \/ (scihub_retrieval_method a = "selenium"
                  /\ sessions (browser (snd (doi_to_pdf_downloader env a w)))
                     = S (sessions (browser w))
                  /\ teardowns (browser (snd (doi_to_pdf_downloader env a w)))
                     = S (teardowns (browser w)))).
  { rewrite downloader_run. cbv [bind].
    pose proof (stage1_browser env a (input_identifier a) (entered a w)) as H1.
    destruct (stage1 env a (input_identifier a) (entered a w)) as [[[l|sd]|r] w1];
      cbn [snd] in H1 |- *; try (left; exact H1).
    change (browser (entered a w)) with (browser w) in H1.
    rewrite <- H1. apply finish_browser. }
  split; [exact H|].
  intros Hm. destruct H as [H | [E _]]; [exact H | contradiction].
Qed.

Lemma browser_runs_for_the_fallback_only_witness :
  browser (snd (doi_to_pdf_downloader env_stuck_browser
                  (mkArgs (Some "10.1000/xyz") None None "papers" false true None
                     "requests" None) world0))
  = browser world0.
Proof.
  apply (proj2 (browser_runs_for_the_fallback_only env_stuck_browser
                  (mkArgs (Some "10.1000/xyz") None None "papers" false true None
                     "requests" None) world0)).
  discriminate.
Defined.

(** ** A call without any identifier *)

Lemma or_else_falsy o b : Py.truthy o = false -> Py.or_else o b = b.
Proof. destruct o as [[|c s]|]; [reflexivity | discriminate | reflexivity]. Qed.

(** X17. A call without any identifier sends no request and starts no
    browser: in batch mode it returns a summary with the status
    [FAILURE_INPUT_ERROR] for the identifier [Unknown Identifier], in
    single-item mode it leaves through [sys.exit(1)]. *)
Theorem no_identifier_is_an_input_error :
  forall env a w,
    Py.truthy (identifier_doi a) = false ->
    Py.truthy (identifier_name a) = false ->
    Py.truthy (identifier_url a) = false ->
    (is_batch_mode a = true ->
       exists sd w',
         doi_to_pdf_downloader env a w = (Ok sd, w')
         /\ status sd = "FAILURE_INPUT_ERROR"
         /\ identifier_input sd = "Unknown Identifier"
         /\ api_requests w' = api_requests w
         /\ pdf_requests w' = pdf_requests w
         /\ browser w' = browser w)
    /\ (is_batch_mode a = false ->
          fst (doi_to_pdf_downloader env a w) = Raise (SystemExit 1)).
Proof.
  intros env a w Hd Hn Hu.
  assert (Hid : input_identifier a = "Unknown Identifier").
  { unfold input_identifier. now rewrite !or_else_falsy. }
  rewrite downloader_run. unfold stage1, get_paper_metadata, build_query.
  rewrite Hd, Hn, Hu. run.
  split; intros Hb; rewrite Hb; run.
  - do 2 eexists. split; [reflexivity|].
    unfold entered. cbn. rewrite Hid. repeat split; reflexivity.
  - reflexivity.
Qed.

Lemma no_identifier_is_an_input_error_witness :
  fst (doi_to_pdf_downloader env_offline
         (mkArgs None (Some "") None "papers" false false None "selenium" None) world0)
  = Raise (SystemExit 1).
Proof.
  apply (proj2 (no_identifier_is_an_input_error env_offline
                  (mkArgs None (Some "") None "papers" false false None "selenium" None)
                  world0 eq_refl eq_refl eq_refl)).
  reflexivity.
Defined.

(** ** A run that ends with the fallback *)

Section FallbackRun.

Variable env : Env.

(** The extractor on a page that shows the element [#pdf]. *)
Lemma retrieve_frame_run p i doi_ base w e el src cs :
  doi_ <> "" ->
  uc_Chrome env = Done tt ->
  driver_get env (scihub_page base doi_) = Done tt ->
  wait_unavailable_text env (scihub_page base doi_) = Fault e ->
  isinstance e WebDriverException = true ->
  wait_pdf_element env (scihub_page base doi_) = Done el ->
  get_attribute_src el = Done (Some src) ->
  src <> "" ->
  driver_get_cookies env (scihub_page base doi_) = Done cs ->
  exists w1,
    retrieve_scihub_pdf_link_selenium env doi_ base (_log p i) w
    = (Ok (Some (absolute_link env base src), Some cs), w1)
    /\ apart_from_status (summary_data w1) = apart_from_status (summary_data w)
    /\ pdf_requests w1 = pdf_requests w
    /\ sessions (browser w1) = S (sessions (browser w))
    /\ teardowns (browser w1) = S (teardowns (browser w)).
Proof.
  intros Hd Hc Hg Hu He Hel Hsrc Hne Hck.
  exists (snd (retrieve_scihub_pdf_link_selenium env doi_ base (_log p i) w)).
  split; [|split; [|split]].
  - rewrite (surjective_pairing
               (retrieve_scihub_pdf_link_selenium env doi_ base (_log p i) w)) at 1.
    f_equal.
    rewrite (retrieve_run env p i doi_ base w Hd). cbn [fst].
    assert (Ht : Py.truthy (Some src) = true) by exact (nonempty_true _ Hne).
    unfold protected_block, scihub_session, new_Chrome, scihub_page_steps, scihub_handlers,
      absolute_link.
    rewrite Hc, Hg, Hu. run. rewrite He.
    destruct (isinstance e TimeoutException); run;
      repeat (first [ rewrite Hel | rewrite Hsrc | rewrite Ht | rewrite Hck
                    | progress change (value (Some src)) with src ]; run);
      destruct (negb (List.length cs =? 0)%nat); run; reflexivity.
  - apply (keeps_retrieve env
             (fun w' => apart_from_status (summary_data w')
                        = apart_from_status (summary_data w)) (_log p i)); auto.
    intros s m. apply keeps_log. intros w0 H0. cbn [logged_world summary_data].
    now rewrite logged_summary_fields.
  - apply (keeps_retrieve env (fun w' => pdf_requests w' = pdf_requests w) (_log p i));
      auto.
    intros s m. apply keeps_log. intros w0 H0. exact H0.
  - rewrite (retrieve_run env p i doi_ base w Hd). cbn [snd].
    unfold driver_is_set. rewrite Hc. cbn [when].
    pose proof (protected_block_driver env p i doi_ base (announced p i doi_ base w) Hc)
      as Hb.
    destruct (quit_driver_run env p i
                (snd (protected_block env doi_ base (_log p i) (announced p i doi_ base w))))
      as (w' & Hrun & Hs & Ht & _).
    { now rewrite Hb. }
    rewrite Hrun. cbn [snd]. rewrite Hs, Ht, Hb. split; reflexivity.
Qed.

Variable a : downloader_args.
Variable id : string.

(** Stage 2 when the page shows the document and its host serves it. *)
Lemma stage2_fallback l w doi_ e el src cs resp :
  pdf_content l = None ->
  final_doi l = JStr doi_ ->
  doi_ <> "" ->
  scihub_retrieval_method a = "selenium" ->
  uc_Chrome env = Done tt ->
  driver_get env (scihub_page (SCI_HUB_URL env) doi_) = Done tt ->
  wait_unavailable_text env (scihub_page (SCI_HUB_URL env) doi_) = Fault e ->
  isinstance e WebDriverException = true ->
  wait_pdf_element env (scihub_page (SCI_HUB_URL env) doi_) = Done el ->
  get_attribute_src el = Done (Some src) ->
  src <> "" ->
  driver_get_cookies env (scihub_page (SCI_HUB_URL env) doi_) = Done cs ->
  absolute_link env (SCI_HUB_URL env) src <> "" ->
  serves env (absolute_link env (SCI_HUB_URL env) src) (Some cs) resp ->
  accepted resp = true ->
  exists w2,
    stage2 env a id l w
    = (Ok (mkLocals (final_doi l) (title l) (Some (delivered resp))
             (JStr (absolute_link env (SCI_HUB_URL env) src))), w2)
    /\ apart_from_fallback (summary_data w2) = apart_from_fallback (summary_data w)
    /\ scihub_page_url_tried (summary_data w2)
       = Some (scihub_page (SCI_HUB_URL env) doi_)
    /\ pdf_requests w2
       = (pdf_requests w
          ++ [(Py.split_first (absolute_link env (SCI_HUB_URL env) src) "#",
               cookie_jar_of (Some cs))])%list
    /\ sessions (browser w2) = S (sessions (browser w))
    /\ teardowns (browser w2) = S (teardowns (browser w)).
Proof.
  intros Hpc Hfd Hd Hm Hc Hg Hu He Hel Hsrc Hne Hck Hlink Hs Hok.
  unfold stage2, scihub_fallback, scihub_attempt, locate_scihub_pdf.
  rewrite Hpc, Hfd, Hm. cbn [Py.truthy negb value truth format_value].
  rewrite (nonempty_true _ Hd). cbn [andb]. rewrite String.eqb_refl. run.
  fold (scihub_page (SCI_HUB_URL env) doi_).
  match goal with
  | |- context [retrieve_scihub_pdf_link_selenium env doi_ ?b ?lf ?w0] =>
      destruct (retrieve_frame_run (log_file_path a) id doi_ b w0 e el src cs
                  Hd Hc Hg Hu He Hel Hsrc Hne Hck) as (w1 & Hr & Hf1 & Hp1 & Hs1 & Ht1)
  end.
  rewrite Hr. run. unfold use_scihub_link.
  change (Py.truthy (Some (absolute_link env (SCI_HUB_URL env) src)))
    with (Py.nonempty (absolute_link env (SCI_HUB_URL env) src)).
  rewrite (nonempty_true _ Hlink). run.
  change (value (Some (absolute_link env (SCI_HUB_URL env) src)))
    with (absolute_link env (SCI_HUB_URL env) src).
  rewrite ?Hm, ?String.eqb_refl, ?Hfd.
  rewrite (download_accepted env _ (Some cs) resp _ Hs Hok). run.
  unfold apart_from_status in Hf1. revert Hf1. fields.
  intros [= Hid Hrd Hti Hoa Hdu Hsp Hfs Hlf].
  eexists. split; [reflexivity|].
  split; [fields; unfold apart_from_fallback; congruence|].
  split; [fields; exact Hsp|].
  cbn [pdf_requests browser set_summary_data logged_world set_pdf_requests] in *.
  split; [now rewrite Hp1|].
  split; assumption.
Qed.

End FallbackRun.

(** X18. When the lookup of a DOI fails, the page of the fallback source
    shows the element [#pdf] and the host of its link serves a response
    the Content Fetcher accepts, the run ends with [SUCCESS]: the request
    for the document carries the cookies of the browser session and goes to
    the link without its fragment; the bytes the fetcher returns are
    written under the output directory, in the file named after the
    placeholder title made of the DOI; the summary names the file, the
    link, the DOI, the placeholder title and the page tried; one browser
    session was started and one was torn down.  The bytes written are the
    body served, when its type is recognized or when it is sent whole; of a
    chunked answer of another type they are the first piece of the
    stream. *)
Theorem fallback_document_is_saved :
  forall env a w msg doi_ e el src cs resp,
    lookup_fails env a msg ->
    identifier_doi a = Some doi_ ->
    doi_ <> "" ->
    scihub_retrieval_method a = "selenium" ->
    uc_Chrome env = Done tt ->
    driver_get env (scihub_page (SCI_HUB_URL env) doi_) = Done tt ->
    wait_unavailable_text env (scihub_page (SCI_HUB_URL env) doi_) = Fault e ->
    isinstance e WebDriverException = true ->
    wait_pdf_element env (scihub_page (SCI_HUB_URL env) doi_) = Done el ->
    get_attribute_src el = Done (Some src) ->
    src <> "" ->
    driver_get_cookies env (scihub_page (SCI_HUB_URL env) doi_) = Done cs ->
    absolute_link env (SCI_HUB_URL env) src <> "" ->
    serves env (absolute_link env (SCI_HUB_URL env) src) (Some cs) resp ->
    accepted resp = true ->
    os_path_exists env (output_dir a) = true ->
    write_file env
      (os_path_join env (output_dir a) (sanitize_filename (placeholder_title doi_)))
      (delivered resp) = None ->
    (exists sd w',
        doi_to_pdf_downloader env a w = (Ok sd, w')
        /\ status sd = "SUCCESS"
        /\ local_filepath sd
           = Some (os_path_join env (output_dir a)
                     (sanitize_filename (placeholder_title doi_)))
        /\ final_pdf_source_url sd = JStr (absolute_link env (SCI_HUB_URL env) src)
        /\ resolved_doi sd = JStr doi_
        /\ paper_title sd = JStr (placeholder_title doi_)
        /\ scihub_page_url_tried sd = Some (scihub_page (SCI_HUB_URL env) doi_)
        /\ In (FileWrite
                 (os_path_join env (output_dir a)
                    (sanitize_filename (placeholder_title doi_)))
                 (delivered resp))
              (fs w')
        /\ pdf_requests w'
           = (pdf_requests w
              ++ [(Py.split_first (absolute_link env (SCI_HUB_URL env) src) "#",
                   cookie_jar_of (Some cs))])%list
        /\ sessions (browser w') = S (sessions (browser w))
        /\ teardowns (browser w') = S (teardowns (browser w)))
    /\ delivered resp <> ""
    /\ (recognized_type resp = true -> delivered resp = body resp)
    /\ (forall data, sent resp = Whole data -> delivered resp = body resp)
    /\ (forall chunks,
          recognized_type resp = false -> sent resp = Chunked chunks ->
          delivered resp = Py.take 1024 (hd "" chunks)).
Proof.
  intros env a w msg doi_ e el src cs resp Hfails Hdoi Hd Hm Hc Hg Hu He Hel Hsrc Hne
         Hck Hlink Hs Hok Hex Hwr.
  pose proof (accepted_delivered resp Hok) as Hb.
  split; [|split; [exact Hb|split; [|split]]].
  - assert (Htd : Py.truthy (identifier_doi a) = true)
      by (rewrite Hdoi; exact (nonempty_true _ Hd)).
    rewrite downloader_run. cbv [bind].
    destruct (stage1_lookup_failed_doi env a (input_identifier a) msg Hfails
                (entered a w) Htd)
      as (w1 & H1 & _ & Hrd1 & Hpt1 & _ & Hout1).
    rewrite H1. rewrite Hdoi in *. cbn [value of_optional] in *.
    unfold finish. cbv [bind set_sd modify gets].
    destruct (stage2_fallback env a (input_identifier a)
                (mkLocals (JStr doi_) (JStr (placeholder_title doi_)) None JNull) w1
                doi_ e el src cs resp eq_refl eq_refl Hd Hm Hc Hg Hu He Hel Hsrc Hne Hck
                Hlink Hs Hok) as (w2 & H2 & Hf2 & Hsp2 & Hp2 & Hs2 & Ht2).
    cbn [final_doi title] in H2. rewrite H2.
    match goal with
    | |- context [stage3 env a ?i ?l ?w0] =>
        destruct (stage3_saves env a i l w0 (delivered resp) eq_refl Hb eq_refl Hex Hwr)
          as (w3 & H3 & Hst & Hlf & Hff & Hout3 & Hin)
    end.
    rewrite H3.
    destruct (report_frame a (input_identifier a) w3) as (w4 & H4 & Hsd4 & Hout4 & Hfs4).
    rewrite H4.
    exists (summary_data w4), w4. split; [reflexivity|].
    rewrite Hsd4. unfold apart_from_file in Hff. revert Hff. fields.
    intros [= _ Hrd3 Hpt3 _ _ Hsp3 Hfs3].
    unfold apart_from_fallback in Hf2. injection Hf2 as _ Hrd2 Hpt2 _ _ _ _.
    unfold outside_summary in Hout1, Hout3, Hout4. revert Hout3. fields. intros Hout3.
    injection Hout1 as Hp1 Hb1 _. injection Hout3 as Hp3 Hb3 _.
    injection Hout4 as Hp4 Hb4 _.
    cbn [title file_name] in *.
    repeat split; try congruence; auto.
  - unfold delivered. now intros ->.
  - intros data Hd'. unfold delivered.
    destruct (recognized_type resp); [reflexivity|].
    exact (proj2 (peeked_whole _ _ Hd')).
  - intros chunks Hr Hc'. unfold delivered, peeked, first_piece, content_after_first_piece.
    rewrite Hr, Hc'. apply append_empty.
Qed.

Lemma fallback_document_is_saved_witness :
  exists sd w',
    doi_to_pdf_downloader env_fallback (batch_doi "10.1000/xyz") world0 = (Ok sd, w')
    /\ status sd = "SUCCESS"
    /\ teardowns (browser w') = S (teardowns (browser world0)).
Proof.
  assert (Hf : lookup_fails env_fallback (batch_doi "10.1000/xyz")
                 "OpenAlex API request failed for DOI: 10.1000/xyz: connection refused")
    by (intros w; vm_compute; reflexivity).
  destruct (proj1 (fallback_document_is_saved env_fallback (batch_doi "10.1000/xyz")
                     world0
                     "OpenAlex API request failed for DOI: 10.1000/xyz: connection refused"
                     "10.1000/xyz" (mkExn TimeoutException "timeout")
                     (mkElement (Done (Some "//cdn.example/paper.pdf")))
                     "//cdn.example/paper.pdf" [] served_pdf Hf
                     eq_refl ltac:(discriminate) eq_refl eq_refl eq_refl eq_refl eq_refl
                     eq_refl eq_refl ltac:(discriminate) eq_refl ltac:(discriminate)
                     ltac:(split; reflexivity) eq_refl eq_refl eq_refl))
    as (sd & w' & H & Hs & _ & _ & _ & _ & _ & _ & _ & _ & Ht).
  exists sd, w'. repeat split; assumption.
Defined.

(** ** The command line *)

(** X19. When an input file is given together with an individual
    identifier, or when neither is given, [main] ends at once with exit
    code 2 and has touched nothing: no directory, no log, no summary file,
    no request. *)
Theorem wrong_usage_exits_at_once :
  forall env args w,
    Py.truthy (arg_input_file args) = Py.truthy (individual_identifier args) ->
    main env args w = (Raise (SystemExit 2), w).
Proof.
  intros env args w H. unfold main. rewrite H.
  destruct (Py.truthy (individual_identifier args)); reflexivity.
Qed.

Lemma wrong_usage_exits_at_once_witness :
  main env_with_input_file
    (mkCli (Some "10.1000/xyz") None None (Some "dois.txt") "papers" false 0 "selenium")
    world0
  = (Raise (SystemExit 2), world0).
Proof.
  apply (wrong_usage_exits_at_once env_with_input_file
           (mkCli (Some "10.1000/xyz") None None (Some "dois.txt") "papers" false 0
              "selenium") world0).
  reflexivity.
Defined.

(** The steps of [main] before it looks at the mode. *)
Lemma main_setup env args w :
  Py.truthy (arg_input_file args) <> Py.truthy (individual_identifier args) ->
  exists w0,
    outside_summary w0 = outside_summary w
    /\ main env args w
       = (if Py.truthy (arg_input_file args) then
            let input_file := value (arg_input_file args) in
            if negb (os_path_exists env input_file) then
              log_message (master_log_file env args) "BATCH_SETUP" "ERROR"
                ("Input file not found: " ++ input_file) ;;
              sys_exit 1
            else
              log_message (master_log_file env args) "BATCH_MODE" "INFO"
                ("Starting batch processing from file: " ++ input_file) ;;
              lines <- call (read_lines env input_file) ;;
              let identifiers := identifiers_to_process lines in
              let total_items := List.length identifiers in
              log_message (master_log_file env args) "BATCH_MODE" "INFO"
                ("Found " ++ Py.str_nat total_items ++ " identifiers to process.") ;;
              processing_summaries <-
                batch_loop env args (effective_output env args) (master_log_file env args)
                  (summary_report env args) total_items 0 identifiers [] ;;
              log_message (master_log_file env args) "BATCH_MODE" "INFO"
                "Batch processing complete." ;;
              ret processing_summaries
          else
            log_message (master_log_file env args) (value (individual_identifier args)) "INFO"
              "Starting single item processing." ;;
            summary_ <-
              doi_to_pdf_downloader env
                (mkArgs (arg_doi args) (arg_name args) (arg_url args)
                   (effective_output env args) (arg_open args) false
                   (Some (master_log_file env args)) (arg_scihub_method args)
                   (summary_report env args)) ;;
            log_message (master_log_file env args) (value (individual_identifier args)) "INFO"
              "Single item processing complete." ;;
            ret [summary_]) w0.
Proof.
  intros H. unfold main, master_log_file, summary_report, summary_header, effective_output.
  destruct (Py.truthy (arg_input_file args));
    destruct (Py.truthy (individual_identifier args)); try congruence;
    cbn [andb negb];
    (destruct (os_path_exists env (arg_output args)); cbn [negb];
     [|unfold makedirs; destruct (os_makedirs env (arg_output args))]);
    cbv [bind ret raise modify try_except isinstance exn_cls exn_class_eqb orb];
    (eexists; split; [|reflexivity]); reflexivity.
Qed.

(** X20. In batch mode, when the input file does not exist, [main] ends
    with exit code 1 without any call of the orchestrator and without any
    request; the last line of the log says [Input file not found:] and the
    name of the file. *)
Theorem missing_input_file_stops_the_batch :
  forall env args w,
    Py.truthy (arg_input_file args) = true ->
    Py.truthy (individual_identifier args) = false ->
    os_path_exists env (value (arg_input_file args)) = false ->
    fst (main env args w) = Raise (SystemExit 1)
    /\ calls (snd (main env args w)) = calls w
    /\ api_requests (snd (main env args w)) = api_requests w
    /\ last (fs (snd (main env args w))) (Sleep 0)
       = LogAppend (master_log_file env args) "BATCH_SETUP" "ERROR"
           ("Input file not found: " ++ value (arg_input_file args)).
Proof.
  intros env args w Hin Hid Hex.
  unfold main. rewrite Hin, Hid, Hex. cbn [andb negb].
  fold (effective_output env args).
  unfold master_log_file, effective_output, log_message, makedirs.
  destruct (os_path_exists env (arg_output args)); cbn [negb];
    [|destruct (os_makedirs env (arg_output args))];
    cbv [bind ret raise modify try_except isinstance exn_cls exn_class_eqb orb sys_exit];
    cbn [fst snd calls api_requests fs set_fs];
    rewrite last_last; repeat split; reflexivity.
Qed.

Lemma missing_input_file_stops_the_batch_witness :
  fst (main env_read_only
         (mkCli None None None (Some "missing.txt") "papers" false 0 "selenium") world0)
  = Raise (SystemExit 1).
Proof.
  apply (missing_input_file_stops_the_batch env_read_only
           (mkCli None None None (Some "missing.txt") "papers" false 0 "selenium") world0);
    reflexivity.
Defined.

Lemma downloader_identifier env a w sd w' :
  doi_to_pdf_downloader env a w = (Ok sd, w') ->
  identifier_input sd = input_identifier a.
Proof.
  rewrite downloader_run. unfold bind at 1.
  pose proof (stage1_outcome env a (input_identifier a) (entered a w)) as H1.
  destruct (stage1 env a (input_identifier a) (entered a w)) as [[[l|sd1]|r] w1];
    [| |discriminate].
  - destruct (H1 _ _ eq_refl) as (Hal & Hpt & _ & Hpre).
    unfold apart_from_lookup in Hal. injection Hal as Hid Hsp Hfs Hlf.
    intros H.
    destruct (finish_outcome env a _ l w1 sd w' H Hlf Hpt Hpre) as (Hi & _).
    rewrite Hi. exact Hid.
  - destruct (H1 _ _ eq_refl) as (Hal & Hsd).
    unfold apart_from_lookup in Hal. injection Hal as Hid _ _ _.
    intros [= <- <-]. subst sd1. exact Hid.
Qed.

Section BatchSummaries.

Variable env : Env.
Variable args : cli_args.
Variable output log : string.
Variable summary_path : option string.
Variable total_items : nat.

Lemma batch_loop_summaries identifiers :
  (forall id, In id identifiers -> id <> "") ->
  forall i acc w,
    exists sums w',
      batch_loop env args output log summary_path total_items i identifiers acc w
      = (Ok (acc ++ sums)%list, w')
      /\ subsequence (map identifier_input sums) identifiers
      /\ Forall (fun sd => In (status sd) final_statuses) sums
      /\ calls w'
         = (calls w ++ map (batch_call_args args output log summary_path) identifiers)%list
      /\ (forall id,
            In id identifiers -> answers_well_typed env (Some id) None None ->
            In id (map identifier_input sums))
      /\ ((forall id, In id identifiers -> answers_well_typed env (Some id) None None) ->
          map identifier_input sums = identifiers).
Proof.
  induction identifiers as [|identifier_str rest IH]; intros Hne i acc w.
  - exists [], w. cbn. rewrite !app_nil_r.
    repeat split; try constructor; try contradiction.
  - assert (Hrest : forall id, In id rest -> id <> "")
      by (intros id Hi; apply Hne; now right).
    cbn [batch_loop map]. unfold log_message, time_sleep. run.
    match goal with
    | |- context [doi_to_pdf_downloader env ?a ?w0] =>
        pose proof (downloader_raises env a w0) as Hr;
        pose proof (downloader_raises_typed env a w0) as Hrt;
        pose proof (downloader_calls env a w0) as Hc;
        pose proof (downloader_return env a w0) as Hret;
        pose proof (downloader_identifier env a w0) as Hid;
        destruct (doi_to_pdf_downloader env a w0) as [[sd|r] w1]
    end; cbn [fst snd] in *.
    + destruct (Hret sd w1 eq_refl) as (_ & Hst & _).
      specialize (Hid sd w1 eq_refl).
      assert (Hin : identifier_input sd = identifier_str).
      { rewrite Hid. unfold input_identifier, batch_call_args.
        cbn [identifier_doi Py.or_else].
        rewrite (nonempty_true _ (Hne identifier_str (or_introl eq_refl))). reflexivity. }
      destruct ((i <? total_items - 1)%nat && (0 <? arg_delay args)%Z); run;
        match goal with
        | |- context [batch_loop env args output log summary_path total_items
                        ?j rest ?acc' ?w2] =>
            destruct (IH Hrest j acc' w2)
              as (sums & w' & Hok & Hsub & Hall & Hcalls & Hone & Hevery)
        end;
        exists (sd :: sums), w'; rewrite Hok, <- app_assoc; cbn [app map];
        (split; [reflexivity|]);
        (split; [rewrite Hin; now constructor|]);
        (split; [now constructor|]);
        (split; [rewrite Hcalls; cbn [calls set_fs]; rewrite Hc; cbn [calls set_fs];
                 now rewrite <- app_assoc|]);
        (split;
         [intros id [<- | Hi] Ht; [left; exact Hin | right; now apply Hone]
         |intros Ht; rewrite Hin; f_equal; apply Hevery;
          intros id Hi; apply Ht; now right]).
    + destruct (Hr r eq_refl) as [[_ Hb] | (c & msg & -> & Hc')]; [discriminate Hb|].
      assert (Hnt : ~ answers_well_typed env (Some identifier_str) None None).
      { intros Ht. destruct (Hrt _ Ht eq_refl) as [Hx _]. discriminate Hx. }
      run.
      destruct ((i <? total_items - 1)%nat && (0 <? arg_delay args)%Z); run;
        match goal with
        | |- context [batch_loop env args output log summary_path total_items
                        ?j rest ?acc' ?w2] =>
            destruct (IH Hrest j acc' w2)
              as (sums & w' & Hok & Hsub & Hall & Hcalls & Hone & Hevery)
        end;
        exists sums, w'; rewrite Hok;
        (split; [reflexivity|]);
        (split; [now constructor|]);
        (split; [exact Hall|]);
        (split; [rewrite Hcalls; cbn [calls set_fs]; rewrite Hc; cbn [calls set_fs];
                 now rewrite <- app_assoc|]);
        (split;
         [intros id [<- | Hi] Ht; [contradiction | now apply Hone]
         |intros Ht; exfalso; apply Hnt, Ht; now left]).
Qed.

End BatchSummaries.

(** X21. In batch mode, when the input file can be read, [main] returns
    and no item stops the batch: the orchestrator is called for every
    identifier of the file, in the order of the file, with the directory
    [main] works in (the current directory when the output directory
    cannot be made), the log file in it, and the summary file, or none
    when its header could not be written.  The summaries collected are
    those of the calls that returned, in the order of the file, each with a
    final status; an identifier for which the service answers in the
    documented shape has its summary, and when that holds for every
    identifier there is one summary for each.  A call that ends in an
    error of misuse of a malformed answer leaves no summary. *)
Theorem batch_gives_every_identifier_a_summary :
  forall env args lines w,
    Py.truthy (arg_input_file args) = true ->
    Py.truthy (individual_identifier args) = false ->
    os_path_exists env (value (arg_input_file args)) = true ->
    read_lines env (value (arg_input_file args)) = Done lines ->
    exists sums w',
      main env args w = (Ok sums, w')
      /\ subsequence (map identifier_input sums) (identifiers_to_process lines)
      /\ Forall (fun sd => In (status sd) final_statuses) sums
      /\ calls w'
         = (calls w
            ++ map (batch_call_args args (effective_output env args)
                      (master_log_file env args) (summary_report env args))
                 (identifiers_to_process lines))%list
      /\ (forall id,
            In id (identifiers_to_process lines) ->
            answers_well_typed env (Some id) None None ->
            In id (map identifier_input sums))
      /\ ((forall id,
             In id (identifiers_to_process lines) ->
             answers_well_typed env (Some id) None None) ->
          map identifier_input sums = identifiers_to_process lines).
Proof.
  intros env args lines w Hin Hid Hex Hread.
  destruct (main_setup env args w) as (w0 & Hout & Hmain).
  { rewrite Hin, Hid. discriminate. }
  rewrite Hmain, Hin. cbv zeta. rewrite Hex, Hread. cbn [negb].
  unfold log_message. run.
  match goal with
  | |- context [batch_loop env args ?o ?l ?s ?t ?j ?ids ?acc ?w1] =>
      destruct (batch_loop_summaries env args o l s t ids
                  (fun id Hi => proj1 (identifiers_nonempty _ id Hi)) j acc w1)
        as (sums & w' & Hok & Hsub & Hall & Hcalls & Hone & Hevery)
  end.
  rewrite Hok. run. do 2 eexists. split; [reflexivity|].
  split; [exact Hsub|]. split; [exact Hall|].
  split; [|split; [exact Hone | exact Hevery]].
  cbn [calls set_fs]. rewrite Hcalls. cbn [calls set_fs].
  unfold outside_summary in Hout. injection Hout as _ _ Hc. now rewrite Hc.
Qed.

Lemma batch_gives_every_identifier_a_summary_witness :
  exists sums w',
    main env_read_only batch_cli world0 = (Ok sums, w')
    /\ map identifier_input sums = ["10.1000/xyz1"; "https://doi.org/10.1000/xyz2"]
    /\ map output_dir (calls w') = ["."; "."]
    /\ map summary_file_path (calls w') = [None; None].
Proof.
  destruct (batch_gives_every_identifier_a_summary env_read_only batch_cli
              ["10.1000/xyz1" ++ String (ascii_of_nat 10) "";
               String (ascii_of_nat 160) (String (ascii_of_nat 10) "");
               "  https://doi.org/10.1000/xyz2  " ++ String (ascii_of_nat 10) ""]
              world0 eq_refl eq_refl eq_refl eq_refl)
    as (sums & w' & H & _ & _ & Hc & _ & Hevery).
  exists sums, w'. split; [exact H|]. split.
  - apply Hevery. intros id _ api_url params used r answer _ Hr. discriminate Hr.
  - rewrite Hc. split; reflexivity.
Defined.

(** X22. In single-item mode [main] calls the orchestrator exactly once,
    with the three identifiers as they were given, [is_batch_mode=False],
    the directory it works in, the log file and the summary file; it
    returns only with a summary whose status is [SUCCESS]; otherwise it
    leaves through [sys.exit(1)], or, when the answer of the service is not
    of the documented shape, with the error of its misuse, which nothing
    catches. *)
Theorem single_item_is_one_call :
  forall env args w,
    Py.truthy (arg_input_file args) = false ->
    Py.truthy (individual_identifier args) = true ->
    calls (snd (main env args w))
    = (calls w
       ++ [mkArgs (arg_doi args) (arg_name args) (arg_url args)
             (effective_output env args) (arg_open args) false
             (Some (master_log_file env args)) (arg_scihub_method args)
             (summary_report env args)])%list
    /\ ((exists sd, fst (main env args w) = Ok [sd] /\ status sd = "SUCCESS")
        \/ fst (main env args w) = Raise (SystemExit 1)
        \/ (misuse_raised (fst (main env args w))
            /\ ~ answers_well_typed env (arg_doi args) (arg_name args) (arg_url args))).
Proof.
  intros env args w Hin Hid.
  destruct (main_setup env args w) as (w0 & Hout & Hmain).
  { rewrite Hin, Hid. discriminate. }
  rewrite Hmain, Hin. unfold log_message. run.
  match goal with
  | |- context [doi_to_pdf_downloader env ?a ?w1] =>
      pose proof (downloader_raises env a w1) as Hr;
      pose proof (downloader_raises_typed env a w1) as Hrt;
      pose proof (downloader_calls env a w1) as Hc;
      pose proof (downloader_return env a w1) as Hret;
      destruct (doi_to_pdf_downloader env a w1) as [[sd|r] w2]
  end; cbn [fst snd calls set_fs] in *;
    unfold outside_summary in Hout; injection Hout as _ _ Hc0;
    rewrite Hc, Hc0; (split; [reflexivity|]).
  - left. exists sd. split; [reflexivity|].
    now apply (Hret sd w2 eq_refl).
  - right. destruct (Hr r eq_refl) as [[-> _] | Hm]; [now left|].
    right. split; [exact Hm|].
    intros Ht. destruct (Hrt r Ht eq_refl) as [-> _].
    exact (misuse_not_exit 1 Hm).
Qed.

Lemma single_item_is_one_call_witness :
  map is_batch_mode
    (calls (snd (main env_open_access
                   (mkCli (Some "10.1000/xyz1") None None None "papers" false 0 "selenium")
                   world0)))
  = [false].
Proof.
  rewrite (proj1 (single_item_is_one_call env_open_access
                    (mkCli (Some "10.1000/xyz1") None None None "papers" false 0
                       "selenium") world0 eq_refl eq_refl)).
  reflexivity.
Defined.

(** The one query the resolver sends. *)
Lemma resolver_request env d n u api_url params used w :
  (forall w0, build_query d n u w0 = (Ok (api_url, params, used), w0)) ->
  snd (get_paper_metadata env d n u w)
  = set_api_requests (api_requests w ++ [(api_url, params)]) w.
Proof. apply get_paper_metadata_world. Qed.

(** ** The entry of the summary file *)

Lemma split_first_char_go c u rest cur :
  Py.mem c u = false ->
  hd "" (Py.split_go (String c "") 0 cur (u ++ String c rest)) = cur ++ u.
Proof.
  revert cur. induction u as [|d u IH]; intros cur H.
  - cbn [append Py.split_go Py.startswith]. rewrite Ascii.eqb_refl. cbn.
    now rewrite append_empty.
  - cbn [Py.mem] in H. apply orb_false_iff in H as [Hd Hs].
    cbn [append Py.split_go Py.startswith]. rewrite Hd. cbn [andb].
    rewrite (IH _ Hs). now rewrite append_assoc.
Qed.

Lemma split_plain_char_go c u cur :
  Py.mem c u = false -> hd "" (Py.split_go (String c "") 0 cur u) = cur ++ u.
Proof.
  revert cur. induction u as [|d u IH]; intros cur H.
  - cbn. now rewrite append_empty.
  - cbn [Py.mem] in H. apply orb_false_iff in H as [Hd Hs].
    cbn [append Py.split_go Py.startswith]. rewrite Hd. cbn [andb].
    rewrite (IH _ Hs). now rewrite append_assoc.
Qed.

(** X23. The entry of the summary file. For a summary whose status is
    [SUCCESS] the entry says [SUCCESS] and gives no reason.  For any other
    status the entry says [FAILURE]; its reason is the text of the
    accumulated message before its first vertical bar, without the white
    space around it, and there is no reason when nothing was logged.  The
    cut is made at the first bar, be it the bar of the separator the
    logger puts between two messages or a bar inside the first message. *)
Theorem summary_entry_gives_the_first_reason :
  forall a id w,
    Py.truthy (summary_file_path a) = true ->
    (status (summary_data w) = "SUCCESS" ->
       report a id w
       = (Ok tt,
          set_fs (fs w ++ [SummaryAppend (value (summary_file_path a)) id "SUCCESS" None])
            w))
    /\ (status (summary_data w) <> "SUCCESS" ->
        message (summary_data w) <> "" ->
        report a id w
        = (Ok tt,
           set_fs (fs w ++ [SummaryAppend (value (summary_file_path a)) id "FAILURE"
                              (Some (Py.strip
                                       (Py.split_first (message (summary_data w)) "|")))])
             w))
    /\ (status (summary_data w) <> "SUCCESS" ->
        message (summary_data w) = "" ->
        report a id w
        = (Ok tt,
           set_fs (fs w ++ [SummaryAppend (value (summary_file_path a)) id "FAILURE" None])
             w))
    /\ (forall before rest,
          Py.mem "|" before = false ->
          Py.split_first (before ++ "|" ++ rest) "|" = before)
    /\ (forall text, Py.mem "|" text = false -> Py.split_first text "|" = text).
Proof.
  intros a id w Hp. unfold report, update_simplified_summary. rewrite Hp.
  cbv [when bind gets modify]. split; [|split; [|split; [|split]]].
  - intros ->. reflexivity.
  - intros Hs Hm.
    apply String.eqb_neq in Hs. rewrite Hs. cbn [String.eqb Ascii.eqb Bool.eqb andb].
    change (Py.truthy (Some (message (summary_data w))))
      with (Py.nonempty (message (summary_data w))).
    now rewrite (nonempty_true _ Hm).
  - intros Hs Hm.
    apply String.eqb_neq in Hs. rewrite Hs, Hm. reflexivity.
  - intros before rest Hbar.
    exact (split_first_char_go "|" before rest "" Hbar).
  - intros text Hbar. exact (split_plain_char_go "|" text "" Hbar).
Qed.

Lemma summary_entry_gives_the_first_reason_witness :
  report (batch_doi "10.1000/xyz") "10.1000/xyz"
    (set_summary_data
       (set_message ("Lookup failed for a|b." ++ " | " ++ "Sci-Hub download failed: no frame")
          (set_status "FAILURE" empty_summary)) world0)
  = (Ok tt,
     set_fs (fs world0
             ++ [SummaryAppend "papers/summary.txt" "10.1000/xyz" "FAILURE"
                   (Some "Lookup failed for a")])
       (set_summary_data
          (set_message ("Lookup failed for a|b." ++ " | "
                        ++ "Sci-Hub download failed: no frame")
             (set_status "FAILURE" empty_summary)) world0)).
Proof.
  exact (proj1 (proj2 (summary_entry_gives_the_first_reason (batch_doi "10.1000/xyz")
                         "10.1000/xyz"
                         (set_summary_data
                            (set_message ("Lookup failed for a|b." ++ " | "
                                          ++ "Sci-Hub download failed: no frame")
                               (set_status "FAILURE" empty_summary)) world0)
                         eq_refl))
           ltac:(discriminate) ltac:(discriminate)).
Defined.

(** ** A DOI given as a URL *)

Lemma startswith_get p :
  forall s k x, Py.startswith s p = true ->
    String.get k p = Some x -> String.get k s = Some x.
Proof.
  induction p as [|a p IH]; intros s k x H Hk; [discriminate Hk|].
  destruct s as [|b s]; [discriminate H|].
  cbn [Py.startswith] in H. apply andb_true_iff in H as [Hab Hs].
  apply Ascii.eqb_eq in Hab. subst b.
  destruct k as [|k]; cbn [String.get] in *; [exact Hk | exact (IH s k x Hs Hk)].
Qed.

Lemma get_after pre t : String.get (String.length pre) (pre ++ t) = String.get 0 t.
Proof. induction pre as [|c pre IH]; [reflexivity | exact IH]. Qed.

(** Two occurrences of [doi.org/] do not overlap. *)
Lemma doi_org_no_overlap pre d :
  1 <= String.length pre <= 7 ->
  Py.startswith (pre ++ "doi.org/" ++ d) "doi.org/" = false.
Proof.
  intros Hlen.
  destruct (Py.startswith (pre ++ "doi.org/" ++ d) "doi.org/") eqn:E; [|reflexivity].
  exfalso.
  pose proof (get_after pre ("doi.org/" ++ d)) as Hg.
  change (String.get 0 ("doi.org/" ++ d)) with (Some "d"%char) in Hg.
  pose proof (fun x => startswith_get "doi.org/" _ (String.length pre) x E) as Hs.
  destruct (String.length pre) as [|[|[|[|[|[|[|[|k]]]]]]]]; try lia;
    cbn [String.get] in Hs;
    specialize (Hs _ eq_refl); rewrite Hg in Hs; discriminate Hs.
Qed.

Lemma split_go_skip sep :
  forall k cur s, Py.split_go sep k cur s = Py.split_go sep 0 cur (Py.drop k s).
Proof.
  induction k as [|k IH]; intros cur s; [reflexivity|].
  destruct s as [|c s]; [reflexivity|]. cbn [Py.split_go Py.drop]. apply IH.
Qed.

Lemma split_go_none sep :
  forall d cur, Py.contains d sep = false -> Py.split_go sep 0 cur d = [cur ++ d].
Proof.
  induction d as [|c d IH]; intros cur H.
  - cbn. now rewrite append_empty.
  - rewrite contains_unfold in H. apply orb_false_iff in H as [Hs Hc].
    cbn [Py.split_go]. rewrite Hs, (IH _ Hc). now rewrite append_assoc.
Qed.

Lemma drop_app_long pre t : forall k,
  k <= String.length pre -> Py.drop k (pre ++ t) = Py.drop k pre ++ t.
Proof.
  induction pre as [|c pre IH]; intros k Hk.
  - cbn in Hk. assert (k = 0) by lia. subst k. reflexivity.
  - destruct k as [|k]; [reflexivity|]. cbn [append Py.drop]. apply IH. cbn in Hk. lia.
Qed.

Lemma length_drop k : forall s, String.length (Py.drop k s) = String.length s - k.
Proof.
  induction k as [|k IH]; intros [|c s]; cbn; try lia. apply IH.
Qed.

Lemma split_go_cons sep cur c s :
  Py.split_go sep 0 cur (String c s)
  = if Py.startswith (String c s) sep
    then cur :: Py.split_go sep (String.length sep - 1) "" s
    else Py.split_go sep 0 (cur ++ String c "") s.
Proof. reflexivity. Qed.

Lemma split_go_nonempty sep : forall s k cur, Py.split_go sep k cur s <> [].
Proof.
  induction s as [|c s IH]; intros k cur; [discriminate|].
  destruct k as [|k]; [|apply IH].
  rewrite split_go_cons. destruct (Py.startswith (String c s) sep); [discriminate|apply IH].
Qed.

Lemma last_cons {A} (x : A) l d : l <> [] -> last (x :: l) d = last l d.
Proof. destruct l; [congruence | reflexivity]. Qed.

Lemma split_last_doi_org_go n :
  forall pre d cur,
    String.length pre <= n ->
    Py.contains d "doi.org/" = false ->
    last (Py.split_go "doi.org/" 0 cur (pre ++ "doi.org/" ++ d)) "" = d.
Proof.
  induction n as [|n IH]; intros pre d cur Hn Hd.
  - destruct pre; [|cbn in Hn; lia].
    change ("" ++ "doi.org/" ++ d) with (String "d" ("oi.org/" ++ d)).
    rewrite split_go_cons.
    assert (Hs : Py.startswith (String "d" ("oi.org/" ++ d)) "doi.org/" = true)
      by apply (startswith_app "doi.org/" d).
    rewrite Hs, split_go_skip.
    change (Py.drop (String.length "doi.org/" - 1) ("oi.org/" ++ d)) with d.
    rewrite (split_go_none _ _ _ Hd). reflexivity.
  - destruct pre as [|c pre].
    + apply (IH "" d cur); [cbn; lia | exact Hd].
    + change (String c pre ++ "doi.org/" ++ d) with (String c (pre ++ "doi.org/" ++ d)).
      rewrite split_go_cons.
      destruct (Py.startswith (String c (pre ++ "doi.org/" ++ d)) "doi.org/") eqn:E.
      * rewrite split_go_skip, last_cons by apply split_go_nonempty.
        destruct (Nat.le_gt_cases 7 (String.length pre)) as [Hlong|Hshort].
        -- change (String.length "doi.org/" - 1) with 7.
           rewrite (drop_app_long pre _ 7 Hlong).
           apply IH; [|exact Hd]. rewrite length_drop. cbn in Hn. lia.
        -- change (String c (pre ++ "doi.org/" ++ d))
             with (String c pre ++ "doi.org/" ++ d) in E.
           rewrite (doi_org_no_overlap (String c pre) d) in E; [discriminate E|].
           cbn [String.length]. lia.
      * apply IH; [cbn in Hn; lia | exact Hd].
Qed.

Lemma split_last_doi_org pre d :
  Py.contains d "doi.org/" = false ->
  Py.split_last (pre ++ "doi.org/" ++ d) "doi.org/" = d.
Proof.
  intros Hd. unfold Py.split_last, Py.split.
  now apply (split_last_doi_org_go (String.length pre)).
Qed.

(** X24. A URL that contains [doi.org/] is looked up as the DOI that
    follows the last [doi.org/]: the query sent is the one of that DOI. *)
Theorem doi_link_is_looked_up_as_its_doi :
  forall env pre d w,
    Py.contains d "doi.org/" = false ->
    build_query None None (Some (pre ++ "doi.org/" ++ d)) w
    = (Ok (base_api_url ++ "/https://doi.org/" ++ d, [],
           "URL (interpreted as DOI): " ++ pre ++ "doi.org/" ++ d), w)
    /\ api_requests
         (snd (get_paper_metadata env None None (Some (pre ++ "doi.org/" ++ d)) w))
       = (api_requests w ++ [((base_api_url ++ "/https://doi.org/" ++ d)%string, [])])%list.
Proof.
  intros env pre d w Hd.
  assert (Hq : forall w0,
             build_query None None (Some (pre ++ "doi.org/" ++ d)) w0
             = (Ok (base_api_url ++ "/https://doi.org/" ++ d, [],
                    "URL (interpreted as DOI): " ++ pre ++ "doi.org/" ++ d), w0)).
  { intros w0. unfold build_query. cbn [Py.truthy value].
    assert (Hne : Py.nonempty (pre ++ "doi.org/" ++ d) = true) by (destruct pre; reflexivity).
    rewrite Hne.
    assert (Hc : Py.contains (pre ++ "doi.org/" ++ d) "doi.org" = true)
      by apply (contains_app pre "doi.org" ("/" ++ d)).
    rewrite Hc, (split_last_doi_org pre d Hd). reflexivity. }
  split; [apply Hq|].
  now rewrite (resolver_request env None None (Some (pre ++ "doi.org/" ++ d)) _ _ _ w Hq).
Qed.

Lemma doi_link_is_looked_up_as_its_doi_witness :
  build_query None None (Some ("https://dx." ++ "doi.org/" ++ "10.1000/xyz")) world0
  = (Ok (base_api_url ++ "/https://doi.org/" ++ "10.1000/xyz", [],
         "URL (interpreted as DOI): " ++ "https://dx." ++ "doi.org/" ++ "10.1000/xyz"),
     world0).
Proof.
  exact (proj1 (doi_link_is_looked_up_as_its_doi env_offline "https://dx." "10.1000/xyz"
                  world0 eq_refl)).
Defined.
